(** * carbon_footprint_check.py: the analysis and reporting pipeline

    A shallow embedding of [06-sustainability/scripts/carbon_footprint_check.py].

    Conventions of the embedding.
    - Standard output is a list of [line]s, one per printed line.  A line
      whose text is a constant of the source is [Text] with that text; a line
      built by an f-string keeps the interpolated values as fields.
    - Python exceptions are values of [exn]; code that prints or may raise
      lives in the monad [io], a writer over the output with an exception
      result.  [try_except] is the [try: ... except ...:] statement.
    - The AWS account the script looks at is a [session] record of query
      results.

    The source is embedded twice.
    - The first embedding is the script over exact numbers: Python [float]s
      are rationals ([Q]), so that sums, quotients and comparisons are the
      mathematical ones, and a failing query is a botocore [ClientError],
      the only class the handlers of the query phases name.  It carries the
      properties of the structure of the report: classification, tallies,
      guidance, labels, notices.
    - [Machine] is the script as the interpreter runs it: [float]s are IEEE
      754 binary64 numbers, [int()] raises on a NaN or an infinity, a client
      creation or a query may raise any exception, and the guarded import
      and the argument parser stand before [main].  It carries the
      properties that depend on rounding or on which exceptions escape: the
      utilization aggregate, the cost table and the exit status.
    Integers counted by the script are [nat]. *)

From Stdlib Require Import List String Ascii Bool Arith ZArith QArith Qround.
From Stdlib Require Import Lia Lqa Permutation Sorted.
From Stdlib Require Floats Qpower.
Import ListNotations.

Set Implicit Arguments.

(** ** Python string primitives used by the script *)

Module PyStr.

Open Scope string_scope.

(** [s.split(sep)] for a one-character separator: never the empty list. *)
Fixpoint split (sep : ascii) (s : string) : list string :=
  match s with
  | EmptyString => [EmptyString]
  | String c s' =>
      if Ascii.eqb c sep then EmptyString :: split sep s'
      else match split sep s' with
           | [] => [String c EmptyString]
           | w :: ws => String c w :: ws
           end
  end.

(** [s.startswith(pre)] *)
Fixpoint startswith (s pre : string) : bool :=
  match pre, s with
  | EmptyString, _ => true
  | String a pre', String b s' => Ascii.eqb a b && startswith s' pre'
  | String _ _, EmptyString => false
  end.

(** [s.endswith(suf)] *)
Fixpoint endswith (s suf : string) : bool :=
  if String.eqb s suf then true
  else match s with
       | EmptyString => false
       | String _ s' => endswith s' suf
       end.

(** [sub in s] on strings: [sub] occurs in [s] as a contiguous substring. *)
Fixpoint str_in (sub s : string) : bool :=
  startswith s sub ||
  match s with
  | EmptyString => false
  | String _ s' => str_in sub s'
  end.

(** [s[1:]]: slicing never raises, an empty string stays empty. *)
Definition slice_from_1 (s : string) : string :=
  match s with
  | EmptyString => EmptyString
  | String _ s' => s'
  end.

(** [s * n] *)
Fixpoint repeat_str (s : string) (n : nat) : string :=
  match n with
  | O => EmptyString
  | S n' => (s ++ repeat_str s n')%string
  end.

(** [c] occurs in [s]. *)
Fixpoint has_char (c : ascii) (s : string) : bool :=
  match s with
  | EmptyString => false
  | String a s' => Ascii.eqb a c || has_char c s'
  end.

End PyStr.

(** ** Exceptions and the output monad *)

Inductive exn : Type :=
| NoCredentialsError
| ProfileNotFound (msg : string)
| ClientError (code message : string)
| IndexError
| SystemExit (status : Z).

(** The body of a [ClientError]: [e.response["Error"]["Code"]] and
    [e.response["Error"]["Message"]]. *)
Record client_error : Type := mkClientError {
  err_code : string;
  err_message : string
}.

Definition raise_client_error (e : client_error) : exn :=
  ClientError (err_code e) (err_message e).

(** One printed line. *)
Inductive line : Type :=
| Blank                                  (* print() *)
| Text (s : string)                      (* a constant line of the source *)
| AuthAccount (account : string)         (* [인증 확인] AWS 계정: {identity['Account']} *)
| AuthArn (arn : string)                 (* [인증 확인] 사용자: {identity['Arn']} *)
| AuthRegion (region : option string)    (* [인증 확인] 리전: {session.region_name} *)
| ProfileErrorLine (msg : string)        (* 오류: {e} *)
| RunningCount (n : nat)                 (* 실행 중인 인스턴스: {len(instances)}개 *)
| CwFailed (code : string)               (*     ⚠ CloudWatch 메트릭 조회 실패: {error_code} *)
| InstanceHeader (id type arch_label : string)
                                         (*   {instance_id} ({instance_type}) [{arch_label}] *)
| InstanceName (shown : string)          (*     이름: {name_tag or '(없음)'} *)
| InstanceCpu (avg_cpu : option Q)       (*     7일 평균 CPU: {cpu_display} *)
| GravitonCount (n : nat)                (*   Graviton(ARM) 인스턴스: {graviton_count}개 *)
| X86Count (n : nat)                     (*   x86 인스턴스: {x86_count}개 *)
| GravitonRatio (ratio : Q)              (*   Graviton 비율: {graviton_ratio:.1f}% *)
| LowCount (n : nat)                     (*   사용률 낮은 인스턴스: {len(low_utilization)}개 *)
| Ec2Failed (message : string)           (* EC2 정보 조회 실패: {e.response['Error']['Message']} *)
| TotalCost (total_cost : Q)             (* 총 비용: ${total_cost:.2f} *)
| CostRow (cost percentage : Q) (bar_length : Z) (service_name : string)
                                         (*   ${cost:>8.2f} ({percentage:>5.1f}%) {bar} {service_name} *)
| CostFailed (message : string)          (* 비용 정보 조회 실패: {e.response['Error']['Message']} *)
| ResourceType (resource_type : string)  (*   리소스 유형: {resource_type} *)
| FindingLine (label : string) (value : Q)
                                         (*     {label}: {value}개 *)
| CoFailed (message : string).           (* Compute Optimizer 조회 실패: {e.response['Error']['Message']} *)

Definition io (A : Type) : Type := (list line * (exn + A))%type.

Definition ret {A} (a : A) : io A := ([], inr a).

Definition bind {A B} (m : io A) (f : A -> io B) : io B :=
  match m with
  | (out, inl e) => (out, inl e)
  | (out, inr a) => let (out', r) := f a in (out ++ out', r)
  end.

Definition print (l : line) : io unit := ([l], inr tt).

Definition prints (ls : list line) : io unit := (ls, inr tt).

Definition raise {A} (e : exn) : io A := ([], inl e).

(** [try: body except ...: handler].  [handler e] is [None] when no
    [except] clause matches [e], which then propagates. *)
Definition try_except {A} (body : io A) (handler : exn -> option (io A)) : io A :=
  match body with
  | (out, inr a) => (out, inr a)
  | (out, inl e) =>
      match handler e with
      | Some h => let (out', r) := h in (out ++ out', r)
      | None => (out, inl e)
      end
  end.

(** [except ClientError as e:] *)
Definition except_ClientError {A} (h : client_error -> io A) (e : exn) : option (io A) :=
  match e with
  | ClientError code message => Some (h (mkClientError code message))
  | _ => None
  end.

(** A service call: its response, or the [ClientError] it raises. *)
Definition call {A} (r : client_error + A) : io A :=
  match r with
  | inl e => raise (raise_client_error e)
  | inr a => ret a
  end.

(** [l[0]] *)
Definition index0 {A} (l : list A) : io A :=
  match l with
  | [] => raise IndexError
  | x :: _ => ret x
  end.

(** [d.get(key, default)] on an optional field. *)
Definition get {A} (field : option A) (default : A) : A :=
  match field with
  | Some a => a
  | None => default
  end.

Declare Scope io_scope.
Delimit Scope io_scope with io.
Notation "x <- m ;; k" := (bind m (fun x => k))
  (at level 61, m at next level, right associativity) : io_scope.
Notation "m ;;; k" := (bind m (fun _ => k))
  (at level 61, right associativity) : io_scope.

Definition output {A} (m : io A) : list line := fst m.
Definition result {A} (m : io A) : exn + A := snd m.

(** ** The account as the script sees it *)

(** A tag of an instance. *)
Record tag : Type := mkTag {
  Key : string;
  Value : string
}.

(** An element of [reservation["Instances"]]; [Tags] may be absent. *)
Record instance : Type := mkInstance {
  InstanceId : string;
  InstanceType : string;
  Tags : option (list tag)
}.

Record reservation : Type := mkReservation {
  Instances : option (list instance)
}.

Record describe_instances_response : Type := mkDescribeInstances {
  Reservations : option (list reservation)
}.

(** A datapoint of [get_metric_statistics] with [Statistics=["Average"]]. *)
Record datapoint : Type := mkDatapoint {
  Average : Q
}.

Record metric_response : Type := mkMetricResponse {
  Datapoints : option (list datapoint)
}.

(** A group of a cost result: [Keys_0] is [group["Keys"][0]] and [Amount] is
    [float(group["Metrics"]["UnblendedCost"]["Amount"])]. *)
Record group : Type := mkGroup {
  Keys_0 : string;
  Amount : Q
}.

Record result_by_time : Type := mkResultByTime {
  Groups : option (list group)
}.

Record cost_response : Type := mkCostResponse {
  ResultsByTime : option (list result_by_time)
}.

(** A finding of a recommendation summary; both keys may be absent. *)
Record finding : Type := mkFinding {
  name : option string;
  value : option Q
}.

Record summary : Type := mkSummary {
  recommendationResourceType : option string;
  summaries : option (list finding)
}.

Record optimizer_response : Type := mkOptimizerResponse {
  recommendationSummaries : option (list summary)
}.

(** [sts.get_caller_identity()] *)
Record identity : Type := mkIdentity {
  Account : string;
  Arn : string
}.

(** A [boto3.Session] with the answers of the services behind it.  The
    metrics query is asked per instance id. *)
Record session : Type := mkSession {
  region_name : option string;
  get_caller_identity : exn + identity;
  describe_instances : client_error + describe_instances_response;
  get_metric_statistics : string -> client_error + metric_response;
  get_cost_and_usage : client_error + cost_response;
  get_recommendation_summaries : client_error + optimizer_response
}.

(** [boto3.Session] applied to the keyword arguments [profile_name] and
    [region_name], each passed or left out. *)
Record boto3 : Type := mkBoto3 {
  Session : option string -> option string -> exn + session
}.

(** A call that may raise any exception. *)
Definition lift {A} (r : exn + A) : io A :=
  match r with
  | inl e => raise e
  | inr a => ret a
  end.

(** [for x in l: body] with the variables the body updates as state. *)
Fixpoint for_each {A S} (l : list A) (body : A -> S -> io S) (s : S) : io S :=
  match l with
  | [] => ret s
  | x :: l' => bind (body x s) (for_each l' body)
  end.

(** ** Numbers *)

Definition Q_of_nat (n : nat) : Q := inject_Z (Z.of_nat n).

(** [a < b] and [a > b] on floats. *)
Definition Qltb (a b : Q) : bool := negb (Qle_bool b a).
Definition Qgtb (a b : Q) : bool := Qltb b a.

(** [int(x)]: truncation toward zero. *)
Definition py_int (x : Q) : Z := Z.quot (Qnum x) (Zpos (Qden x)).

(** [sum(xs)]: from 0, left to right. *)
Definition py_sum (xs : list Q) : Q := fold_left Qplus xs 0%Q.

(** ** create_session *)

Open Scope string_scope.
Open Scope list_scope.
Open Scope io_scope.

(** [if profile:] keeps a non-empty string only. *)
Definition truthy (s : option string) : option string :=
  match s with
  | Some (String c r) => Some (String c r)
  | _ => None
  end.

Definition create_session (b : boto3) (profile region : option string) : io session :=
  try_except
    (session <- lift (Session b (truthy profile) (truthy region)) ;;
     identity <- lift (get_caller_identity session) ;;
     prints [AuthAccount (Account identity);
             AuthArn (Arn identity);
             AuthRegion (region_name session);
             Blank] ;;;
     ret session)
    (fun e =>
       match e with
       | NoCredentialsError =>
           Some (prints [Text "오류: AWS 자격 증명을 찾을 수 없습니다.";
                         Text "해결 방법:";
                         Text "  1. aws configure 명령으로 자격 증명을 설정하세요";
                         Text "  2. --profile 옵션으로 프로파일을 지정하세요";
                         Text "  3. 환경 변수 AWS_ACCESS_KEY_ID, AWS_SECRET_ACCESS_KEY를 설정하세요"] ;;;
                 raise (SystemExit 1))
       | ProfileNotFound msg =>
           Some (prints [ProfileErrorLine msg;
                         Text "사용 가능한 프로파일을 확인하세요: cat ~/.aws/credentials"] ;;;
                 raise (SystemExit 1))
       | _ => None
       end).

Close Scope Q_scope.

(** ** check_ec2_utilization *)

(** [print("=" * 60)] *)
Definition banner : line := Text (PyStr.repeat_str "=" 60).

(** An element of [low_utilization]. *)
Record low_entry : Type := mkLowEntry {
  low_id : string;
  low_type : string;
  low_name : string;
  low_avg_cpu : Q
}.

(** The variables the instance loop updates. *)
Record ec2_state : Type := mkEc2State {
  low_utilization : list low_entry;
  graviton_count : nat;
  x86_count : nat
}.

(** [family = instance_type.split(".")[0]] *)
Definition family_of (instance_type : string) : io string :=
  index0 (PyStr.split "." instance_type).

(** [is_graviton = family.endswith("g") or "g" in family[1:]] *)
Definition is_graviton (family : string) : bool :=
  PyStr.endswith family "g" || PyStr.str_in "g" (PyStr.slice_from_1 family).

(** [sum(dp["Average"] for dp in datapoints) / len(datapoints)] when
    [datapoints] is not empty, else [None]. *)
Definition average_cpu (datapoints : list datapoint) : option Q :=
  match datapoints with
  | [] => None
  | _ :: _ =>
      Some (py_sum (map Average datapoints) / Q_of_nat (List.length datapoints))%Q
  end.

Definition cloudwatch_permission_notice : line :=
  Text "    ⚠ CloudWatch 권한 부족: cloudwatch:GetMetricStatistics 권한이 필요합니다.".

(** [error_code in ("AccessDeniedException", "AccessDenied")] *)
Definition is_access_denied (error_code : string) : bool :=
  String.eqb error_code "AccessDeniedException" || String.eqb error_code "AccessDenied".

(** The inner [try] of the loop: the metrics query and its handler. *)
Definition query_avg_cpu (s : session) (instance_id : string) : io (option Q) :=
  try_except
    (metric_response <- call (get_metric_statistics s instance_id) ;;
     let datapoints := get (Datapoints metric_response) [] in
     ret (average_cpu datapoints))
    (except_ClientError (fun e =>
       let error_code := err_code e in
       (if is_access_denied error_code
        then print cloudwatch_permission_notice
        else print (CwFailed error_code)) ;;;
       ret None)).

(** The tag loop: the value of the first tag whose key is [Name], else [""]. *)
Fixpoint find_name_tag (tags : list tag) : string :=
  match tags with
  | [] => ""
  | t :: tags' => if String.eqb (Key t) "Name" then Value t else find_name_tag tags'
  end.

(** [name_tag or '(없음)'] *)
Definition name_or_none (name_tag : string) : string :=
  match name_tag with
  | EmptyString => "(없음)"
  | String _ _ => name_tag
  end.

Definition low_warning : line :=
  Text "    ⚠ 주의: CPU 사용률이 매우 낮습니다. 적정 크기 조정을 검토하세요.".

(** The body of [for instance in instances:]. *)
Definition instance_body (s : session) (inst : instance) (st : ec2_state) : io ec2_state :=
  let instance_id := InstanceId inst in
  let instance_type := InstanceType inst in
  family <- family_of instance_type ;;
  let graviton := is_graviton family in
  let st1 :=
    if graviton
    then mkEc2State (low_utilization st) (graviton_count st + 1) (x86_count st)
    else mkEc2State (low_utilization st) (graviton_count st) (x86_count st + 1) in
  avg_cpu <- query_avg_cpu s instance_id ;;
  let name_tag := find_name_tag (get (Tags inst) []) in
  let arch_label := if graviton then "ARM(Graviton)" else "x86" in
  print (InstanceHeader instance_id instance_type arch_label) ;;;
  print (InstanceName (name_or_none name_tag)) ;;;
  print (InstanceCpu avg_cpu) ;;;
  st2 <- match avg_cpu with
         | Some cpu =>
             if Qltb cpu 5
             then print low_warning ;;;
                  ret (mkEc2State
                         (low_utilization st1 ++ [mkLowEntry instance_id instance_type name_tag cpu])
                         (graviton_count st1) (x86_count st1))
             else ret st1
         | None => ret st1
         end ;;
  print Blank ;;;
  ret st2.

(** The two loops that flatten the reservations into [instances]. *)
Definition collect_instances (response : describe_instances_response) : list instance :=
  fold_left
    (fun instances reservation =>
       fold_left (fun instances instance => instances ++ [instance])
                 (get (Instances reservation) []) instances)
    (get (Reservations response) []) [].

Definition graviton_suggestion : line :=
  Text "  → 제안: x86 인스턴스를 Graviton으로 전환하면 에너지를 절약할 수 있습니다.".

Definition rightsizing_pointer : line :=
  Text "  → Compute Optimizer를 확인하여 적정 크기로 변경하세요.".

(** [graviton_count / (graviton_count + x86_count) * 100] *)
Definition graviton_ratio (graviton_count x86_count : nat) : Q :=
  (Q_of_nat graviton_count / Q_of_nat (graviton_count + x86_count) * 100)%Q.

(** The lines after the loop. *)
Definition ec2_summary (st : ec2_state) : io unit :=
  prints [Text "--- 요약 ---";
          GravitonCount (graviton_count st);
          X86Count (x86_count st)] ;;;
  (if Nat.ltb 0 (graviton_count st + x86_count st)
   then
     let ratio := graviton_ratio (graviton_count st) (x86_count st) in
     print (GravitonRatio ratio) ;;;
     (if Qltb ratio 50 then print graviton_suggestion else ret tt)
   else ret tt) ;;;
  match low_utilization st with
  | [] => ret tt
  | _ :: _ =>
      prints [Blank;
              LowCount (List.length (low_utilization st));
              rightsizing_pointer]
  end ;;;
  print Blank.

Definition no_instances_lines : list line :=
  [Text "실행 중인 EC2 인스턴스가 없습니다.";
   Text "→ 서버리스 아키텍처를 사용 중이라면 이미 좋은 선택입니다!";
   Blank].

Definition check_ec2_utilization (s : session) : io unit :=
  prints [banner; Text "1. EC2 인스턴스 사용률 분석"; banner] ;;;
  try_except
    (response <- call (describe_instances s) ;;
     let instances := collect_instances response in
     match instances with
     | [] => prints no_instances_lines
     | _ :: _ =>
         prints [RunningCount (List.length instances); Blank] ;;;
         st <- for_each instances (instance_body s) (mkEc2State [] 0 0) ;;
         ec2_summary st
     end)
    (except_ClientError (fun e =>
       prints [Ec2Failed (err_message e); Blank])).

(** ** check_cost_by_service *)

(** The variables the two cost loops update. *)
Record cost_state : Type := mkCostState {
  total_cost : Q;
  services : list (string * Q)
}.

(** The body of [for group in result.get("Groups", []):]. *)
Definition record_group (st : cost_state) (g : group) : cost_state :=
  let service_name := Keys_0 g in
  let cost := Amount g in
  if Qgtb cost (1 # 100)
  then mkCostState (total_cost st + cost)%Q (services st ++ [(service_name, cost)])
  else st.

Definition collect_costs (response : cost_response) : cost_state :=
  fold_left
    (fun st result => fold_left record_group (get (Groups result) []) st)
    (get (ResultsByTime response) [])
    (mkCostState 0%Q []).

(** [services.sort(key=lambda x: x[1], reverse=True)].  [list.sort] is
    stable and [reverse=True] keeps the original order of entries with equal
    keys, which fixes the result; it is computed here by insertion from the
    right, an entry going before the first one that does not cost more. *)
Fixpoint insert_desc (x : string * Q) (l : list (string * Q)) : list (string * Q) :=
  match l with
  | [] => [x]
  | y :: l' => if Qltb (snd x) (snd y) then y :: insert_desc x l' else x :: l
  end.

Definition sort_by_cost_desc (l : list (string * Q)) : list (string * Q) :=
  fold_right insert_desc [] l.

(** [bar_length = int(cost / total_cost * 30) if total_cost > 0 else 0] *)
Definition bar_length_of (total_cost cost : Q) : Z :=
  if Qgtb total_cost 0 then py_int (cost / total_cost * 30)%Q else 0%Z.

(** [percentage = cost / total_cost * 100 if total_cost > 0 else 0] *)
Definition percentage_of (total_cost cost : Q) : Q :=
  if Qgtb total_cost 0 then (cost / total_cost * 100)%Q else 0%Q.

(** The body of [for service_name, cost in services[:10]:]. *)
Definition cost_row (total_cost : Q) (entry : string * Q) : line :=
  let '(service_name, cost) := entry in
  CostRow cost (percentage_of total_cost cost) (bar_length_of total_cost cost) service_name.

Definition suggest_EC2 : line :=
  Text "  → EC2: Graviton 인스턴스 전환, 적정 크기 조정, Auto Scaling 검토".
Definition suggest_RDS : line :=
  Text "  → RDS: Aurora Serverless v2 전환 검토, 읽기 복제본 최적화".
Definition suggest_S3 : line :=
  Text "  → S3: 수명주기 정책으로 불필요 데이터 자동 정리".
Definition suggest_Lambda : line :=
  Text "  → Lambda: ARM 아키텍처 전환, 메모리 최적화 (Power Tuning)".
Definition suggest_DynamoDB : line :=
  Text "  → DynamoDB: 온디맨드 vs 프로비저닝 모드 비교 분석".

(** The body of [for service_name, cost in services[:5]:]. *)
Definition suggestion (entry : string * Q) : io unit :=
  let '(service_name, cost) := entry in
  if PyStr.str_in "EC2" service_name then print suggest_EC2
  else if PyStr.str_in "RDS" service_name then print suggest_RDS
  else if PyStr.str_in "S3" service_name then print suggest_S3
  else if PyStr.str_in "Lambda" service_name then print suggest_Lambda
  else if PyStr.str_in "DynamoDB" service_name then print suggest_DynamoDB
  else ret tt.

Definition no_cost_lines : list line :=
  [Text "최근 30일간 비용이 발생하지 않았습니다."; Blank].

Definition suggestions_header : line := Text "--- 지속 가능성 제안 ---".

Definition check_cost_by_service (s : session) : io unit :=
  prints [banner; Text "2. 서비스별 비용 분석 (최근 30일)"; banner] ;;;
  try_except
    (response <- call (get_cost_and_usage s) ;;
     let st := collect_costs response in
     match services st with
     | [] => prints no_cost_lines
     | _ :: _ =>
         let services := sort_by_cost_desc (services st) in
         prints [Blank; TotalCost (total_cost st); Blank] ;;;
         for_each (firstn 10 services)
                  (fun entry _ => print (cost_row (total_cost st) entry)) tt ;;;
         prints [Blank; suggestions_header] ;;;
         for_each (firstn 5 services) (fun entry _ => suggestion entry) tt ;;;
         print Blank
     end)
    (except_ClientError (fun e =>
       prints [CostFailed (err_message e);
               Text "참고: Cost Explorer는 활성화되어 있어야 합니다.";
               Blank])).

(** ** check_compute_optimizer *)

(** The [if]/[elif] chain that chooses [label]. *)
Definition label_of (name : string) : string :=
  if String.eqb name "OVER_PROVISIONED" then "과도 프로비저닝 (줄일 수 있음)"
  else if String.eqb name "UNDER_PROVISIONED" then "부족 프로비저닝 (늘려야 함)"
  else if String.eqb name "OPTIMIZED" then "최적화됨"
  else if String.eqb name "NOT_OPTIMIZED" then "최적화되지 않음"
  else name.

(** The body of [for finding in finding_summaries:]. *)
Definition finding_body (finding : finding) : io unit :=
  let name := get (name finding) "Unknown" in
  let value := get (value finding) 0%Q in
  if Qgtb value 0 then print (FindingLine (label_of name) value) else ret tt.

(** The body of [for summary in summaries:]. *)
Definition summary_body (summary : summary) : io unit :=
  let resource_type := get (recommendationResourceType summary) "Unknown" in
  let finding_summaries := get (summaries summary) [] in
  prints [Blank; ResourceType resource_type] ;;;
  for_each finding_summaries (fun finding _ => finding_body finding) tt.

Definition optimizer_howto : line :=
  Text "활성화 방법: AWS 콘솔 > Compute Optimizer > Opt in".

Definition optimizer_no_data : line :=
  Text "Compute Optimizer가 활성화되지 않았거나 데이터가 충분하지 않습니다.".

Definition optimizer_not_enabled : line :=
  Text "Compute Optimizer가 활성화되지 않았습니다.".

Definition check_compute_optimizer (s : session) : io unit :=
  prints [banner; Text "3. Compute Optimizer 추천 요약"; banner] ;;;
  try_except
    (response <- call (get_recommendation_summaries s) ;;
     let summaries := get (recommendationSummaries response) [] in
     match summaries with
     | [] => prints [optimizer_no_data; optimizer_howto; Blank]
     | _ :: _ =>
         for_each summaries (fun summary _ => summary_body summary) tt ;;;
         print Blank
     end)
    (except_ClientError (fun e =>
       let error_code := err_code e in
       (if String.eqb error_code "OptInRequiredException"
        then prints [optimizer_not_enabled; optimizer_howto]
        else print (CoFailed (err_message e))) ;;;
       print Blank)).

(** ** check_sustainability_tips *)

Definition checklist : list (string * list string) :=
  [("컴퓨팅",
    ["[ ] EC2 인스턴스를 Graviton(ARM)으로 전환했는가?";
     "[ ] 사용률이 낮은 인스턴스를 적정 크기로 조정했는가?";
     "[ ] Auto Scaling을 적용하여 수요에 맞게 확장/축소하는가?";
     "[ ] 개발/테스트 환경은 야간/주말에 중지하는가?";
     "[ ] 서버리스(Lambda, Fargate)로 전환 가능한 워크로드가 있는가?"]);
   ("스토리지",
    ["[ ] S3 수명주기 정책으로 오래된 데이터를 저렴한 스토리지 클래스로 이동하는가?";
     "[ ] 사용하지 않는 EBS 볼륨과 스냅샷을 정리했는가?";
     "[ ] 불필요한 데이터 복제를 줄였는가?"]);
   ("데이터베이스",
    ["[ ] DynamoDB는 온디맨드 모드를 사용하는가? (트래픽이 불규칙한 경우)";
     "[ ] RDS는 Aurora Serverless v2로 전환 가능한가?";
     "[ ] 읽기 복제본이 실제로 필요한 만큼만 있는가?"]);
   ("네트워크",
    ["[ ] CloudFront를 사용하여 오리진 서버 부하를 줄이고 있는가?";
     "[ ] 불필요한 데이터 전송을 최소화하고 있는가? (압축, 캐싱)";
     "[ ] 사용하지 않는 NAT Gateway나 로드 밸런서가 있는가?"]);
   ("모니터링",
    ["[ ] Customer Carbon Footprint Tool을 정기적으로 확인하는가?";
     "[ ] Compute Optimizer를 활성화하고 추천을 검토하는가?";
     "[ ] Trusted Advisor의 비용 최적화 항목을 정기적으로 확인하는가?"])].

Definition check_sustainability_tips (s : session) : io unit :=
  prints [banner; Text "4. 지속 가능성 개선 체크리스트"; banner] ;;;
  for_each checklist
    (fun section _ =>
       prints [Blank; Text ("  [" ++ fst section ++ "]")%string] ;;;
       for_each (snd section) (fun item _ => print (Text ("    " ++ item)%string)) tt)
    tt ;;;
  prints [Blank;
          Text "--- Customer Carbon Footprint Tool 확인 방법 ---";
          Text "  AWS 콘솔 > Billing and Cost Management > Carbon Footprint";
          Text "  또는: https://console.aws.amazon.com/billing/home#/carbon-footprint";
          Blank].

(** ** main *)

(** The parsed command line. *)
Record args : Type := mkArgs {
  profile : option string;
  region : option string;
  skip_cost : bool
}.

Definition header : list line :=
  [Blank;
   Text "╔════════════════════════════════════════════════════════╗";
   Text "║   AWS 지속 가능성 (Sustainability) 검사 도구          ║";
   Text "║   Well-Architected Framework - 6th Pillar             ║";
   Text "╚════════════════════════════════════════════════════════╝";
   Blank;
   Text "이 도구는 AWS 계정의 지속 가능성 상태를 분석하고";
   Text "개선 방안을 제안합니다.";
   Blank].

Definition footer : list line :=
  [Text "╔════════════════════════════════════════════════════════╗";
   Text "║   검사 완료!                                         ║";
   Text "║                                                      ║";
   Text "║   기억하세요:                                        ║";
   Text "║   '측정할 수 없으면 개선할 수 없다'                  ║";
   Text "║   정기적으로 이 도구를 실행하여                      ║";
   Text "║   지속 가능성 상태를 모니터링하세요.                  ║";
   Text "╚════════════════════════════════════════════════════════╝";
   Blank].

Definition skip_cost_lines : list line :=
  [Text "비용 분석을 건너뜁니다. (--skip-cost 옵션)"; Blank].

Definition main (b : boto3) (a : args) : io unit :=
  prints header ;;;
  session <- create_session b (profile a) (region a) ;;
  check_ec2_utilization session ;;;
  (if negb (skip_cost a)
   then check_cost_by_service session
   else prints skip_cost_lines) ;;;
  check_compute_optimizer session ;;;
  check_sustainability_tips session ;;;
  prints footer.

(** The status the interpreter exits with: 0 when [main] returns, the
    argument of [sys.exit], and 1 after the traceback of any other exception
    that leaves [main]. *)
Definition exit_status (r : exn + unit) : Z :=
  match r with
  | inr _ => 0
  | inl (SystemExit status) => status
  | inl _ => 1
  end.

(** * Vocabulary of the properties

    What the phases print and return, written as plain functions of the
    account, and the notions the statements below are worded with. *)

(** ** Strings *)

(** [family] is what stands in [s] before the first [sep], all of [s] when
    there is none. *)
Definition before_first (sep : ascii) (s family : string) : Prop :=
  PyStr.has_char sep family = false /\
  (s = family \/ exists tail, s = (family ++ String sep tail)%string).

(** ** Running the monad *)

(** [m] prints [out] and returns [a]. *)
Definition returns {A} (m : io A) (out : list line) (a : A) : Prop :=
  m = (out, inr a).

(** ** The utilization phase, instance by instance *)

Definition family_str (instance_type : string) : string :=
  hd EmptyString (PyStr.split "." instance_type).

Definition instance_is_graviton (inst : instance) : bool :=
  is_graviton (family_str (InstanceType inst)).

(** What the metrics query of an instance leaves behind: a notice when it
    fails, and the aggregate. *)
Definition metric_notice (s : session) (instance_id : string) : list line :=
  match get_metric_statistics s instance_id with
  | inl e =>
      [if is_access_denied (err_code e)
       then cloudwatch_permission_notice
       else CwFailed (err_code e)]
  | inr _ => []
  end.

Definition metric_average (s : session) (instance_id : string) : option Q :=
  match get_metric_statistics s instance_id with
  | inl _ => None
  | inr response => average_cpu (get (Datapoints response) [])
  end.

(** [avg_cpu is not None and avg_cpu < 5.0] *)
Definition is_low (avg_cpu : option Q) : bool :=
  match avg_cpu with
  | Some cpu => Qltb cpu 5
  | None => false
  end.

Definition arch_label_of (inst : instance) : string :=
  if instance_is_graviton inst then "ARM(Graviton)" else "x86".

Definition instance_row (s : session) (inst : instance) : list line :=
  [InstanceHeader (InstanceId inst) (InstanceType inst) (arch_label_of inst);
   InstanceName (name_or_none (find_name_tag (get (Tags inst) [])));
   InstanceCpu (metric_average s (InstanceId inst))].

Definition instance_lines (s : session) (inst : instance) : list line :=
  metric_notice s (InstanceId inst)
  ++ instance_row s inst
  ++ (if is_low (metric_average s (InstanceId inst)) then [low_warning] else [])
  ++ [Blank].

Definition low_entries (s : session) (inst : instance) : list low_entry :=
  match metric_average s (InstanceId inst) with
  | Some cpu =>
      if Qltb cpu 5
      then [mkLowEntry (InstanceId inst) (InstanceType inst)
                       (find_name_tag (get (Tags inst) [])) cpu]
      else []
  | None => []
  end.

Definition instance_next (s : session) (inst : instance) (st : ec2_state) : ec2_state :=
  mkEc2State
    (low_utilization st ++ low_entries s inst)
    (graviton_count st + (if instance_is_graviton inst then 1 else 0))
    (x86_count st + (if instance_is_graviton inst then 0 else 1)).

Definition run_instances (s : session) (instances : list instance) : ec2_state :=
  fold_left (fun st inst => instance_next s inst st) instances (mkEc2State [] 0 0).

(** The lines of the whole phase. *)
Definition ec2_section (s : session) : list line :=
  [banner; Text "1. EC2 인스턴스 사용률 분석"; banner]
  ++ match describe_instances s with
     | inl e => [Ec2Failed (err_message e); Blank]
     | inr response =>
         match collect_instances response with
         | [] => no_instances_lines
         | (_ :: _) as instances =>
             [RunningCount (List.length instances); Blank]
             ++ flat_map (instance_lines s) instances
             ++ output (ec2_summary (run_instances s instances))
         end
     end.

(** ** Rational arithmetic of the script *)

(** The sum of a list of numbers. *)
Definition sum_list (xs : list Q) : Q := fold_right Qplus 0%Q xs.


(** ** Utilization aggregate and the low-utilization flag *)


(** ** The summary of the utilization phase *)

Definition ratio_lines (g x : nat) : list line :=
  if Nat.ltb 0 (g + x)
  then GravitonRatio (graviton_ratio g x)
       :: (if Qltb (graviton_ratio g x) 50 then [graviton_suggestion] else [])
  else [].

Definition low_summary_lines (low : list low_entry) : list line :=
  match low with
  | [] => []
  | _ :: _ => [Blank; LowCount (List.length low); rightsizing_pointer]
  end.

(** ** The cost phase: what is recorded *)

(** Every group of the response, in query order. *)
Definition all_groups (response : cost_response) : list group :=
  flat_map (fun result => get (Groups result) []) (get (ResultsByTime response) []).

(** A group above the materiality floor. *)
Definition is_material (g : group) : bool := Qgtb (Amount g) (1 # 100).

Definition entry_of (g : group) : string * Q := (Keys_0 g, Amount g).

(** ** The cost phase: ranking *)

(** [a] may stand before [b] in a list ordered by descending cost. *)
Definition cost_ge (a b : string * Q) : Prop := (snd b <= snd a)%Q.

(** The entries that cost exactly [c]. *)
Definition costs (c : Q) (e : string * Q) : bool := Qeq_bool (snd e) c.

(** ** The cost phase: its lines *)

(** The lines after the banner when the query returned [st], not empty. *)
Definition cost_table (st : cost_state) : list line :=
  let ranked := sort_by_cost_desc (services st) in
  [Blank; TotalCost (total_cost st); Blank]
  ++ map (cost_row (total_cost st)) (firstn 10 ranked)
  ++ [Blank; suggestions_header]
  ++ flat_map (fun entry => output (suggestion entry)) (firstn 5 ranked)
  ++ [Blank].

Definition cost_section (s : session) : list line :=
  [banner; Text "2. 서비스별 비용 분석 (최근 30일)"; banner]
  ++ match get_cost_and_usage s with
     | inl e =>
         [CostFailed (err_message e);
          Text "참고: Cost Explorer는 활성화되어 있어야 합니다.";
          Blank]
     | inr response =>
         match services (collect_costs response) with
         | [] => no_cost_lines
         | _ :: _ => cost_table (collect_costs response)
         end
     end.

(** ** The cost phase: shares and bars *)

Definition is_cost_row (l : line) : bool :=
  match l with
  | CostRow _ _ _ _ => true
  | _ => false
  end.

(** ** The cost phase: guidance *)

(** The guidance as a table: keyword and suggestion, in the order tried. *)
Definition guidance_rules : list (string * line) :=
  [("EC2", suggest_EC2);
   ("RDS", suggest_RDS);
   ("S3", suggest_S3);
   ("Lambda", suggest_Lambda);
   ("DynamoDB", suggest_DynamoDB)].

(** [keyword] is a substring of [service_name], character for character. *)
Definition occurs (keyword service_name : string) : Prop :=
  exists p q, service_name = (p ++ keyword ++ q)%string.

Definition first_match (service_name : string) : option (string * line) :=
  find (fun rule => PyStr.str_in (fst rule) service_name) guidance_rules.

Definition guidance (service_name : string) : list line :=
  match first_match service_name with
  | Some rule => [snd rule]
  | None => []
  end.

(** ** The recommendation phase *)

(** The fixed mapping from finding category to label. *)
Definition label_table : list (string * string) :=
  [("OVER_PROVISIONED", "과도 프로비저닝 (줄일 수 있음)");
   ("UNDER_PROVISIONED", "부족 프로비저닝 (늘려야 함)");
   ("OPTIMIZED", "최적화됨");
   ("NOT_OPTIMIZED", "최적화되지 않음")].

Definition finding_lines (f : finding) : list line :=
  if Qgtb (get (value f) 0%Q) 0
  then [FindingLine (label_of (get (name f) "Unknown")) (get (value f) 0%Q)]
  else [].

Definition summary_lines (su : summary) : list line :=
  [Blank; ResourceType (get (recommendationResourceType su) "Unknown")]
  ++ flat_map finding_lines (get (summaries su) []).

Definition optimizer_section (s : session) : list line :=
  [banner; Text "3. Compute Optimizer 추천 요약"; banner]
  ++ match get_recommendation_summaries s with
     | inl e =>
         (if String.eqb (err_code e) "OptInRequiredException"
          then [optimizer_not_enabled; optimizer_howto]
          else [CoFailed (err_message e)])
         ++ [Blank]
     | inr response =>
         match get (recommendationSummaries response) [] with
         | [] => [optimizer_no_data; optimizer_howto; Blank]
         | (_ :: _) as summaries => flat_map summary_lines summaries ++ [Blank]
         end
     end.

(** ** The checklist and the whole run *)

Definition tips_section : list line :=
  [banner; Text "4. 지속 가능성 개선 체크리스트"; banner]
  ++ flat_map
       (fun section =>
          [Blank; Text ("  [" ++ fst section ++ "]")%string]
          ++ map (fun item => Text ("    " ++ item)%string) (snd section))
       checklist
  ++ [Blank;
      Text "--- Customer Carbon Footprint Tool 확인 방법 ---";
      Text "  AWS 콘솔 > Billing and Cost Management > Carbon Footprint";
      Text "  또는: https://console.aws.amazon.com/billing/home#/carbon-footprint";
      Blank].

(** Session acquisition: the session and the identity it resolves to, or
    the exception raised on the way. *)
Definition acquire (b : boto3) (profile region : option string) : exn + session * identity :=
  match Session b (truthy profile) (truthy region) with
  | inl e => inl e
  | inr s =>
      match get_caller_identity s with
      | inl e => inl e
      | inr i => inr (s, i)
      end
  end.

Definition auth_lines (s : session) (i : identity) : list line :=
  [AuthAccount (Account i); AuthArn (Arn i); AuthRegion (region_name s); Blank].

(** The section the operator chose for the cost analysis. *)
Definition cost_or_skipped (a : args) (s : session) : list line :=
  if skip_cost a then skip_cost_lines else output (check_cost_by_service s).

(** ** Failures of the metrics query *)

(** [s] with the metrics query answered by [metrics] instead. *)
Definition with_metrics (s : session)
           (metrics : string -> client_error + metric_response) : session :=
  mkSession (region_name s) (get_caller_identity s) (describe_instances s)
            metrics (get_cost_and_usage s) (get_recommendation_summaries s).

(** ** Scenarios *)

Definition operator : identity :=
  mkIdentity "123456789012" "arn:aws:iam::123456789012:user/operator".

Definition instance_1 : instance := mkInstance "i-01" "t4g.micro" None.
Definition instance_2 : instance :=
  mkInstance "i-02" "m5.large" (Some [mkTag "Team" "core"; mkTag "Name" "web"]).
Definition instance_3 : instance := mkInstance "i-03" "c6g.xlarge" (Some []).

(** Three running instances in two reservations. *)
Definition inventory_A : describe_instances_response :=
  mkDescribeInstances
    (Some [mkReservation (Some [instance_1; instance_2]);
           mkReservation (Some [instance_3])]).

Definition samples_1 : metric_response :=
  mkMetricResponse (Some [mkDatapoint 1; mkDatapoint 3]).

(** Utilization 2, 40 and 60. *)
Definition metrics_A (instance_id : string) : client_error + metric_response :=
  if String.eqb instance_id "i-01" then inr samples_1
  else if String.eqb instance_id "i-02"
       then inr (mkMetricResponse (Some [mkDatapoint 40]))
       else inr (mkMetricResponse (Some [mkDatapoint 60])).

(** EC2 at 120, S3 at 30 and an entry below the materiality floor. *)
Definition costs_B : cost_response :=
  mkCostResponse
    (Some [mkResultByTime
             (Some [mkGroup "Amazon Simple Storage Service (S3)" 30;
                    mkGroup "Amazon Elastic Compute Cloud (EC2)" 120;
                    mkGroup "Other" (5 # 1000)])]).

Definition opt_in_required : client_error :=
  mkClientError "OptInRequiredException" "The account is not opted in.".

Definition account_A : session :=
  mkSession (Some "ap-northeast-2") (inr operator) (inr inventory_A) metrics_A
            (inr costs_B) (inl opt_in_required).

Definition access_denied : client_error :=
  mkClientError "AccessDenied" "Not authorized to perform GetMetricStatistics.".

(** [account_A] with the metrics of the second instance denied. *)
Definition account_denied : session :=
  with_metrics account_A
    (fun instance_id =>
       if String.eqb instance_id "i-02" then inl access_denied
       else metrics_A instance_id).

Definition findings_D : optimizer_response :=
  mkOptimizerResponse
    (Some [mkSummary (Some "Ec2Instance")
             (Some [mkFinding (Some "OVER_PROVISIONED") (Some 3%Q);
                    mkFinding (Some "OPTIMIZED") (Some 0%Q);
                    mkFinding (Some "IDLE") (Some 2%Q)])]).

Definition nothing_material : cost_response :=
  mkCostResponse (Some [mkResultByTime (Some [mkGroup "Other" (5 # 1000)])]).

(** An account with no running instance and no material cost. *)
Definition account_empty : session :=
  mkSession None (inr operator) (inr (mkDescribeInstances None))
            (fun _ => inr (mkMetricResponse None))
            (inr nothing_material) (inr findings_D).

(** boto3 installed, every session being [s]. *)
Definition installed (s : session) : boto3 := mkBoto3 (fun _ _ => inr s).

Definition no_options : args := mkArgs None None false.

(** ** Further vocabulary: rows, flags and projections of the account *)

Definition is_instance_header (l : line) : bool :=
  match l with
  | InstanceHeader _ _ _ => true
  | _ => false
  end.

(** The first line of an instance's row. *)
Definition header_of (inst : instance) : line :=
  InstanceHeader (InstanceId inst) (InstanceType inst) (arch_label_of inst).

(** The instance is flagged as a low-utilization instance in [s]. *)
Definition flagged (s : session) (inst : instance) : bool :=
  is_low (metric_average s (InstanceId inst)).

(** [s] with the cost query answered by [costs] instead. *)
Definition with_costs (s : session) (costs : client_error + cost_response) : session :=
  mkSession (region_name s) (get_caller_identity s) (describe_instances s)
            (get_metric_statistics s) costs (get_recommendation_summaries s).

(** The lines [create_session] prints for missing credentials. *)
Definition credentials_help : list line :=
  [Text "오류: AWS 자격 증명을 찾을 수 없습니다.";
   Text "해결 방법:";
   Text "  1. aws configure 명령으로 자격 증명을 설정하세요";
   Text "  2. --profile 옵션으로 프로파일을 지정하세요";
   Text "  3. 환경 변수 AWS_ACCESS_KEY_ID, AWS_SECRET_ACCESS_KEY를 설정하세요"].

(** The lines [create_session] prints for an unknown profile. *)
Definition profile_help (msg : string) : list line :=
  [ProfileErrorLine msg;
   Text "사용 가능한 프로파일을 확인하세요: cat ~/.aws/credentials"].

(** A suggestion line of the guidance. *)
Definition is_guidance_line (l : line) : bool :=
  match l with
  | Text t =>
      existsb (fun rule => match snd rule with
                           | Text u => String.eqb t u
                           | _ => false
                           end) guidance_rules
  | _ => false
  end.

Definition is_finding_line (l : line) : bool :=
  match l with
  | FindingLine _ _ => true
  | _ => false
  end.

(** ** Further scenarios *)

(** boto3 installed, no credentials configured. *)
Definition not_configured : boto3 := mkBoto3 (fun _ _ => inl NoCredentialsError).

Definition skip_cost_options : args := mkArgs None None true.

Definition cost_explorer_off : client_error :=
  mkClientError "AccessDeniedException" "Cost Explorer is not enabled.".

(** An account whose optimizer answers without the summaries key. *)
Definition account_silent : session :=
  mkSession None (inr operator) (inr (mkDescribeInstances None))
            (fun _ => inr (mkMetricResponse None))
            (inr nothing_material) (inr (mkOptimizerResponse None)).

(** * The script on the machine: binary64 floats and every exception

    The embedding above reads floats as exact rationals and lets a query
    fail with a [ClientError] only.  [Machine] embeds the same source with
    Python's [float] as IEEE 754 binary64 (Rocq's primitive floats), with
    [int()] raising on a NaN or an infinity, with any exception possible at
    a client creation or a query, and with the guarded import and the
    argument parser in front of [main]. *)

Module Machine.

Import Stdlib.Floats.Floats.

#[local] Set Warnings "-inexact-float".

Inductive exn : Type :=
| NoCredentialsError
| ProfileNotFound (msg : string)
| ClientError (code message : string)
| IndexError
| ValueError
| OverflowError
| SystemExit (status : Z)
| OtherException (class_name message : string).

(** One printed line, the interpolated numbers being floats. *)
Inductive line : Type :=
| Blank
| Text (s : string)
| AuthAccount (account : string)
| AuthArn (arn : string)
| AuthRegion (region : option string)
| ProfileErrorLine (msg : string)
| RunningCount (n : nat)
| CwFailed (code : string)
| InstanceHeader (id type arch_label : string)
| InstanceName (shown : string)
| InstanceCpu (avg_cpu : option float)
| GravitonCount (n : nat)
| X86Count (n : nat)
| GravitonRatio (ratio : float)
| LowCount (n : nat)
| Ec2Failed (message : string)
| TotalCost (total_cost : float)
| CostRow (cost percentage : float) (bar_length : Z) (service_name : string)
| CostFailed (message : string)
| ResourceType (resource_type : string)
| FindingLine (label : string) (value : float)
| CoFailed (message : string).

Definition io (A : Type) : Type := (list line * (exn + A))%type.

Definition ret {A} (a : A) : io A := ([], inr a).

Definition bind {A B} (m : io A) (f : A -> io B) : io B :=
  match m with
  | (out, inl e) => (out, inl e)
  | (out, inr a) => let (out', r) := f a in (out ++ out', r)
  end.

Definition print (l : line) : io unit := ([l], inr tt).

Definition prints (ls : list line) : io unit := (ls, inr tt).

Definition raise {A} (e : exn) : io A := ([], inl e).

Definition try_except {A} (body : io A) (handler : exn -> option (io A)) : io A :=
  match body with
  | (out, inr a) => (out, inr a)
  | (out, inl e) =>
      match handler e with
      | Some h => let (out', r) := h in (out ++ out', r)
      | None => (out, inl e)
      end
  end.

(** [except ClientError as e:] *)
Definition except_ClientError {A} (h : client_error -> io A) (e : exn) : option (io A) :=
  match e with
  | ClientError code message => Some (h (mkClientError code message))
  | _ => None
  end.

(** A call that returns or raises. *)
Definition lift {A} (r : exn + A) : io A :=
  match r with
  | inl e => raise e
  | inr a => ret a
  end.

(** [l[0]] *)
Definition index0 {A} (l : list A) : io A :=
  match l with
  | [] => raise IndexError
  | x :: _ => ret x
  end.

Fixpoint for_each {A S} (l : list A) (body : A -> S -> io S) (s : S) : io S :=
  match l with
  | [] => ret s
  | x :: l' => bind (body x s) (for_each l' body)
  end.

Declare Scope mio_scope.
Delimit Scope mio_scope with mio.
Notation "x <- m ;; k" := (bind m (fun x => k))
  (at level 61, m at next level, right associativity) : mio_scope.
Notation "m ;;; k" := (bind m (fun _ => k))
  (at level 61, right associativity) : mio_scope.

Definition output {A} (m : io A) : list line := fst m.
Definition result {A} (m : io A) : exn + A := snd m.

(** ** Numbers *)

(** A Python [int] as a float, rounded to nearest even as CPython does when
    an [int] meets a [float]; exact below 2^53. *)
Definition float_of_Z (z : Z) : float := SF2Prim (binary_normalize prec emax z 0 false).

Definition float_of_nat (n : nat) : float := float_of_Z (Z.of_nat n).

(** [int(x)]: truncation toward zero; [ValueError] on a NaN and
    [OverflowError] on an infinity. *)
Definition py_int (x : float) : io Z :=
  match Prim2SF x with
  | S754_zero _ => ret 0%Z
  | S754_finite s m e =>
      let magnitude :=
        match e with
        | Zneg p => Z.shiftr (Zpos m) (Zpos p)
        | _ => Z.shiftl (Zpos m) e
        end in
      ret (if s then Z.opp magnitude else magnitude)
  | S754_infinity _ => raise OverflowError
  | S754_nan => raise ValueError
  end.

(** [sum(xs)]: from the [int] 0, left to right, each addition rounded, as
    CPython adds up to version 3.11 (later versions carry a correction term
    along). *)
Definition py_sum (xs : list float) : float := fold_left PrimFloat.add xs 0%float.

(** What a format specification [.nf] shows of a float: the digits of the
    decimal with [n] places nearest to its value, the even one of two
    equally near, as the integer they spell, with the sign; or [inf] or
    [nan]. *)
Inductive fixed : Type :=
| Decimal (negative : bool) (digits : Z)
| Inf (negative : bool)
| NaN.

(** The integer nearest to [q], not negative; the even one of two. *)
Definition round_half_even (q : Q) : Z :=
  let n := Qnum q in
  let d := Zpos (Qden q) in
  let below := (n / d)%Z in
  match (2 * (n mod d) ?= d)%Z with
  | Lt => below
  | Gt => (below + 1)%Z
  | Eq => if Z.even below then below else (below + 1)%Z
  end.

Definition format_f (places : nat) (x : float) : fixed :=
  match Prim2SF x with
  | S754_zero s => Decimal s 0
  | S754_finite s m e =>
      Decimal s (round_half_even
                   (inject_Z (Zpos m) * Qpower (2 # 1) e
                    * inject_Z (10 ^ Z.of_nat places))%Q)
  | S754_infinity s => Inf s
  | S754_nan => NaN
  end.

(** ** The account *)

Record datapoint : Type := mkDatapoint {
  Average : float
}.

Record metric_response : Type := mkMetricResponse {
  Datapoints : option (list datapoint)
}.

(** [Amount] is [float(group["Metrics"]["UnblendedCost"]["Amount"])]. *)
Record group : Type := mkGroup {
  Keys_0 : string;
  Amount : float
}.

Record result_by_time : Type := mkResultByTime {
  Groups : option (list group)
}.

Record cost_response : Type := mkCostResponse {
  ResultsByTime : option (list result_by_time)
}.

Record finding : Type := mkFinding {
  name : option string;
  value : option float
}.

Record summary : Type := mkSummary {
  recommendationResourceType : option string;
  summaries : option (list finding)
}.

Record optimizer_response : Type := mkOptimizerResponse {
  recommendationSummaries : option (list summary)
}.

(** A [boto3.Session]: what creating each client and each query does. *)
Record session : Type := mkSession {
  region_name : option string;
  client : string -> exn + unit;
  get_caller_identity : exn + identity;
  describe_instances : exn + describe_instances_response;
  get_metric_statistics : string -> exn + metric_response;
  get_cost_and_usage : exn + cost_response;
  get_recommendation_summaries : exn + optimizer_response
}.

Record boto3 : Type := mkBoto3 {
  Session : option string -> option string -> exn + session
}.

Open Scope string_scope.
Open Scope list_scope.
Open Scope mio_scope.

(** ** create_session *)

Definition create_session (b : boto3) (profile region : option string) : io session :=
  try_except
    (session <- lift (Session b (truthy profile) (truthy region)) ;;
     sts <- lift (client session "sts") ;;
     identity <- lift (get_caller_identity session) ;;
     prints [AuthAccount (Account identity);
             AuthArn (Arn identity);
             AuthRegion (region_name session);
             Blank] ;;;
     ret session)
    (fun e =>
       match e with
       | NoCredentialsError =>
           Some (prints [Text "오류: AWS 자격 증명을 찾을 수 없습니다.";
                         Text "해결 방법:";
                         Text "  1. aws configure 명령으로 자격 증명을 설정하세요";
                         Text "  2. --profile 옵션으로 프로파일을 지정하세요";
                         Text "  3. 환경 변수 AWS_ACCESS_KEY_ID, AWS_SECRET_ACCESS_KEY를 설정하세요"] ;;;
                 raise (SystemExit 1))
       | ProfileNotFound msg =>
           Some (prints [ProfileErrorLine msg;
                         Text "사용 가능한 프로파일을 확인하세요: cat ~/.aws/credentials"] ;;;
                 raise (SystemExit 1))
       | _ => None
       end).

(** ** check_ec2_utilization *)

Definition banner : line := Text (PyStr.repeat_str "=" 60).

Record low_entry : Type := mkLowEntry {
  low_id : string;
  low_type : string;
  low_name : string;
  low_avg_cpu : float
}.

Record ec2_state : Type := mkEc2State {
  low_utilization : list low_entry;
  graviton_count : nat;
  x86_count : nat
}.

Definition family_of (instance_type : string) : io string :=
  index0 (PyStr.split "." instance_type).

(** [sum(dp["Average"] for dp in datapoints) / len(datapoints)] when
    [datapoints] is not empty, else [None]. *)
Definition average_cpu (datapoints : list datapoint) : option float :=
  match datapoints with
  | [] => None
  | _ :: _ =>
      Some (py_sum (map Average datapoints) / float_of_nat (List.length datapoints))%float
  end.

Definition cloudwatch_permission_notice : line :=
  Text "    ⚠ CloudWatch 권한 부족: cloudwatch:GetMetricStatistics 권한이 필요합니다.".

Definition query_avg_cpu (s : session) (instance_id : string) : io (option float) :=
  try_except
    (metric_response <- lift (get_metric_statistics s instance_id) ;;
     let datapoints := get (Datapoints metric_response) [] in
     ret (average_cpu datapoints))
    (except_ClientError (fun e =>
       let error_code := err_code e in
       (if is_access_denied error_code
        then print cloudwatch_permission_notice
        else print (CwFailed error_code)) ;;;
       ret None)).

Definition low_warning : line :=
  Text "    ⚠ 주의: CPU 사용률이 매우 낮습니다. 적정 크기 조정을 검토하세요.".

Definition instance_body (s : session) (inst : instance) (st : ec2_state) : io ec2_state :=
  let instance_id := InstanceId inst in
  let instance_type := InstanceType inst in
  family <- family_of instance_type ;;
  let graviton := is_graviton family in
  let st1 :=
    if graviton
    then mkEc2State (low_utilization st) (graviton_count st + 1) (x86_count st)
    else mkEc2State (low_utilization st) (graviton_count st) (x86_count st + 1) in
  avg_cpu <- query_avg_cpu s instance_id ;;
  let name_tag := find_name_tag (get (Tags inst) []) in
  let arch_label := if graviton then "ARM(Graviton)" else "x86" in
  print (InstanceHeader instance_id instance_type arch_label) ;;;
  print (InstanceName (name_or_none name_tag)) ;;;
  print (InstanceCpu avg_cpu) ;;;
  st2 <- match avg_cpu with
         | Some cpu =>
             if (cpu <? 5)%float
             then print low_warning ;;;
                  ret (mkEc2State
                         (low_utilization st1 ++ [mkLowEntry instance_id instance_type name_tag cpu])
                         (graviton_count st1) (x86_count st1))
             else ret st1
         | None => ret st1
         end ;;
  print Blank ;;;
  ret st2.

Definition graviton_suggestion : line :=
  Text "  → 제안: x86 인스턴스를 Graviton으로 전환하면 에너지를 절약할 수 있습니다.".

Definition rightsizing_pointer : line :=
  Text "  → Compute Optimizer를 확인하여 적정 크기로 변경하세요.".

(** [graviton_count / (graviton_count + x86_count) * 100]: the quotient of
    two [int]s is the correctly rounded one, which below 2^53 is the
    quotient of the two as floats. *)
Definition graviton_ratio (graviton_count x86_count : nat) : float :=
  (float_of_nat graviton_count / float_of_nat (graviton_count + x86_count) * 100)%float.

Definition ec2_summary (st : ec2_state) : io unit :=
  prints [Text "--- 요약 ---";
          GravitonCount (graviton_count st);
          X86Count (x86_count st)] ;;;
  (if Nat.ltb 0 (graviton_count st + x86_count st)
   then
     let ratio := graviton_ratio (graviton_count st) (x86_count st) in
     print (GravitonRatio ratio) ;;;
     (if (ratio <? 50)%float then print graviton_suggestion else ret tt)
   else ret tt) ;;;
  match low_utilization st with
  | [] => ret tt
  | _ :: _ =>
      prints [Blank;
              LowCount (List.length (low_utilization st));
              rightsizing_pointer]
  end ;;;
  print Blank.

Definition no_instances_lines : list line :=
  [Text "실행 중인 EC2 인스턴스가 없습니다.";
   Text "→ 서버리스 아키텍처를 사용 중이라면 이미 좋은 선택입니다!";
   Blank].

(** The two clients are created before the [try], the queries are inside. *)
Definition check_ec2_utilization (s : session) : io unit :=
  prints [banner; Text "1. EC2 인스턴스 사용률 분석"; banner] ;;;
  ec2 <- lift (client s "ec2") ;;
  cloudwatch <- lift (client s "cloudwatch") ;;
  try_except
    (response <- lift (describe_instances s) ;;
     let instances := collect_instances response in
     match instances with
     | [] => prints no_instances_lines
     | _ :: _ =>
         prints [RunningCount (List.length instances); Blank] ;;;
         st <- for_each instances (instance_body s) (mkEc2State [] 0 0) ;;
         ec2_summary st
     end)
    (except_ClientError (fun e =>
       prints [Ec2Failed (err_message e); Blank])).

(** ** check_cost_by_service *)

Record cost_state : Type := mkCostState {
  total_cost : float;
  services : list (string * float)
}.

Definition record_group (st : cost_state) (g : group) : cost_state :=
  let service_name := Keys_0 g in
  let cost := Amount g in
  if (0.01 <? cost)%float
  then mkCostState (total_cost st + cost)%float (services st ++ [(service_name, cost)])
  else st.

Definition collect_costs (response : cost_response) : cost_state :=
  fold_left
    (fun st result => fold_left record_group (get (Groups result) []) st)
    (get (ResultsByTime response) [])
    (mkCostState 0%float []).

(** [services.sort(key=lambda x: x[1], reverse=True)], the stable sort by
    descending cost, computed by insertion from the right: an entry goes
    before the first one that does not cost more. *)
Fixpoint insert_desc (x : string * float) (l : list (string * float)) : list (string * float) :=
  match l with
  | [] => [x]
  | y :: l' => if (snd x <? snd y)%float then y :: insert_desc x l' else x :: l
  end.

Definition sort_by_cost_desc (l : list (string * float)) : list (string * float) :=
  fold_right insert_desc [] l.

(** [int(cost / total_cost * 30) if total_cost > 0 else 0] *)
Definition bar_length_of (total_cost cost : float) : io Z :=
  if (0 <? total_cost)%float then py_int (cost / total_cost * 30)%float else ret 0%Z.

(** [cost / total_cost * 100 if total_cost > 0 else 0] *)
Definition percentage_of (total_cost cost : float) : float :=
  if (0 <? total_cost)%float then (cost / total_cost * 100)%float else 0%float.

(** The body of [for service_name, cost in services[:10]:]. *)
Definition row_body (total_cost : float) (entry : string * float) : io unit :=
  let '(service_name, cost) := entry in
  bar_length <- bar_length_of total_cost cost ;;
  let percentage := percentage_of total_cost cost in
  print (CostRow cost percentage bar_length service_name).

Definition suggest_EC2 : line :=
  Text "  → EC2: Graviton 인스턴스 전환, 적정 크기 조정, Auto Scaling 검토".
Definition suggest_RDS : line :=
  Text "  → RDS: Aurora Serverless v2 전환 검토, 읽기 복제본 최적화".
Definition suggest_S3 : line :=
  Text "  → S3: 수명주기 정책으로 불필요 데이터 자동 정리".
Definition suggest_Lambda : line :=
  Text "  → Lambda: ARM 아키텍처 전환, 메모리 최적화 (Power Tuning)".
Definition suggest_DynamoDB : line :=
  Text "  → DynamoDB: 온디맨드 vs 프로비저닝 모드 비교 분석".

Definition suggestion (entry : string * float) : io unit :=
  let '(service_name, cost) := entry in
  if PyStr.str_in "EC2" service_name then print suggest_EC2
  else if PyStr.str_in "RDS" service_name then print suggest_RDS
  else if PyStr.str_in "S3" service_name then print suggest_S3
  else if PyStr.str_in "Lambda" service_name then print suggest_Lambda
  else if PyStr.str_in "DynamoDB" service_name then print suggest_DynamoDB
  else ret tt.

Definition no_cost_lines : list line :=
  [Text "최근 30일간 비용이 발생하지 않았습니다."; Blank].

Definition suggestions_header : line := Text "--- 지속 가능성 제안 ---".

(** The client is created before the [try]. *)
Definition check_cost_by_service (s : session) : io unit :=
  prints [banner; Text "2. 서비스별 비용 분석 (최근 30일)"; banner] ;;;
  ce <- lift (client s "ce") ;;
  try_except
    (response <- lift (get_cost_and_usage s) ;;
     let st := collect_costs response in
     match services st with
     | [] => prints no_cost_lines
     | _ :: _ =>
         let services := sort_by_cost_desc (services st) in
         prints [Blank; TotalCost (total_cost st); Blank] ;;;
         for_each (firstn 10 services)
                  (fun entry _ => row_body (total_cost st) entry) tt ;;;
         prints [Blank; suggestions_header] ;;;
         for_each (firstn 5 services) (fun entry _ => suggestion entry) tt ;;;
         print Blank
     end)
    (except_ClientError (fun e =>
       prints [CostFailed (err_message e);
               Text "참고: Cost Explorer는 활성화되어 있어야 합니다.";
               Blank])).

(** ** check_compute_optimizer *)

Definition finding_body (finding : finding) : io unit :=
  let name := get (name finding) "Unknown" in
  let value := get (value finding) 0%float in
  if (0 <? value)%float then print (FindingLine (label_of name) value) else ret tt.

Definition summary_body (summary : summary) : io unit :=
  let resource_type := get (recommendationResourceType summary) "Unknown" in
  let finding_summaries := get (summaries summary) [] in
  prints [Blank; ResourceType resource_type] ;;;
  for_each finding_summaries (fun finding _ => finding_body finding) tt.

Definition optimizer_howto : line :=
  Text "활성화 방법: AWS 콘솔 > Compute Optimizer > Opt in".

Definition optimizer_no_data : line :=
  Text "Compute Optimizer가 활성화되지 않았거나 데이터가 충분하지 않습니다.".

Definition optimizer_not_enabled : line :=
  Text "Compute Optimizer가 활성화되지 않았습니다.".

(** Here the client is created inside the [try]. *)
Definition check_compute_optimizer (s : session) : io unit :=
  prints [banner; Text "3. Compute Optimizer 추천 요약"; banner] ;;;
  try_except
    (co <- lift (client s "compute-optimizer") ;;
     response <- lift (get_recommendation_summaries s) ;;
     let summaries := get (recommendationSummaries response) [] in
     match summaries with
     | [] => prints [optimizer_no_data; optimizer_howto; Blank]
     | _ :: _ =>
         for_each summaries (fun summary _ => summary_body summary) tt ;;;
         print Blank
     end)
    (except_ClientError (fun e =>
       let error_code := err_code e in
       (if String.eqb error_code "OptInRequiredException"
        then prints [optimizer_not_enabled; optimizer_howto]
        else print (CoFailed (err_message e))) ;;;
       print Blank)).

(** ** check_sustainability_tips *)

Definition check_sustainability_tips (s : session) : io unit :=
  prints [banner; Text "4. 지속 가능성 개선 체크리스트"; banner] ;;;
  for_each checklist
    (fun section _ =>
       prints [Blank; Text ("  [" ++ fst section ++ "]")%string] ;;;
       for_each (snd section) (fun item _ => print (Text ("    " ++ item)%string)) tt)
    tt ;;;
  prints [Blank;
          Text "--- Customer Carbon Footprint Tool 확인 방법 ---";
          Text "  AWS 콘솔 > Billing and Cost Management > Carbon Footprint";
          Text "  또는: https://console.aws.amazon.com/billing/home#/carbon-footprint";
          Blank].

(** ** main *)

Definition header : list line :=
  [Blank;
   Text "╔════════════════════════════════════════════════════════╗";
   Text "║   AWS 지속 가능성 (Sustainability) 검사 도구          ║";
   Text "║   Well-Architected Framework - 6th Pillar             ║";
   Text "╚════════════════════════════════════════════════════════╝";
   Blank;
   Text "이 도구는 AWS 계정의 지속 가능성 상태를 분석하고";
   Text "개선 방안을 제안합니다.";
   Blank].

Definition footer : list line :=
  [Text "╔════════════════════════════════════════════════════════╗";
   Text "║   검사 완료!                                         ║";
   Text "║                                                      ║";
   Text "║   기억하세요:                                        ║";
   Text "║   '측정할 수 없으면 개선할 수 없다'                  ║";
   Text "║   정기적으로 이 도구를 실행하여                      ║";
   Text "║   지속 가능성 상태를 모니터링하세요.                  ║";
   Text "╚════════════════════════════════════════════════════════╝";
   Blank].

Definition skip_cost_lines : list line :=
  [Text "비용 분석을 건너뜁니다. (--skip-cost 옵션)"; Blank].

(** [parse_args] is what [parser.parse_args()] does with the command line of
    the process: the parsed options, or the [SystemExit] argparse raises
    (status 2 for a command line it rejects, 0 after [--help]). *)
Definition main (b : boto3) (parse_args : exn + args) : io unit :=
  a <- lift parse_args ;;
  prints header ;;;
  session <- create_session b (profile a) (region a) ;;
  check_ec2_utilization session ;;;
  (if negb (skip_cost a)
   then check_cost_by_service session
   else prints skip_cost_lines) ;;;
  check_compute_optimizer session ;;;
  check_sustainability_tips session ;;;
  prints footer.

(** The module's top level: the guarded [import boto3], then [main()]. *)
Definition program (boto3_module : option boto3) (parse_args : exn + args) : io unit :=
  match boto3_module with
  | None =>
      prints [Text "오류: boto3가 설치되지 않았습니다.";
              Text "설치 방법: pip install boto3"] ;;;
      raise (SystemExit 1)
  | Some b => main b parse_args
  end.

(** The status the interpreter exits with. *)
Definition exit_status (r : exn + unit) : Z :=
  match r with
  | inr _ => 0
  | inl (SystemExit status) => status
  | inl _ => 1
  end.

(** ** Vocabulary of the properties *)

(** [m] prints [out] and returns [a]. *)
Definition returns {A} (m : io A) (out : list line) (a : A) : Prop :=
  m = (out, inr a).

(** A call that returns or raises a [ClientError]. *)
Definition quiet {A} (r : exn + A) : Prop :=
  match r with
  | inr _ => True
  | inl (ClientError _ _) => True
  | inl _ => False
  end.

(** The rational a float stands for; 0 for a NaN or an infinity. *)
Definition exact (x : float) : Q :=
  match Prim2SF x with
  | S754_finite s m e =>
      (inject_Z (if s then Zneg m else Zpos m) * Qpower (2 # 1) e)%Q
  | _ => 0%Q
  end.

(** A float that is neither a NaN nor an infinity. *)
Definition is_number (x : float) : bool :=
  match Prim2SF x with
  | S754_zero _ | S754_finite _ _ _ => true
  | _ => false
  end.

(** A positive number or the positive infinity. *)
Definition above_floor (x : spec_float) : Prop :=
  x = S754_infinity false \/ exists m e, x = S754_finite false m e.

(** The integer part of a rational, toward zero. *)
Definition truncation (q : Q) : Z := Z.quot (Qnum q) (Zpos (Qden q)).

(** *** The utilization phase *)

(** [avg_cpu is not None and avg_cpu < 5.0] *)
Definition is_low (avg_cpu : option float) : bool :=
  match avg_cpu with
  | Some cpu => (cpu <? 5)%float
  | None => false
  end.

Definition arch_label_of (inst : instance) : string :=
  if instance_is_graviton inst then "ARM(Graviton)" else "x86".

(** The row of an instance whose aggregate is [avg_cpu], with the warning. *)
Definition instance_report (inst : instance) (avg_cpu : option float) : list line :=
  [InstanceHeader (InstanceId inst) (InstanceType inst) (arch_label_of inst);
   InstanceName (name_or_none (find_name_tag (get (Tags inst) [])));
   InstanceCpu avg_cpu]
  ++ (if is_low avg_cpu then [low_warning] else [])
  ++ [Blank].

(** What the metrics query of an instance leaves behind when it returns or
    raises a [ClientError]. *)
Definition metric_notice (s : session) (instance_id : string) : list line :=
  match get_metric_statistics s instance_id with
  | inl (ClientError code _) =>
      [if is_access_denied code then cloudwatch_permission_notice else CwFailed code]
  | _ => []
  end.

Definition metric_average (s : session) (instance_id : string) : option float :=
  match get_metric_statistics s instance_id with
  | inr response => average_cpu (get (Datapoints response) [])
  | inl _ => None
  end.

Definition instance_lines (s : session) (inst : instance) : list line :=
  metric_notice s (InstanceId inst)
  ++ instance_report inst (metric_average s (InstanceId inst)).

Definition low_entries (inst : instance) (avg_cpu : option float) : list low_entry :=
  match avg_cpu with
  | Some cpu =>
      if (cpu <? 5)%float
      then [mkLowEntry (InstanceId inst) (InstanceType inst)
                       (find_name_tag (get (Tags inst) [])) cpu]
      else []
  | None => []
  end.

Definition instance_next (s : session) (inst : instance) (st : ec2_state) : ec2_state :=
  mkEc2State
    (low_utilization st ++ low_entries inst (metric_average s (InstanceId inst)))
    (graviton_count st + (if instance_is_graviton inst then 1 else 0))
    (x86_count st + (if instance_is_graviton inst then 0 else 1)).

Definition run_instances (s : session) (instances : list instance) : ec2_state :=
  fold_left (fun st inst => instance_next s inst st) instances (mkEc2State [] 0 0).

(** The lines of the phase when its two clients are created and the
    inventory query returns or raises a [ClientError]. *)
Definition ec2_section (s : session) : list line :=
  [banner; Text "1. EC2 인스턴스 사용률 분석"; banner]
  ++ match describe_instances s with
     | inl (ClientError _ message) => [Ec2Failed message; Blank]
     | inl _ => []
     | inr response =>
         match collect_instances response with
         | [] => no_instances_lines
         | (_ :: _) as instances =>
             [RunningCount (List.length instances); Blank]
             ++ flat_map (instance_lines s) instances
             ++ output (ec2_summary (run_instances s instances))
         end
     end.

(** *** The cost phase *)

(** The client of the phase, then its query. *)
Definition cost_query (s : session) : exn + cost_response :=
  match client s "ce" with
  | inl e => inl e
  | inr _ => get_cost_and_usage s
  end.

(** Every group of the response, in query order. *)
Definition all_groups (response : cost_response) : list group :=
  flat_map (fun result => get (Groups result) []) (get (ResultsByTime response) []).

(** A group above the materiality floor. *)
Definition is_material (g : group) : bool := (0.01 <? Amount g)%float.

Definition entry_of (g : group) : string * float := (Keys_0 g, Amount g).

(** An entry above the materiality floor. *)
Definition material_entry (e : string * float) : Prop := (0.01 <? snd e)%float = true.

(** [a] may stand before [b] in a list ordered by descending cost. *)
Definition cost_ge (a b : string * float) : Prop := (snd b <=? snd a)%float = true.

(** The entries that cost [c]. *)
Definition costs (c : float) (e : string * float) : bool := (snd e =? c)%float.

Definition is_cost_row (l : line) : bool :=
  match l with
  | CostRow _ _ _ _ => true
  | _ => false
  end.

(** The bar of a row, when [int()] is defined. *)
Definition bar_of (total_cost cost : float) : Z :=
  match result (bar_length_of total_cost cost) with
  | inr bar_length => bar_length
  | inl _ => 0%Z
  end.

Definition row_of (total_cost : float) (entry : string * float) : line :=
  CostRow (snd entry) (percentage_of total_cost (snd entry))
          (bar_of total_cost (snd entry)) (fst entry).

(** [int()] is defined for the bar of every row of the table. *)
Definition bars_defined (response : cost_response) : Prop :=
  let st := collect_costs response in
  Forall (fun entry => exists bar_length,
              bar_length_of (total_cost st) (snd entry) = ret bar_length)
         (firstn 10 (sort_by_cost_desc (services st))).

(** The percentage of a row as the format [>5.1f] shows it, in tenths. *)
Definition shown_percentage (l : line) : fixed :=
  match l with
  | CostRow _ percentage _ _ => format_f 1 percentage
  | _ => NaN
  end.

Definition tenths (f : fixed) : Z :=
  match f with
  | Decimal negative digits => if negative then Z.opp digits else digits
  | _ => 0%Z
  end.

(** The lines after the banner when the query returned [st], not empty. *)
Definition cost_table (st : cost_state) : list line :=
  let ranked := sort_by_cost_desc (services st) in
  [Blank; TotalCost (total_cost st); Blank]
  ++ map (row_of (total_cost st)) (firstn 10 ranked)
  ++ [Blank; suggestions_header]
  ++ flat_map (fun entry => output (suggestion entry)) (firstn 5 ranked)
  ++ [Blank].

(** The lines of the phase when its client is created, the query returns or
    raises a [ClientError] and every bar is defined. *)
Definition cost_section (s : session) : list line :=
  [banner; Text "2. 서비스별 비용 분석 (최근 30일)"; banner]
  ++ match get_cost_and_usage s with
     | inl (ClientError _ message) =>
         [CostFailed message;
          Text "참고: Cost Explorer는 활성화되어 있어야 합니다.";
          Blank]
     | inl _ => []
     | inr response =>
         match services (collect_costs response) with
         | [] => no_cost_lines
         | _ :: _ => cost_table (collect_costs response)
         end
     end.

(** *** The recommendation phase *)

Definition finding_lines (f : finding) : list line :=
  if (0 <? get (value f) 0)%float
  then [FindingLine (label_of (get (name f) "Unknown")) (get (value f) 0%float)]
  else [].

Definition summary_lines (su : summary) : list line :=
  [Blank; ResourceType (get (recommendationResourceType su) "Unknown")]
  ++ flat_map finding_lines (get (summaries su) []).

(** The client of the phase, then its query. *)
Definition optimizer_query (s : session) : exn + optimizer_response :=
  match client s "compute-optimizer" with
  | inl e => inl e
  | inr _ => get_recommendation_summaries s
  end.

(** The lines of the phase when the client and the query return or raise a
    [ClientError]. *)
Definition optimizer_section (s : session) : list line :=
  [banner; Text "3. Compute Optimizer 추천 요약"; banner]
  ++ match optimizer_query s with
     | inl (ClientError code message) =>
         (if String.eqb code "OptInRequiredException"
          then [optimizer_not_enabled; optimizer_howto]
          else [CoFailed message])
         ++ [Blank]
     | inl _ => []
     | inr response =>
         match get (recommendationSummaries response) [] with
         | [] => [optimizer_no_data; optimizer_howto; Blank]
         | (_ :: _) as summaries => flat_map summary_lines summaries ++ [Blank]
         end
     end.

(** *** The whole run *)

Definition tips_section : list line :=
  [banner; Text "4. 지속 가능성 개선 체크리스트"; banner]
  ++ flat_map
       (fun section =>
          [Blank; Text ("  [" ++ fst section ++ "]")%string]
          ++ map (fun item => Text ("    " ++ item)%string) (snd section))
       checklist
  ++ [Blank;
      Text "--- Customer Carbon Footprint Tool 확인 방법 ---";
      Text "  AWS 콘솔 > Billing and Cost Management > Carbon Footprint";
      Text "  또는: https://console.aws.amazon.com/billing/home#/carbon-footprint";
      Blank].

(** Session acquisition: the constructor, the sts client and the identity
    probe. *)
Definition acquire (b : boto3) (profile region : option string) : exn + session * identity :=
  match Session b (truthy profile) (truthy region) with
  | inl e => inl e
  | inr s =>
      match client s "sts" with
      | inl e => inl e
      | inr _ =>
          match get_caller_identity s with
          | inl e => inl e
          | inr i => inr (s, i)
          end
      end
  end.

Definition auth_lines (s : session) (i : identity) : list line :=
  [AuthAccount (Account i); AuthArn (Arn i); AuthRegion (region_name s); Blank].

Definition cost_or_skipped (a : args) (s : session) : list line :=
  if skip_cost a then skip_cost_lines else cost_section s.

(** After acquisition nothing but a [ClientError] inside a [try] is raised:
    the clients made outside a [try] are created, every query the run makes
    returns or raises a [ClientError], and [int()] is defined for every
    bar. *)
Definition well_behaved (a : args) (s : session) : Prop :=
  client s "ec2" = inr tt /\
  client s "cloudwatch" = inr tt /\
  quiet (describe_instances s) /\
  (forall response inst,
      describe_instances s = inr response ->
      In inst (collect_instances response) ->
      quiet (get_metric_statistics s (InstanceId inst))) /\
  (skip_cost a = false ->
   client s "ce" = inr tt /\
   quiet (get_cost_and_usage s) /\
   forall response, get_cost_and_usage s = inr response -> bars_defined response) /\
  quiet (optimizer_query s).

(** The exit behaviour as the specification words it: a status other than 0
    only when session acquisition failed. *)
Definition nonzero_only_when_acquisition_fails : Prop :=
  forall (boto3_module : option boto3) (parse_args : exn + args),
    exit_status (result (program boto3_module parse_args)) <> 0%Z ->
    exists b a e,
      boto3_module = Some b /\ parse_args = inr a /\
      acquire b (profile a) (region a) = inl e.

(** ** Scenarios *)

(** Samples 1 and 3 for the first instance, 40 and 60 for the others. *)
Definition samples_1 : metric_response :=
  mkMetricResponse (Some [mkDatapoint 1; mkDatapoint 3]).

Definition metrics_A (instance_id : string) : exn + metric_response :=
  if String.eqb instance_id "i-01" then inr samples_1
  else if String.eqb instance_id "i-02"
       then inr (mkMetricResponse (Some [mkDatapoint 40]))
       else inr (mkMetricResponse (Some [mkDatapoint 60])).

(** EC2 at 120, S3 at 30 and an entry below the materiality floor. *)
Definition costs_B : cost_response :=
  mkCostResponse
    (Some [mkResultByTime
             (Some [mkGroup "Amazon Simple Storage Service (S3)" 30;
                    mkGroup "Amazon Elastic Compute Cloud (EC2)" 120;
                    mkGroup "Other" 0.005])]).

Definition every_client (service_name : string) : exn + unit := inr tt.

Definition account_A : session :=
  mkSession (Some "ap-northeast-2") every_client (inr operator) (inr inventory_A)
            metrics_A (inr costs_B)
            (inl (ClientError "OptInRequiredException" "The account is not opted in.")).

Definition installed (s : session) : boto3 := mkBoto3 (fun _ _ => inr s).

(** The command line accepted, without options. *)
Definition no_options : exn + args := inr (mkArgs None None false).



(** The cost query answering one result with the groups [gs]. *)
Definition one_month (gs : list group) : cost_response :=
  mkCostResponse (Some [mkResultByTime (Some gs)]).

(** [account_A] with the cost query answering [response]. *)
Definition with_costs (response : cost_response) : session :=
  mkSession (Some "ap-northeast-2") every_client (inr operator) (inr inventory_A)
            metrics_A (inr response)
            (inl (ClientError "OptInRequiredException" "The account is not opted in.")).

Definition costs_150_030 : cost_response :=
  one_month [mkGroup "Amazon Elastic Compute Cloud (EC2)" 1.5;
             mkGroup "Amazon Simple Storage Service (S3)" 0.3].

Definition costs_seven_equal : cost_response :=
  one_month (List.repeat (mkGroup "AWS Lambda" 1) 7).

Definition costs_7_1_1 : cost_response :=
  one_month [mkGroup "Amazon Elastic Compute Cloud (EC2)" 7;
             mkGroup "Amazon Simple Storage Service (S3)" 1;
             mkGroup "AWS Lambda" 1].

Definition costs_huge : cost_response :=
  one_month [mkGroup "Amazon Elastic Compute Cloud (EC2)" 1e308;
             mkGroup "Amazon Simple Storage Service (S3)" 1e308].

(** An amount that [float()] reads as the infinity. *)
Definition costs_infinite : cost_response :=
  one_month [mkGroup "Amazon Elastic Compute Cloud (EC2)" infinity].

(** No region configured: the sts client is created, the ec2 client is not. *)
Definition no_region : session :=
  mkSession None
            (fun service_name =>
               if String.eqb service_name "sts" then inr tt
               else inl (OtherException "NoRegionError" "You must specify a region."))
            (inr operator) (inr inventory_A) metrics_A (inr costs_B)
            (inr (mkOptimizerResponse None)).

(** The endpoint of the inventory query cannot be reached. *)
Definition unreachable : session :=
  mkSession (Some "ap-northeast-2") every_client (inr operator)
            (inl (OtherException "EndpointConnectionError"
                                 "Could not connect to the endpoint URL"))
            metrics_A (inr costs_B) (inr (mkOptimizerResponse None)).

(** The identity probe answers with an expired token. *)
Definition expired : session :=
  mkSession (Some "ap-northeast-2") every_client
            (inl (ClientError "ExpiredToken" "The security token included in the request is expired"))
            (inr inventory_A) metrics_A (inr costs_B) (inr (mkOptimizerResponse None)).

End Machine.

(** * Properties *)

(** ** Strings *)

Section StringFacts.

Local Open Scope string_scope.

Lemma split_not_nil (sep : ascii) (s : string) : PyStr.split sep s <> [].
Proof.
  destruct s as [|c s]; simpl; [discriminate|].
  destruct (Ascii.eqb c sep); [discriminate|].
  destruct (PyStr.split sep s); discriminate.
Qed.

Lemma split_head (sep : ascii) (s : string) :
  exists family rest,
    PyStr.split sep s = family :: rest /\ before_first sep s family.
Proof.
  induction s as [|c s IH]; simpl.
  - exists "", []. repeat split. now left.
  - destruct (Ascii.eqb c sep) eqn:E.
    + apply Ascii.eqb_eq in E. subst c.
      exists "", (PyStr.split sep s). repeat split.
      right. now exists s.
    + destruct IH as (f & r & Hs & Hno & Hshape). rewrite Hs.
      exists (String c f), r. repeat split.
      * simpl. now rewrite E, Hno.
      * destruct Hshape as [->|[tail ->]]; [now left|right; now exists tail].
Qed.

Lemma startswith_spec (s pre : string) :
  PyStr.startswith s pre = true <-> exists q, s = pre ++ q.
Proof.
  revert s. induction pre as [|a pre IH]; intros s; simpl.
  - split; [intros _; now exists s|intros _; now destruct s].
  - destruct s as [|b s].
    + split; [discriminate|intros [q H]; discriminate].
    + simpl. rewrite andb_true_iff, Ascii.eqb_eq, IH. split.
      * intros [-> [q ->]]. now exists q.
      * intros [q H]. injection H as -> ->. split; [reflexivity|now exists q].
Qed.

Lemma endswith_spec (s suf : string) :
  PyStr.endswith s suf = true <-> exists p, s = p ++ suf.
Proof.
  induction s as [|c s IH].
  - destruct suf as [|d suf]; simpl.
    + split; [now exists ""|reflexivity].
    + split; [discriminate|]. intros [p H]. destruct p; discriminate.
  - cbn [PyStr.endswith]. destruct (String.eqb (String c s) suf) eqn:E.
    + apply String.eqb_eq in E. split; [now exists ""|reflexivity].
    + rewrite IH. split.
      * intros [p ->]. now exists (String c p).
      * intros [p H]. destruct p as [|c' p]; simpl in H.
        -- subst suf. now rewrite String.eqb_refl in E.
        -- injection H as _ ->. now exists p.
Qed.

Lemma str_in_spec (sub s : string) :
  PyStr.str_in sub s = true <-> exists p q, s = p ++ sub ++ q.
Proof.
  induction s as [|c s IH]; cbn [PyStr.str_in]; rewrite orb_true_iff, startswith_spec.
  - split.
    + intros [[q H]|H]; [now exists "", q|discriminate].
    + intros (p & q & H). left. destruct p; simpl in H; [now exists q|discriminate].
  - rewrite IH. split.
    + intros [[q H]|(p & q & ->)]; [now exists "", q|now exists (String c p), q].
    + intros (p & q & H). destruct p as [|c' p]; simpl in H.
      * left. now exists q.
      * right. injection H as _ ->. now exists p, q.
Qed.

End StringFacts.

(** ** Running the monad *)

Lemma returns_ret {A} (a : A) : returns (ret a) [] a.
Proof. reflexivity. Qed.

Lemma returns_prints (ls : list line) : returns (prints ls) ls tt.
Proof. reflexivity. Qed.

Lemma returns_print (l : line) : returns (print l) [l] tt.
Proof. reflexivity. Qed.

Lemma returns_bind {A B} (m : io A) (f : A -> io B) out a out' b :
  returns m out a -> returns (f a) out' b -> returns (bind m f) (out ++ out') b.
Proof.
  unfold returns, bind. intros -> ->. reflexivity.
Qed.

Lemma bind_returns {A B} (m : io A) (f : A -> io B) out a :
  returns m out a -> bind m f = (let (out', r) := f a in (out ++ out', r)).
Proof.
  unfold returns, bind. intros ->. reflexivity.
Qed.

Lemma returns_try {A} (m : io A) (handler : exn -> option (io A)) out a :
  returns m out a -> returns (try_except m handler) out a.
Proof.
  unfold returns, try_except. intros ->. reflexivity.
Qed.

Lemma returns_output {A} (m : io A) out a : returns m out a -> output m = out.
Proof. unfold returns. intros ->. reflexivity. Qed.

Lemma returns_result {A} (m : io A) out a : returns m out a -> result m = inr a.
Proof. unfold returns. intros ->. reflexivity. Qed.

(** A loop whose body always returns, printing lines that do not depend on
    the loop's variables. *)
Lemma returns_for_each {A S} (body : A -> S -> io S)
      (lines : A -> list line) (next : A -> S -> S) :
  (forall x s, returns (body x s) (lines x) (next x s)) ->
  forall l s,
    returns (for_each l body s) (flat_map lines l)
            (fold_left (fun s x => next x s) l s).
Proof.
  intros Hbody l. induction l as [|x l IH]; intros s; simpl.
  - apply returns_ret.
  - eapply returns_bind; [apply Hbody|apply IH].
Qed.

(** A loop that only prints. *)
Lemma returns_for_each_print {A} (body : A -> io unit) (lines : A -> list line) :
  (forall x, returns (body x) (lines x) tt) ->
  forall l, returns (for_each l (fun x _ => body x) tt) (flat_map lines l) tt.
Proof.
  intros Hbody l. induction l as [|x l IH]; simpl.
  - apply returns_ret.
  - eapply returns_bind; [apply Hbody|apply IH].
Qed.

(** ** The utilization phase, instance by instance *)

Lemma family_of_returns (instance_type : string) :
  returns (family_of instance_type) [] (family_str instance_type).
Proof.
  unfold family_of, family_str.
  destruct (split_head "." instance_type) as (f & r & -> & _). reflexivity.
Qed.

Lemma query_avg_cpu_returns (s : session) (instance_id : string) :
  returns (query_avg_cpu s instance_id)
          (metric_notice s instance_id) (metric_average s instance_id).
Proof.
  unfold returns, query_avg_cpu, metric_notice, metric_average.
  destruct (get_metric_statistics s instance_id) as [[code msg]|response]; simpl.
  - destruct (is_access_denied code); reflexivity.
  - reflexivity.
Qed.

Lemma instance_body_returns (s : session) (inst : instance) (st : ec2_state) :
  returns (instance_body s inst st) (instance_lines s inst) (instance_next s inst st).
Proof.
  unfold instance_body.
  rewrite (bind_returns _ (family_of_returns _)).
  rewrite (bind_returns _ (query_avg_cpu_returns _ _)).
  unfold returns, instance_lines, instance_row, instance_next, low_entries,
    arch_label_of, instance_is_graviton, is_low.
  destruct st as [low g x].
  destruct (metric_average s (InstanceId inst)) as [cpu|];
    destruct (is_graviton (family_str (InstanceType inst)));
    simpl; try destruct (Qltb cpu 5); simpl;
    rewrite ?app_nil_r, ?Nat.add_0_r; reflexivity.
Qed.

Lemma instance_loop_returns (s : session) (instances : list instance) :
  returns (for_each instances (instance_body s) (mkEc2State [] 0 0))
          (flat_map (instance_lines s) instances) (run_instances s instances).
Proof.
  apply returns_for_each with (next := instance_next s).
  apply instance_body_returns.
Qed.

Lemma collect_instances_flat (response : describe_instances_response) :
  collect_instances response =
  flat_map (fun r => get (Instances r) []) (get (Reservations response) []).
Proof.
  unfold collect_instances.
  assert (Hin : forall l acc,
             fold_left (fun instances (i : instance) => instances ++ [i]) l acc = acc ++ l).
  { induction l as [|i l IH]; intros acc; simpl.
    - now rewrite app_nil_r.
    - rewrite IH, <- app_assoc. reflexivity. }
  assert (Hout : forall rs acc,
             fold_left
               (fun instances r =>
                  fold_left (fun instances (i : instance) => instances ++ [i])
                            (get (Instances r) []) instances) rs acc
             = acc ++ flat_map (fun r => get (Instances r) []) rs).
  { induction rs as [|r rs IH]; intros acc; simpl.
    - now rewrite app_nil_r.
    - rewrite IH, Hin, <- app_assoc. reflexivity. }
  apply (Hout _ []).
Qed.

Lemma ec2_summary_returns (st : ec2_state) :
  returns (ec2_summary st) (output (ec2_summary st)) tt.
Proof.
  unfold returns, ec2_summary.
  destruct (Nat.ltb 0 (graviton_count st + x86_count st));
    [destruct (Qltb _ 50)|]; destruct (low_utilization st); reflexivity.
Qed.

Lemma ec2_instances_returns (s : session) (instances : list instance) :
  returns
    (prints [RunningCount (List.length instances); Blank] ;;;
     st <- for_each instances (instance_body s) (mkEc2State [] 0 0) ;;
     ec2_summary st)
    ([RunningCount (List.length instances); Blank]
     ++ flat_map (instance_lines s) instances
     ++ output (ec2_summary (run_instances s instances)))
    tt.
Proof.
  eapply returns_bind; [apply returns_prints|].
  eapply returns_bind; [apply instance_loop_returns|].
  apply ec2_summary_returns.
Qed.

Lemma check_ec2_utilization_returns (s : session) :
  returns (check_ec2_utilization s) (ec2_section s) tt.
Proof.
  unfold check_ec2_utilization, ec2_section.
  eapply returns_bind; [apply returns_prints|].
  destruct (describe_instances s) as [[code msg]|response]; [reflexivity|].
  apply returns_try.
  change (call (inr response)) with (ret response).
  rewrite (bind_returns _ (returns_ret response)).
  destruct (collect_instances response) as [|i l] eqn:E; [reflexivity|].
  rewrite (ec2_instances_returns s (i :: l)). reflexivity.
Qed.

(** ** Architecture classification *)

(** C1.  The family of an instance type is what stands before its first
    ['.'] (taking it never raises), and a family is classified as Graviton
    exactly when it ends with ['g'] or has a ['g'] after its first character;
    the classification is a total function of the family, [False] on the
    empty family and on ["t"]. *)
Theorem C1_architecture_classification (instance_type : string) :
  exists family,
    returns (family_of instance_type) [] family /\
    before_first "." instance_type family /\
    (is_graviton family = true <->
       (exists p, family = p ++ "g")%string \/
       (exists c rest p q, family = String c rest /\ rest = p ++ "g" ++ q)%string) /\
    is_graviton "" = false /\
    is_graviton "t" = false.
Proof.
  exists (family_str instance_type).
  split; [apply family_of_returns|].
  split.
  { unfold family_str.
    destruct (split_head "." instance_type) as (f & r & -> & H). exact H. }
  split; [|split; reflexivity].
  unfold is_graviton.
  rewrite orb_true_iff, endswith_spec, str_in_spec.
  split.
  - intros [H|(p & q & H)]; [now left|right].
    destruct (family_str instance_type) as [|c rest]; simpl in H.
    + destruct p; discriminate.
    + now exists c, rest, p, q.
  - intros [H|(c & rest & p & q & -> & ->)]; [now left|right].
    now exists p, q.
Qed.

(** ** The tally of the instance loop *)

Lemma run_counts (s : session) (instances : list instance) (st : ec2_state) :
  let st' := fold_left (fun st inst => instance_next s inst st) instances st in
  graviton_count st' =
    graviton_count st + List.length (filter instance_is_graviton instances) /\
  x86_count st' =
    x86_count st
    + List.length (filter (fun inst => negb (instance_is_graviton inst)) instances).
Proof.
  revert st. induction instances as [|inst l IH]; intros st; simpl.
  - lia.
  - destruct (IH (instance_next s inst st)) as [Hg Hx].
    rewrite Hg, Hx. simpl.
    destruct (instance_is_graviton inst); simpl; lia.
Qed.

Lemma filter_split_length {A} (f : A -> bool) (l : list A) :
  List.length (filter f l) + List.length (filter (fun x => negb (f x)) l)
  = List.length l.
Proof.
  induction l as [|x l IH]; simpl; [reflexivity|].
  destruct (f x); simpl; lia.
Qed.

(** C10.  The instance loop returns, and when it does every instance has
    been counted in exactly one of the two buckets: the Graviton count is
    the number of instances classified as Graviton, the x86 count the number
    of the others, their sum the number of instances, which is therefore the
    denominator of the reported ratio. *)
Theorem C10_architecture_tally (s : session) (instances : list instance) :
  exists st,
    returns (for_each instances (instance_body s) (mkEc2State [] 0 0))
            (flat_map (instance_lines s) instances) st /\
    graviton_count st = List.length (filter instance_is_graviton instances) /\
    x86_count st =
      List.length (filter (fun inst => negb (instance_is_graviton inst)) instances) /\
    graviton_count st + x86_count st = List.length instances /\
    graviton_ratio (graviton_count st) (x86_count st) =
      (Q_of_nat (graviton_count st) / Q_of_nat (List.length instances) * 100)%Q.
Proof.
  exists (run_instances s instances).
  split; [apply instance_loop_returns|].
  destruct (run_counts s instances (mkEc2State [] 0 0)) as [Hg Hx].
  simpl in Hg, Hx. fold (run_instances s instances) in Hg, Hx.
  assert (Hsum : graviton_count (run_instances s instances)
                 + x86_count (run_instances s instances) = List.length instances).
  { rewrite Hg, Hx. apply filter_split_length. }
  repeat split; try assumption.
  unfold graviton_ratio. now rewrite Hsum.
Qed.

(** ** Rational arithmetic of the script *)

Lemma Qltb_lt (a b : Q) : Qltb a b = true <-> (a < b)%Q.
Proof.
  unfold Qltb. rewrite negb_true_iff, <- not_true_iff_false, Qle_bool_iff.
  split; [apply Qnot_le_lt|apply Qlt_not_le].
Qed.

Lemma Qltb_ge (a b : Q) : Qltb a b = false <-> (b <= a)%Q.
Proof.
  unfold Qltb. rewrite negb_false_iff. apply Qle_bool_iff.
Qed.

Lemma fold_left_Qplus (xs : list Q) (a : Q) :
  (fold_left Qplus xs a == a + sum_list xs)%Q.
Proof.
  revert a. induction xs as [|x xs IH]; intros a; simpl.
  - ring.
  - rewrite IH. ring.
Qed.

Lemma py_sum_sum_list (xs : list Q) : (py_sum xs == sum_list xs)%Q.
Proof.
  unfold py_sum. rewrite fold_left_Qplus. ring.
Qed.

(** ** Utilization aggregate and the low-utilization flag *)



(** ** The summary of the utilization phase *)

Lemma ec2_summary_output (st : ec2_state) :
  output (ec2_summary st) =
  [Text "--- 요약 ---"; GravitonCount (graviton_count st); X86Count (x86_count st)]
  ++ ratio_lines (graviton_count st) (x86_count st)
  ++ low_summary_lines (low_utilization st)
  ++ [Blank].
Proof.
  unfold ec2_summary, ratio_lines, low_summary_lines.
  destruct (Nat.ltb 0 (graviton_count st + x86_count st));
    [destruct (Qltb _ 50)|]; destruct (low_utilization st); reflexivity.
Qed.

Lemma low_summary_kind (low : list low_entry) (l : line) :
  In l (low_summary_lines low) ->
  l = Blank \/ l = LowCount (List.length low) \/ l = rightsizing_pointer.
Proof.
  destruct low; simpl; [contradiction|].
  intros [<-|[<-|[<-|[]]]]; auto.
Qed.

(** The section when the inventory query returned [instances], not empty. *)
Lemma ec2_section_instances (s : session) (response : describe_instances_response) :
  describe_instances s = inr response ->
  collect_instances response <> [] ->
  let instances := collect_instances response in
  let st := run_instances s instances in
  output (check_ec2_utilization s) =
  [banner; Text "1. EC2 인스턴스 사용률 분석"; banner]
  ++ [RunningCount (List.length instances); Blank]
  ++ flat_map (instance_lines s) instances
  ++ [Text "--- 요약 ---"; GravitonCount (graviton_count st); X86Count (x86_count st)]
  ++ ratio_lines (graviton_count st) (x86_count st)
  ++ low_summary_lines (low_utilization st)
  ++ [Blank].
Proof.
  intros Hd Hne. cbv zeta.
  rewrite (returns_output (check_ec2_utilization_returns s)).
  unfold ec2_section. rewrite Hd.
  destruct (collect_instances response) as [|i l]; [contradiction|].
  rewrite ec2_summary_output. reflexivity.
Qed.


(** ** The cost phase: what is recorded *)

Lemma record_groups (gs : list group) (st : cost_state) :
  let st' := fold_left record_group gs st in
  services st' = services st ++ map entry_of (filter is_material gs) /\
  (total_cost st' == total_cost st + sum_list (map Amount (filter is_material gs)))%Q.
Proof.
  revert st. induction gs as [|g gs IH]; intros st; simpl.
  - rewrite app_nil_r. split; [reflexivity|unfold sum_list; simpl; ring].
  - destruct (IH (record_group st g)) as [Hs Ht]. rewrite Hs, Ht.
    unfold record_group, is_material.
    destruct (Qgtb (Amount g) (1 # 100)); simpl.
    + rewrite <- app_assoc. split; [reflexivity|unfold sum_list; simpl; ring].
    + split; reflexivity.
Qed.

Lemma sum_list_app (l1 l2 : list Q) :
  (sum_list (l1 ++ l2) == sum_list l1 + sum_list l2)%Q.
Proof.
  induction l1 as [|a l1 IH]; simpl.
  - change (sum_list l2 == 0 + sum_list l2)%Q. ring.
  - change (a + sum_list (l1 ++ l2) == a + sum_list l1 + sum_list l2)%Q.
    rewrite IH. ring.
Qed.

Lemma record_results (rs : list result_by_time) (st : cost_state) :
  let st' :=
    fold_left (fun st result => fold_left record_group (get (Groups result) []) st)
              rs st in
  let gs := flat_map (fun result => get (Groups result) []) rs in
  services st' = services st ++ map entry_of (filter is_material gs) /\
  (total_cost st' == total_cost st + sum_list (map Amount (filter is_material gs)))%Q.
Proof.
  revert st. induction rs as [|r rs IH]; intros st; simpl.
  - rewrite app_nil_r. split; [reflexivity|unfold sum_list; simpl; ring].
  - destruct (IH (fold_left record_group (get (Groups r) []) st)) as [Hs Ht].
    destruct (record_groups (get (Groups r) []) st) as [Hs' Ht'].
    rewrite Hs, Ht, Hs', Ht'.
    rewrite filter_app, !map_app, <- app_assoc, sum_list_app.
    split; [reflexivity|ring].
Qed.

Lemma collect_costs_spec (response : cost_response) :
  services (collect_costs response)
  = map entry_of (filter is_material (all_groups response)) /\
  (total_cost (collect_costs response)
   == sum_list (map Amount (filter is_material (all_groups response))))%Q.
Proof.
  destruct (record_results (get (ResultsByTime response) []) (mkCostState 0 []))
    as [Hs Ht].
  simpl in Hs, Ht. split; [exact Hs|].
  unfold collect_costs, all_groups. rewrite Ht. ring.
Qed.

(** ** The cost phase: ranking *)

Lemma insert_desc_perm (x : string * Q) (l : list (string * Q)) :
  Permutation (insert_desc x l) (x :: l).
Proof.
  induction l as [|y l IH]; simpl; [reflexivity|].
  destruct (Qltb (snd x) (snd y)); [|reflexivity].
  rewrite IH. apply perm_swap.
Qed.

Lemma sort_by_cost_desc_perm (l : list (string * Q)) :
  Permutation (sort_by_cost_desc l) l.
Proof.
  induction l as [|x l IH]; simpl; [reflexivity|].
  rewrite insert_desc_perm. now constructor.
Qed.

Lemma insert_desc_sorted (x : string * Q) (l : list (string * Q)) :
  StronglySorted cost_ge l -> StronglySorted cost_ge (insert_desc x l).
Proof.
  induction 1 as [|y l Hs IH Hy]; simpl.
  - repeat constructor.
  - destruct (Qltb (snd x) (snd y)) eqn:E.
    + constructor; [exact IH|].
      apply (Permutation_Forall (Permutation_sym (insert_desc_perm x l))).
      constructor; [|exact Hy].
      apply Qltb_lt in E. unfold cost_ge. now apply Qlt_le_weak.
    + apply Qltb_ge in E.
      constructor; [now constructor|].
      constructor; [exact E|].
      eapply Forall_impl; [|exact Hy].
      intros z Hz. unfold cost_ge in *. now apply Qle_trans with (snd y).
Qed.

Lemma sort_by_cost_desc_sorted (l : list (string * Q)) :
  StronglySorted cost_ge (sort_by_cost_desc l).
Proof.
  induction l as [|x l IH]; simpl; [constructor|].
  now apply insert_desc_sorted.
Qed.

(** ** The cost phase: its lines *)

Lemma suggestion_returns (entry : string * Q) :
  returns (suggestion entry) (output (suggestion entry)) tt.
Proof.
  destruct entry as [service_name cost]. unfold returns, suggestion.
  repeat match goal with
         | |- context [if ?b then _ else _] => destruct b
         end; reflexivity.
Qed.

Lemma flat_map_singleton {A B} (f : A -> B) (l : list A) :
  flat_map (fun x => [f x]) l = map f l.
Proof.
  induction l as [|x l IH]; simpl; [reflexivity|now rewrite IH].
Qed.

Lemma cost_table_returns (st : cost_state) :
  let ranked := sort_by_cost_desc (services st) in
  returns
    (prints [Blank; TotalCost (total_cost st); Blank] ;;;
     for_each (firstn 10 ranked)
              (fun entry _ => print (cost_row (total_cost st) entry)) tt ;;;
     prints [Blank; suggestions_header] ;;;
     for_each (firstn 5 ranked) (fun entry _ => suggestion entry) tt ;;;
     print Blank)
    (cost_table st) tt.
Proof.
  intros ranked. unfold cost_table. fold ranked.
  eapply returns_bind; [apply returns_prints|].
  rewrite <- flat_map_singleton.
  eapply returns_bind;
    [apply (returns_for_each_print
              (fun entry => print (cost_row (total_cost st) entry))
              (fun entry => [cost_row (total_cost st) entry]));
     intros; apply returns_print|].
  eapply returns_bind; [apply returns_prints|].
  eapply returns_bind;
    [apply (returns_for_each_print suggestion
              (fun entry => output (suggestion entry)));
     apply suggestion_returns|].
  apply returns_print.
Qed.

Lemma check_cost_by_service_returns (s : session) :
  returns (check_cost_by_service s) (cost_section s) tt.
Proof.
  unfold check_cost_by_service, cost_section.
  eapply returns_bind; [apply returns_prints|].
  destruct (get_cost_and_usage s) as [[code msg]|response]; [reflexivity|].
  apply returns_try.
  change (call (inr response)) with (ret response).
  rewrite (bind_returns _ (returns_ret response)).
  destruct (services (collect_costs response)) as [|e l] eqn:E; [reflexivity|].
  pose proof (cost_table_returns (collect_costs response)) as H.
  cbv zeta in H. rewrite E in H. rewrite H. reflexivity.
Qed.

(** ** The cost phase: shares and bars *)

Lemma suggestion_no_rows (entry : string * Q) :
  filter is_cost_row (output (suggestion entry)) = [].
Proof.
  destruct entry as [service_name cost]. unfold suggestion.
  repeat match goal with
         | |- context [if ?b then _ else _] => destruct b
         end; reflexivity.
Qed.

Lemma cost_table_rows (st : cost_state) :
  filter is_cost_row (cost_table st)
  = map (cost_row (total_cost st)) (firstn 10 (sort_by_cost_desc (services st))).
Proof.
  unfold cost_table. cbv zeta.
  generalize (firstn 10 (sort_by_cost_desc (services st))) as shown.
  generalize (firstn 5 (sort_by_cost_desc (services st))) as scanned.
  intros scanned shown.
  rewrite !filter_app.
  assert (Hs : filter is_cost_row
                      (flat_map (fun entry => output (suggestion entry)) scanned) = []).
  { induction scanned as [|e l IH]; [reflexivity|].
    simpl. now rewrite filter_app, suggestion_no_rows, IH. }
  rewrite Hs. simpl. rewrite app_nil_r.
  induction shown as [|[service_name cost] l IH]; [reflexivity|].
  simpl. now rewrite IH.
Qed.

(** ** The cost phase: guidance *)

Lemma suggestion_guidance (entry : string * Q) :
  output (suggestion entry) = guidance (fst entry).
Proof.
  destruct entry as [service_name cost].
  unfold suggestion, guidance, first_match. simpl.
  repeat match goal with
         | |- context [if ?b then _ else _] => destruct b
         end; reflexivity.
Qed.

Lemma find_first {A} (f : A -> bool) (l : list A) (x : A) :
  find f l = Some x ->
  exists earlier later,
    l = earlier ++ x :: later /\ f x = true /\ forall y, In y earlier -> f y = false.
Proof.
  induction l as [|a l IH]; simpl; [discriminate|].
  destruct (f a) eqn:E.
  - intros [= <-]. exists [], l. repeat split; [exact E|contradiction].
  - intros H. destruct (IH H) as (earlier & later & -> & Hx & Hearlier).
    exists (a :: earlier), later. repeat split; [exact Hx|].
    intros y [<-|Hy]; [exact E|now apply Hearlier].
Qed.

Lemma cost_rows_kind (total : Q) (l : list (string * Q)) (x : line) :
  In x (map (cost_row total) l) -> is_cost_row x = true.
Proof.
  rewrite in_map_iff. intros ([service_name cost] & <- & _). reflexivity.
Qed.

(** C6.  The entries scanned for guidance are the first five of the ranking
    by descending cost.  After the guidance header the section prints, for
    each scanned entry in turn, the suggestion of the first of the keywords
    EC2, RDS, S3, Lambda, DynamoDB that occurs in its service name: at most
    one line per entry, and none for a name in which no keyword occurs. *)
Theorem C6_guidance_mapping (s : session) (response : cost_response) :
  get_cost_and_usage s = inr response ->
  services (collect_costs response) <> [] ->
  let ranked := sort_by_cost_desc (services (collect_costs response)) in
  let scanned := firstn 5 ranked in
  Permutation ranked (services (collect_costs response)) /\
  StronglySorted cost_ge ranked /\
  (exists before,
      output (check_cost_by_service s)
      = before ++ suggestions_header
               :: flat_map (fun entry => guidance (fst entry)) scanned ++ [Blank] /\
      forall rule, In rule guidance_rules -> ~ In (snd rule) before) /\
  forall service_name,
    (List.length (guidance service_name) <= 1)%nat /\
    (forall rule,
        first_match service_name = Some rule ->
        guidance service_name = [snd rule] /\
        exists earlier later,
          guidance_rules = earlier ++ rule :: later /\
          occurs (fst rule) service_name /\
          forall r, In r earlier -> ~ occurs (fst r) service_name) /\
    (guidance service_name = [] <->
       forall rule, In rule guidance_rules -> ~ occurs (fst rule) service_name).
Proof.
  intros Hq Hne. cbv zeta.
  split; [apply sort_by_cost_desc_perm|].
  split; [apply sort_by_cost_desc_sorted|].
  split.
  - set (st := collect_costs response) in *.
    exists ([banner; Text "2. 서비스별 비용 분석 (최근 30일)"; banner]
            ++ [Blank; TotalCost (total_cost st); Blank]
            ++ map (cost_row (total_cost st))
                   (firstn 10 (sort_by_cost_desc (services st)))
            ++ [Blank]).
    split.
    + rewrite (returns_output (check_cost_by_service_returns s)).
      unfold cost_section. rewrite Hq. fold st.
      destruct (services st) as [|e l] eqn:E; [contradiction|].
      unfold cost_table. cbv zeta. rewrite E.
      rewrite (flat_map_ext _ _ suggestion_guidance).
      rewrite <- !app_assoc. reflexivity.
    + intros rule Hrule. rewrite !in_app_iff. intros [H|[H|[H|H]]].
      * simpl in Hrule, H.
        destruct Hrule as [<-|[<-|[<-|[<-|[<-|[]]]]]];
          destruct H as [H|[H|[H|[]]]]; discriminate.
      * simpl in Hrule, H.
        destruct Hrule as [<-|[<-|[<-|[<-|[<-|[]]]]]];
          destruct H as [H|[H|[H|[]]]]; discriminate.
      * apply cost_rows_kind in H. simpl in Hrule.
        destruct Hrule as [<-|[<-|[<-|[<-|[<-|[]]]]]]; discriminate.
      * simpl in Hrule, H.
        destruct Hrule as [<-|[<-|[<-|[<-|[<-|[]]]]]];
          destruct H as [H|[]]; discriminate.
  - intros service_name. unfold guidance.
    split; [destruct (first_match service_name); simpl; lia|].
    split.
    + intros rule Hfind. rewrite Hfind. split; [reflexivity|].
      destruct (find_first _ _ Hfind) as (earlier & later & Hsplit & Hx & Hearlier).
      exists earlier, later. split; [exact Hsplit|].
      split; [now apply str_in_spec|].
      intros r Hr Hocc. apply str_in_spec in Hocc.
      rewrite (Hearlier r Hr) in Hocc. discriminate.
    + destruct (first_match service_name) as [rule|] eqn:Hfind.
      * split; [discriminate|]. intros Hnone. exfalso.
        unfold first_match in Hfind. apply find_some in Hfind.
        destruct Hfind as [Hin Hocc]. apply str_in_spec in Hocc.
        exact (Hnone rule Hin Hocc).
      * split; [|reflexivity]. intros _ rule Hin Hocc.
        apply str_in_spec in Hocc. unfold first_match in Hfind.
        pose proof (find_none _ _ Hfind rule Hin) as Hno. simpl in Hno.
        rewrite Hno in Hocc. discriminate.
Qed.

(** ** The recommendation phase *)

Lemma label_of_known (name label : string) :
  In (name, label) label_table -> label_of name = label.
Proof.
  simpl. intros [H|[H|[H|[H|[]]]]]; injection H as <- <-; reflexivity.
Qed.

Lemma label_of_unknown (name : string) :
  (forall label, ~ In (name, label) label_table) -> label_of name = name.
Proof.
  intros H. unfold label_of.
  repeat match goal with
         | |- context [String.eqb name ?k] =>
             destruct (String.eqb_spec name k) as [->|_];
             [exfalso; eapply H; simpl; eauto 6|]
         end.
  reflexivity.
Qed.

Lemma finding_body_returns (f : finding) :
  returns (finding_body f) (finding_lines f) tt.
Proof.
  unfold returns, finding_body, finding_lines.
  destruct (Qgtb (get (value f) 0%Q) 0); reflexivity.
Qed.

Lemma summary_body_returns (su : summary) :
  returns (summary_body su) (summary_lines su) tt.
Proof.
  unfold summary_body, summary_lines.
  eapply returns_bind; [apply returns_prints|].
  apply (returns_for_each_print finding_body finding_lines finding_body_returns).
Qed.

Lemma check_compute_optimizer_returns (s : session) :
  returns (check_compute_optimizer s) (optimizer_section s) tt.
Proof.
  unfold check_compute_optimizer, optimizer_section.
  eapply returns_bind; [apply returns_prints|].
  destruct (get_recommendation_summaries s) as [[code msg]|response].
  - unfold returns. simpl.
    destruct (String.eqb code "OptInRequiredException"); reflexivity.
  - apply returns_try.
    change (call (inr response)) with (ret response).
    rewrite (bind_returns _ (returns_ret response)).
    destruct (get (recommendationSummaries response) []) as [|su l]; [reflexivity|].
    assert (H : returns
                  (for_each (su :: l) (fun summary _ => summary_body summary) tt ;;;
                   print Blank)
                  (flat_map summary_lines (su :: l) ++ [Blank]) tt).
    { eapply returns_bind; [|apply returns_print].
      apply (returns_for_each_print summary_body summary_lines summary_body_returns). }
    rewrite H. reflexivity.
Qed.

(** C8.  For the summaries the optimizer query returns, each resource type
    is followed by one line per finding with a positive count, labelled by
    the fixed table for the four known categories and by the category name
    itself otherwise; a finding whose count is zero prints nothing. *)
Theorem C8_finding_labels (s : session) (response : optimizer_response) :
  get_recommendation_summaries s = inr response ->
  get (recommendationSummaries response) [] <> [] ->
  output (check_compute_optimizer s)
  = [banner; Text "3. Compute Optimizer 추천 요약"; banner]
    ++ flat_map
         (fun su =>
            [Blank; ResourceType (get (recommendationResourceType su) "Unknown")]
            ++ flat_map finding_lines (get (summaries su) []))
         (get (recommendationSummaries response) [])
    ++ [Blank] /\
  forall f : finding,
    let category := get (name f) "Unknown" in
    let count := get (value f) 0%Q in
    ((0 < count)%Q ->
     exists label,
       finding_lines f = [FindingLine label count] /\
       (forall known, In (category, known) label_table -> label = known) /\
       ((forall known, ~ In (category, known) label_table) -> label = category)) /\
    ((count == 0)%Q -> finding_lines f = []).
Proof.
  intros Hq Hne. split.
  - rewrite (returns_output (check_compute_optimizer_returns s)).
    unfold optimizer_section. rewrite Hq.
    destruct (get (recommendationSummaries response) []) as [|su l];
      [contradiction|reflexivity].
  - intros f. cbv zeta. unfold finding_lines, Qgtb. split.
    + intros Hpos. apply Qltb_lt in Hpos. rewrite Hpos.
      exists (label_of (get (name f) "Unknown")).
      split; [reflexivity|].
      split; [intros known Hin; now apply label_of_known|apply label_of_unknown].
    + intros Hzero.
      destruct (Qltb 0 (get (value f) 0%Q)) eqn:E; [|reflexivity].
      apply Qltb_lt in E. rewrite Hzero in E. now apply Qlt_irrefl in E.
Qed.

(** ** The checklist and the whole run *)

Lemma check_sustainability_tips_returns (s : session) :
  returns (check_sustainability_tips s) tips_section tt.
Proof. reflexivity. Qed.

Lemma create_session_acquired (b : boto3) (profile region : option string)
      (s : session) (i : identity) :
  acquire b profile region = inr (s, i) ->
  returns (create_session b profile region) (auth_lines s i) s.
Proof.
  unfold acquire, returns, create_session.
  destruct (Session b (truthy profile) (truthy region)) as [e|s']; [discriminate|].
  destruct (get_caller_identity s') as [e|i'] eqn:E; [discriminate|].
  intros [= -> ->]. simpl. rewrite E. reflexivity.
Qed.

Lemma main_acquired (b : boto3) (a : args) (s : session) (i : identity) :
  acquire b (profile a) (region a) = inr (s, i) ->
  returns (main b a)
          (header
           ++ auth_lines s i
           ++ output (check_ec2_utilization s)
           ++ cost_or_skipped a s
           ++ output (check_compute_optimizer s)
           ++ tips_section
           ++ footer)
          tt.
Proof.
  intros Hacq. unfold main.
  eapply returns_bind; [apply returns_prints|].
  eapply returns_bind; [apply (create_session_acquired _ _ _ Hacq)|].
  rewrite (returns_output (check_ec2_utilization_returns s)).
  eapply returns_bind; [apply check_ec2_utilization_returns|].
  eapply returns_bind.
  { unfold cost_or_skipped. destruct (skip_cost a); simpl.
    - apply returns_prints.
    - rewrite (returns_output (check_cost_by_service_returns s)).
      apply check_cost_by_service_returns. }
  rewrite (returns_output (check_compute_optimizer_returns s)).
  eapply returns_bind; [apply check_compute_optimizer_returns|].
  eapply returns_bind; [apply check_sustainability_tips_returns|].
  apply returns_prints.
Qed.

(** ** Empty results *)

(** C9.  In a run whose session was acquired: when the inventory query
    returns no running instance, the utilization section is the explicit
    no-instances message, without any instance row or failure notice; when
    no group costs more than 0.01, the cost section is the explicit no-cost
    message; and the run goes on through the remaining sections and returns. *)
Theorem C9_empty_results (b : boto3) (a : args) (s : session) (i : identity) :
  acquire b (profile a) (region a) = inr (s, i) ->
  (forall response,
      describe_instances s = inr response ->
      collect_instances response = [] ->
      output (check_ec2_utilization s)
      = [banner; Text "1. EC2 인스턴스 사용률 분석"; banner;
         Text "실행 중인 EC2 인스턴스가 없습니다.";
         Text "→ 서버리스 아키텍처를 사용 중이라면 이미 좋은 선택입니다!";
         Blank]) /\
  (forall response,
      get_cost_and_usage s = inr response ->
      filter is_material (all_groups response) = [] ->
      output (check_cost_by_service s)
      = [banner; Text "2. 서비스별 비용 분석 (최근 30일)"; banner;
         Text "최근 30일간 비용이 발생하지 않았습니다.";
         Blank]) /\
  result (main b a) = inr tt /\
  exit_status (result (main b a)) = 0%Z /\
  output (main b a)
  = header
    ++ auth_lines s i
    ++ output (check_ec2_utilization s)
    ++ cost_or_skipped a s
    ++ output (check_compute_optimizer s)
    ++ tips_section
    ++ footer.
Proof.
  intros Hacq.
  pose proof (main_acquired b a Hacq) as Hmain.
  split; [|split; [|split; [|split]]].
  - intros response Hd Hempty.
    rewrite (returns_output (check_ec2_utilization_returns s)).
    unfold ec2_section. now rewrite Hd, Hempty.
  - intros response Hq Hempty.
    rewrite (returns_output (check_cost_by_service_returns s)).
    unfold cost_section. rewrite Hq.
    destruct (collect_costs_spec response) as [Hs _].
    rewrite Hs, Hempty. reflexivity.
  - apply (returns_result Hmain).
  - now rewrite (returns_result Hmain).
  - apply (returns_output Hmain).
Qed.

(** ** Failures of the metrics query *)

Lemma instance_lines_in_section (s : session) (response : describe_instances_response)
      (inst : instance) :
  describe_instances s = inr response ->
  In inst (collect_instances response) ->
  exists before after,
    output (check_ec2_utilization s) = before ++ instance_lines s inst ++ after.
Proof.
  intros Hd Hin.
  assert (Hne : collect_instances response <> []).
  { intros H. now rewrite H in Hin. }
  rewrite (ec2_section_instances s Hd Hne).
  apply in_split in Hin. destruct Hin as (l1 & l2 & Hsplit).
  generalize (run_instances s (collect_instances response)). intros st.
  generalize (List.length (collect_instances response)). intros n.
  rewrite Hsplit, flat_map_app. cbn [flat_map].
  exists ([banner; Text "1. EC2 인스턴스 사용률 분석"; banner]
          ++ [RunningCount n; Blank]
          ++ flat_map (instance_lines s) l1).
  exists (flat_map (instance_lines s) l2
          ++ [Text "--- 요약 ---"; GravitonCount (graviton_count st);
              X86Count (x86_count st)]
          ++ ratio_lines (graviton_count st) (x86_count st)
          ++ low_summary_lines (low_utilization st)
          ++ [Blank]).
  repeat rewrite <- app_assoc. reflexivity.
Qed.

(** C4.  When the metrics query of a running instance fails, the handler
    prints the permission notice if the error code is AccessDeniedException
    or AccessDenied and the generic notice with the code otherwise; the
    aggregate of the instance is unavailable and its row is printed all the
    same; the block of every running instance is in the utilization section;
    the cost and recommendation sections do not depend on the metrics query
    and follow in the output of the run, which returns. *)
Theorem C4_metrics_failure
        (b : boto3) (a : args) (s : session) (i : identity)
        (response : describe_instances_response) (inst : instance) (e : client_error) :
  acquire b (profile a) (region a) = inr (s, i) ->
  describe_instances s = inr response ->
  In inst (collect_instances response) ->
  get_metric_statistics s (InstanceId inst) = inl e ->
  (is_access_denied (err_code e) = true <->
     err_code e = "AccessDeniedException" \/ err_code e = "AccessDenied") /\
  (forall st, exists st',
      returns (instance_body s inst st)
              ([if is_access_denied (err_code e)
                then cloudwatch_permission_notice
                else CwFailed (err_code e);
                InstanceHeader (InstanceId inst) (InstanceType inst) (arch_label_of inst);
                InstanceName (name_or_none (find_name_tag (get (Tags inst) [])));
                InstanceCpu None;
                Blank])
              st') /\
  (forall other,
      In other (collect_instances response) ->
      In (InstanceHeader (InstanceId other) (InstanceType other) (arch_label_of other))
         (instance_lines s other) /\
      exists before after,
        output (check_ec2_utilization s) = before ++ instance_lines s other ++ after) /\
  (forall metrics,
      output (check_cost_by_service (with_metrics s metrics))
      = output (check_cost_by_service s) /\
      output (check_compute_optimizer (with_metrics s metrics))
      = output (check_compute_optimizer s)) /\
  (exists rest, output (check_cost_by_service s)
                = banner :: Text "2. 서비스별 비용 분석 (최근 30일)" :: banner :: rest) /\
  (exists rest, output (check_compute_optimizer s)
                = banner :: Text "3. Compute Optimizer 추천 요약" :: banner :: rest) /\
  result (main b a) = inr tt /\
  output (main b a)
  = header
    ++ auth_lines s i
    ++ output (check_ec2_utilization s)
    ++ cost_or_skipped a s
    ++ output (check_compute_optimizer s)
    ++ tips_section
    ++ footer.
Proof.
  intros Hacq Hd Hin He.
  pose proof (main_acquired b a Hacq) as Hmain.
  split.
  { unfold is_access_denied. rewrite orb_true_iff, !String.eqb_eq. reflexivity. }
  split.
  { intros st. exists (instance_next s inst st).
    pose proof (instance_body_returns s inst st) as H.
    unfold instance_lines, instance_row, metric_notice, metric_average in H.
    rewrite He in H. exact H. }
  split.
  { intros other Hother. split.
    - unfold instance_lines, instance_row. rewrite !in_app_iff.
      right. left. now left.
    - now apply instance_lines_in_section with (response := response). }
  split; [intros metrics; split; reflexivity|].
  split.
  { rewrite (returns_output (check_cost_by_service_returns s)).
    unfold cost_section. eexists. reflexivity. }
  split.
  { rewrite (returns_output (check_compute_optimizer_returns s)).
    unfold optimizer_section. eexists. reflexivity. }
  split; [apply (returns_result Hmain)|apply (returns_output Hmain)].
Qed.

(** ** The end-to-end scenarios of the specification *)

(** Scenario A: of three instances, two Graviton, the ratio is 200/3, only
    the first instance is flagged and no move to Graviton is suggested. *)
Example scenario_A :
  map low_id (low_utilization (run_instances account_A (collect_instances inventory_A)))
  = ["i-01"] /\
  In (GravitonRatio (graviton_ratio 2 1)) (output (check_ec2_utilization account_A)) /\
  (graviton_ratio 2 1 == 200 # 3)%Q /\
  ~ In graviton_suggestion (output (check_ec2_utilization account_A)).
Proof.
  split; [reflexivity|]. split; [vm_compute; tauto|]. split; [reflexivity|].
  intros H. vm_compute in H.
  repeat (destruct H as [H|H]; [discriminate H|]). exact H.
Qed.

(** Scenario B: the entry at 0.005 is left out, the total is 150, EC2 has
    80 percent and a bar of 24, and the suggestions are those of EC2 and S3. *)
Example scenario_B :
  services (collect_costs costs_B)
  = [("Amazon Simple Storage Service (S3)", 30%Q);
     ("Amazon Elastic Compute Cloud (EC2)", 120%Q)] /\
  (total_cost (collect_costs costs_B) == 150)%Q /\
  (percentage_of (total_cost (collect_costs costs_B)) 120 == 80)%Q /\
  bar_length_of (total_cost (collect_costs costs_B)) 120 = 24%Z /\
  flat_map (fun entry => output (suggestion entry))
           (firstn 5 (sort_by_cost_desc (services (collect_costs costs_B))))
  = [suggest_EC2; suggest_S3].
Proof.
  repeat split; reflexivity.
Qed.

(** ** Witnesses *)

Lemma C4_witness :
  acquire (installed account_denied) None None = inr (account_denied, operator) /\
  describe_instances account_denied = inr inventory_A /\
  In instance_2 (collect_instances inventory_A) /\
  get_metric_statistics account_denied (InstanceId instance_2) = inl access_denied /\
  (forall other,
      In other (collect_instances inventory_A) ->
      exists before after,
        output (check_ec2_utilization account_denied)
        = before ++ instance_lines account_denied other ++ after) /\
  result (main (installed account_denied) no_options) = inr tt.
Proof.
  split; [reflexivity|]. split; [reflexivity|].
  split; [simpl; auto|]. split; [reflexivity|].
  destruct (C4_metrics_failure (installed account_denied) no_options
                               (s := account_denied) (i := operator)
                               (response := inventory_A) instance_2
                               (e := access_denied)
                               eq_refl eq_refl
                               (or_intror (or_introl eq_refl)) eq_refl)
    as (_ & _ & Hrows & _ & _ & _ & Hresult & _).
  split; [|exact Hresult].
  intros other Hother. exact (proj2 (Hrows other Hother)).
Defined.

Lemma C6_witness :
  get_cost_and_usage account_A = inr costs_B /\
  services (collect_costs costs_B) <> [] /\
  exists before,
    output (check_cost_by_service account_A)
    = before ++ suggestions_header
             :: flat_map (fun entry => guidance (fst entry))
                         (firstn 5 (sort_by_cost_desc (services (collect_costs costs_B))))
             ++ [Blank].
Proof.
  split; [reflexivity|].
  assert (Hne : services (collect_costs costs_B) <> []) by discriminate.
  split; [exact Hne|].
  pose proof (C6_guidance_mapping account_A (response := costs_B) eq_refl Hne) as H.
  cbv zeta in H. destruct H as (_ & _ & (before & Hout & _) & _).
  exists before. exact Hout.
Defined.


Lemma C8_witness :
  get_recommendation_summaries account_empty = inr findings_D /\
  get (recommendationSummaries findings_D) [] <> [] /\
  output (check_compute_optimizer account_empty)
  = [banner; Text "3. Compute Optimizer 추천 요약"; banner;
     Blank; ResourceType "Ec2Instance";
     FindingLine "과도 프로비저닝 (줄일 수 있음)" 3;
     FindingLine "IDLE" 2;
     Blank].
Proof.
  split; [reflexivity|].
  assert (Hne : get (recommendationSummaries findings_D) [] <> []) by discriminate.
  split; [exact Hne|].
  destruct (C8_finding_labels account_empty (response := findings_D) eq_refl Hne)
    as [Hout _].
  rewrite Hout. reflexivity.
Defined.

Lemma C9_witness :
  acquire (installed account_empty) None None = inr (account_empty, operator) /\
  result (main (installed account_empty) no_options) = inr tt /\
  exit_status (result (main (installed account_empty) no_options)) = 0%Z.
Proof.
  split; [reflexivity|].
  destruct (C9_empty_results (installed account_empty) no_options
                             (s := account_empty) (i := operator) eq_refl)
    as (_ & _ & Hresult & Hexit & _).
  split; [exact Hresult|exact Hexit].
Defined.

(** * Further properties of the script *)

(** ** Instance rows *)

Lemma find_name_tag_first (before after : list tag) (t : tag) :
  Key t = "Name" ->
  (forall u, In u before -> Key u <> "Name") ->
  find_name_tag (before ++ t :: after) = Value t.
Proof.
  intros Ht. induction before as [|u before IH]; intros Hbefore; simpl.
  - rewrite Ht. reflexivity.
  - destruct (String.eqb_spec (Key u) "Name") as [E|_].
    + exfalso. apply (Hbefore u); [now left|exact E].
    + apply IH. intros v Hv. apply Hbefore. now right.
Qed.

Lemma find_name_tag_none (tags : list tag) :
  (forall u, In u tags -> Key u <> "Name") -> find_name_tag tags = "".
Proof.
  induction tags as [|u tags IH]; intros H; simpl; [reflexivity|].
  destruct (String.eqb_spec (Key u) "Name") as [E|_].
  - exfalso. apply (H u); [now left|exact E].
  - apply IH. intros v Hv. apply H. now right.
Qed.

(** X1.  The name printed for an instance is the value of its first tag
    whose key is Name, later Name tags being ignored; it is the placeholder
    when the instance has no tags, no Name tag, or an empty first Name. *)
Theorem X1_name_tag (s : session) (inst : instance) :
  let tags := get (Tags inst) [] in
  In (InstanceName (name_or_none (find_name_tag tags))) (instance_lines s inst) /\
  (Tags inst = None -> find_name_tag tags = "") /\
  ((forall u, In u tags -> Key u <> "Name") ->
   name_or_none (find_name_tag tags) = "(없음)") /\
  (forall before t after,
      tags = before ++ t :: after ->
      Key t = "Name" ->
      (forall u, In u before -> Key u <> "Name") ->
      find_name_tag tags = Value t /\
      (Value t = "" -> name_or_none (find_name_tag tags) = "(없음)") /\
      (Value t <> "" -> name_or_none (find_name_tag tags) = Value t)).
Proof.
  cbv zeta. split; [|split; [|split]].
  - unfold instance_lines, instance_row. rewrite !in_app_iff.
    right. left. simpl. auto.
  - intros ->. reflexivity.
  - intros H. now rewrite (@find_name_tag_none _ H).
  - intros before t after -> Ht Hbefore.
    rewrite (@find_name_tag_first before after t Ht Hbefore).
    split; [reflexivity|]. split.
    + intros ->. reflexivity.
    + intros Hne. destruct (Value t); [contradiction|reflexivity].
Qed.

Lemma instance_lines_headers (s : session) (inst : instance) :
  filter is_instance_header (instance_lines s inst) = [header_of inst].
Proof.
  unfold instance_lines, instance_row, metric_notice, header_of.
  rewrite !filter_app.
  destruct (get_metric_statistics s (InstanceId inst)) as [e|r];
    [destruct (is_access_denied (err_code e))|];
    destruct (is_low _); reflexivity.
Qed.

Lemma block_headers (s : session) (instances : list instance) :
  filter is_instance_header (flat_map (instance_lines s) instances)
  = map header_of instances.
Proof.
  induction instances as [|inst l IH]; [reflexivity|].
  simpl. now rewrite filter_app, instance_lines_headers, IH.
Qed.

Lemma summary_headers (st : ec2_state) :
  filter is_instance_header (output (ec2_summary st)) = [].
Proof.
  rewrite ec2_summary_output. unfold ratio_lines, low_summary_lines.
  destruct (Nat.ltb 0 (graviton_count st + x86_count st));
    [destruct (Qltb _ 50)|]; destruct (low_utilization st); reflexivity.
Qed.

(** X2.  When the inventory query succeeds, the utilization section has
    exactly one row header per running instance, in the order of the
    reservations and of the instances inside each, a reservation without an
    Instances key counting for none. *)
Theorem X2_one_row_per_instance (s : session) (response : describe_instances_response) :
  describe_instances s = inr response ->
  filter is_instance_header (output (check_ec2_utilization s))
  = map header_of
        (flat_map (fun reservation => get (Instances reservation) [])
                  (get (Reservations response) [])).
Proof.
  intros Hd. rewrite <- collect_instances_flat.
  rewrite (returns_output (check_ec2_utilization_returns s)).
  unfold ec2_section. rewrite Hd.
  destruct (collect_instances response) as [|inst l]; [reflexivity|].
  rewrite !filter_app, block_headers, summary_headers, app_nil_r. reflexivity.
Qed.

(** ** Low-utilization instances *)

Lemma run_low (s : session) (instances : list instance) (st : ec2_state) :
  low_utilization (fold_left (fun st inst => instance_next s inst st) instances st)
  = low_utilization st ++ flat_map (low_entries s) instances.
Proof.
  revert st. induction instances as [|inst l IH]; intros st; simpl.
  - now rewrite app_nil_r.
  - rewrite IH. simpl. now rewrite <- app_assoc.
Qed.

Lemma low_entries_ids (s : session) (instances : list instance) :
  map low_id (flat_map (low_entries s) instances)
  = map InstanceId (filter (flagged s) instances).
Proof.
  induction instances as [|inst l IH]; [reflexivity|].
  simpl. rewrite map_app, IH. unfold low_entries, flagged, is_low.
  destruct (metric_average s (InstanceId inst)) as [cpu|]; [|reflexivity].
  destruct (Qltb cpu 5); reflexivity.
Qed.

(** X3.  After the instance loop, [low_utilization] holds exactly the
    instances whose aggregate is available and below 5, in inventory order;
    an instance whose metrics query failed or returned no sample is never
    among them; and the summary prints the count line, with that number, if
    and only if there is at least one. *)
Theorem X3_low_utilization (s : session) (instances : list instance) :
  exists st,
    returns (for_each instances (instance_body s) (mkEc2State [] 0 0))
            (flat_map (instance_lines s) instances) st /\
    map low_id (low_utilization st) = map InstanceId (filter (flagged s) instances) /\
    (forall inst,
        flagged s inst = true <->
        exists response m,
          get_metric_statistics s (InstanceId inst) = inr response /\
          average_cpu (get (Datapoints response) []) = Some m /\
          (m < 5)%Q) /\
    (forall n,
        In (LowCount n) (output (ec2_summary st)) <->
        n = List.length (filter (flagged s) instances) /\ (0 < n)%nat).
Proof.
  exists (run_instances s instances).
  split; [apply instance_loop_returns|].
  assert (Hlow : low_utilization (run_instances s instances)
                 = flat_map (low_entries s) instances).
  { unfold run_instances. now rewrite run_low. }
  assert (Hids : map low_id (low_utilization (run_instances s instances))
                 = map InstanceId (filter (flagged s) instances)).
  { rewrite Hlow. apply low_entries_ids. }
  split; [exact Hids|]. split.
  - intros inst. unfold flagged, is_low, metric_average.
    destruct (get_metric_statistics s (InstanceId inst)) as [e|response].
    + split; [discriminate|]. intros (r & m & H & _). discriminate.
    + destruct (average_cpu (get (Datapoints response) [])) as [cpu|] eqn:E.
      * rewrite Qltb_lt. split.
        -- intros Hlt. now exists response, cpu.
        -- intros (r & m & [= <-] & Hm & Hlt). rewrite E in Hm.
           injection Hm as <-. exact Hlt.
      * split; [discriminate|]. intros (r & m & [= <-] & Hm & _).
        rewrite E in Hm. discriminate.
  - intros n.
    assert (Hlen : List.length (low_utilization (run_instances s instances))
                   = List.length (filter (flagged s) instances)).
    { rewrite <- (length_map low_id), Hids. apply length_map. }
    rewrite <- Hlen. rewrite ec2_summary_output.
    generalize (low_utilization (run_instances s instances)) as low.
    generalize (graviton_count (run_instances s instances)) as g.
    generalize (x86_count (run_instances s instances)) as x.
    intros x g low. rewrite !in_app_iff. split.
    + intros [H|[H|[H|H]]].
      * simpl in H. destruct H as [H|[H|[H|[]]]]; discriminate.
      * unfold ratio_lines in H. destruct (Nat.ltb 0 (g + x)); [|contradiction].
        destruct H as [H|H]; [discriminate|].
        destruct (Qltb _ 50); [|contradiction].
        destruct H as [H|[]]; discriminate.
      * destruct low as [|e l]; [contradiction|].
        simpl in H. destruct H as [H|[H|[H|[]]]]; try discriminate.
        injection H as <-. simpl. split; [reflexivity|lia].
      * destruct H as [H|[]]; discriminate.
    + intros [-> Hpos]. right. right. left.
      destruct low as [|e l]; [simpl in Hpos; lia|]. simpl. auto.
Qed.

(** ** The Graviton ratio *)

Lemma Q_of_nat_add (g x : nat) : (Q_of_nat (g + x) == Q_of_nat g + Q_of_nat x)%Q.
Proof.
  unfold Q_of_nat. rewrite Nat2Z.inj_add, inject_Z_plus. reflexivity.
Qed.

Lemma Q_of_nat_lt (g x : nat) : (g < x)%nat <-> (Q_of_nat g < Q_of_nat x)%Q.
Proof.
  unfold Q_of_nat. rewrite <- Zlt_Qlt. lia.
Qed.

Lemma Q_of_nat_nonneg (g : nat) : (0 <= Q_of_nat g)%Q.
Proof.
  unfold Q_of_nat. change 0%Q with (inject_Z 0). rewrite <- Zle_Qle. lia.
Qed.

Lemma graviton_ratio_lt_50 (g x : nat) :
  (0 < g + x)%nat -> ((graviton_ratio g x < 50)%Q <-> (g < x)%nat).
Proof.
  intros Hpos. unfold graviton_ratio.
  assert (Hn : (0 < Q_of_nat (g + x))%Q).
  { apply (Q_of_nat_lt 0 (g + x)). exact Hpos. }
  pose proof (Q_of_nat_add g x) as Hadd.
  pose proof (Q_of_nat_nonneg g) as Hg.
  rewrite (Q_of_nat_lt g x).
  split.
  - intros H.
    assert (Hhalf : (Q_of_nat g / Q_of_nat (g + x) < 1 # 2)%Q).
    { revert H. generalize (Q_of_nat g / Q_of_nat (g + x))%Q. intros r H. lra. }
    apply Qnot_le_lt. intros Hle. apply (Qlt_not_le _ _ Hhalf).
    apply Qle_shift_div_l; [exact Hn|]. lra.
  - intros H.
    assert (Hhalf : (Q_of_nat g / Q_of_nat (g + x) < 1 # 2)%Q).
    { apply Qlt_shift_div_r; [exact Hn|]. lra. }
    revert Hhalf. generalize (Q_of_nat g / Q_of_nat (g + x))%Q. intros r Hr. lra.
Qed.

Lemma graviton_ratio_bounds (g x : nat) :
  (0 < g + x)%nat -> (0 <= graviton_ratio g x <= 100)%Q.
Proof.
  intros Hpos. unfold graviton_ratio.
  assert (Hn : (0 < Q_of_nat (g + x))%Q).
  { apply (Q_of_nat_lt 0 (g + x)). exact Hpos. }
  pose proof (Q_of_nat_add g x) as Hadd.
  pose proof (Q_of_nat_nonneg g) as Hg.
  pose proof (Q_of_nat_nonneg x) as Hx.
  assert (H0 : (0 <= Q_of_nat g / Q_of_nat (g + x))%Q).
  { apply Qle_shift_div_l; [exact Hn|]. lra. }
  assert (H1 : (Q_of_nat g / Q_of_nat (g + x) <= 1)%Q).
  { apply Qle_shift_div_r; [exact Hn|]. lra. }
  revert H0 H1. generalize (Q_of_nat g / Q_of_nat (g + x))%Q. intros r H0 H1.
  split; lra.
Qed.

(** X4.  The summary suggests the move to Graviton exactly when the x86
    instances outnumber the Graviton ones, and the ratio it prints lies
    between 0 and 100. *)
Theorem X4_suggestion_when_outnumbered (st : ec2_state) :
  (In graviton_suggestion (output (ec2_summary st)) <->
   (graviton_count st < x86_count st)%nat) /\
  (forall ratio,
      In (GravitonRatio ratio) (output (ec2_summary st)) ->
      (0 <= ratio <= 100)%Q).
Proof.
  rewrite ec2_summary_output.
  destruct st as [low g x]. cbn [graviton_count x86_count low_utilization].
  unfold ratio_lines. split.
  - rewrite !in_app_iff. split.
    + intros [H|[H|[H|H]]].
      * simpl in H. destruct H as [H|[H|[H|[]]]]; discriminate.
      * destruct (Nat.ltb 0 (g + x)) eqn:Hpos; [|contradiction].
        apply Nat.ltb_lt in Hpos.
        destruct H as [H|H]; [discriminate|].
        destruct (Qltb (graviton_ratio g x) 50) eqn:E; [|contradiction].
        apply Qltb_lt in E. now apply graviton_ratio_lt_50 in E.
      * apply low_summary_kind in H. destruct H as [H|[H|H]]; discriminate.
      * destruct H as [H|[]]; discriminate.
    + intros Hlt. right. left.
      assert (Hpos : (0 < g + x)%nat) by lia.
      apply (graviton_ratio_lt_50 _ _ Hpos), Qltb_lt in Hlt.
      apply Nat.ltb_lt in Hpos. rewrite Hpos, Hlt. simpl. auto.
  - intros ratio. rewrite !in_app_iff. intros [H|[H|[H|H]]].
    + simpl in H. destruct H as [H|[H|[H|[]]]]; discriminate.
    + destruct (Nat.ltb 0 (g + x)) eqn:Hpos; [|contradiction].
      apply Nat.ltb_lt in Hpos.
      destruct H as [H|H].
      * injection H as <-. now apply graviton_ratio_bounds.
      * destruct (Qltb (graviton_ratio g x) 50); [|contradiction].
        destruct H as [H|[]]; discriminate.
    + apply low_summary_kind in H. destruct H as [H|[H|H]]; discriminate.
    + destruct H as [H|[]]; discriminate.
Qed.

(** ** Session acquisition *)

(** X5.  [create_session] handles exactly two exceptions of the session
    constructor and of the identity probe: missing credentials and an
    unknown profile, each ending in [sys.exit(1)] after its help lines; any
    other exception, a ClientError of the probe among them, leaves the
    function as it is with nothing printed; and a session is returned, after
    the three identity lines, only when the probe succeeded. *)
Theorem X5_create_session_outcomes (b : boto3) (profile region : option string) :
  create_session b profile region
  = match acquire b profile region with
    | inr (s, i) => (auth_lines s i, inr s)
    | inl NoCredentialsError => (credentials_help, inl (SystemExit 1))
    | inl (ProfileNotFound msg) => (profile_help msg, inl (SystemExit 1))
    | inl e => ([], inl e)
    end /\
  (forall out s,
      create_session b profile region = (out, inr s) ->
      exists i, get_caller_identity s = inr i /\ out = auth_lines s i).
Proof.
  assert (H : create_session b profile region
              = match acquire b profile region with
                | inr (s, i) => (auth_lines s i, inr s)
                | inl NoCredentialsError => (credentials_help, inl (SystemExit 1))
                | inl (ProfileNotFound msg) => (profile_help msg, inl (SystemExit 1))
                | inl e => ([], inl e)
                end).
  { unfold create_session, acquire.
    destruct (Session b (truthy profile) (truthy region)) as [e|s].
    - destruct e; reflexivity.
    - simpl. destruct (get_caller_identity s) as [e|i]; [destruct e|]; reflexivity. }
  split; [exact H|].
  intros out s Hrun. rewrite H in Hrun. unfold acquire in Hrun.
  destruct (Session b (truthy profile) (truthy region)) as [e|s'].
  - destruct e; discriminate.
  - destruct (get_caller_identity s') as [e|i] eqn:E.
    + destruct e; discriminate.
    + injection Hrun as <- <-. now exists i.
Qed.

(** X6.  When session acquisition fails, the run prints the header and the
    help of [create_session], if any, and nothing of the four phases, and
    ends with status 1 unless the exception is itself a [SystemExit]. *)
Theorem X6_failed_acquisition (b : boto3) (a : args) (e : exn) :
  acquire b (profile a) (region a) = inl e ->
  output (main b a)
  = header ++ match e with
              | NoCredentialsError => credentials_help
              | ProfileNotFound msg => profile_help msg
              | _ => []
              end /\
  ~ In banner (output (main b a)) /\
  ((forall status, e <> SystemExit status) ->
   exit_status (result (main b a)) = 1%Z).
Proof.
  intros Hacq.
  assert (Hc : create_session b (profile a) (region a)
               = match e with
                 | NoCredentialsError => (credentials_help, inl (SystemExit 1))
                 | ProfileNotFound msg => (profile_help msg, inl (SystemExit 1))
                 | _ => ([], inl e)
                 end).
  { unfold create_session, acquire in *.
    destruct (Session b (truthy (profile a)) (truthy (region a))) as [e0|s].
    - injection Hacq as ->. destruct e; reflexivity.
    - simpl. destruct (get_caller_identity s) as [e0|i]; [|discriminate].
      injection Hacq as ->. destruct e; reflexivity. }
  assert (Hmain : main b a
                  = (let (out, r) := create_session b (profile a) (region a) in
                     (header ++ out,
                      match r with inl e' => inl e' | inr _ => result (main b a) end))).
  { unfold main, bind at 1. simpl. unfold bind at 1.
    destruct (create_session b (profile a) (region a)) as [out [e'|s]] eqn:E;
      [reflexivity|].
    rewrite Hc in E. destruct e; discriminate. }
  rewrite Hc in Hmain.
  split; [|split].
  - rewrite Hmain. destruct e; reflexivity.
  - rewrite Hmain. intros H.
    destruct e; vm_compute in H;
      repeat (destruct H as [H|H]; [discriminate H|]); exact H.
  - intros Hne. rewrite Hmain. destruct e; try reflexivity.
    exfalso. exact (Hne status eq_refl).
Qed.

(** ** The cost phase, further *)

(** X7.  With [--skip-cost] the run prints the skip notice in place of the
    cost section and does not depend on what the cost query would answer. *)
Theorem X7_skip_cost (b b' : boto3) (a : args) (s : session) (i : identity)
        (costs : client_error + cost_response) :
  skip_cost a = true ->
  acquire b (profile a) (region a) = inr (s, i) ->
  acquire b' (profile a) (region a) = inr (with_costs s costs, i) ->
  output (main b a)
  = header
    ++ auth_lines s i
    ++ output (check_ec2_utilization s)
    ++ skip_cost_lines
    ++ output (check_compute_optimizer s)
    ++ tips_section
    ++ footer /\
  main b' a = main b a.
Proof.
  intros Hskip Hacq Hacq'.
  pose proof (main_acquired b a Hacq) as Hmain.
  pose proof (main_acquired b' a Hacq') as Hmain'.
  unfold cost_or_skipped in Hmain, Hmain'. rewrite Hskip in Hmain, Hmain'.
  split; [apply (returns_output Hmain)|].
  unfold returns in Hmain, Hmain'. rewrite Hmain, Hmain'. reflexivity.
Qed.

Lemma section_rows (s : session) (response : cost_response) :
  get_cost_and_usage s = inr response ->
  filter is_cost_row (output (check_cost_by_service s))
  = map (cost_row (total_cost (collect_costs response)))
        (firstn 10 (sort_by_cost_desc (services (collect_costs response)))).
Proof.
  intros Hq. rewrite (returns_output (check_cost_by_service_returns s)).
  unfold cost_section. rewrite Hq, filter_app.
  change (filter is_cost_row [banner; Text "2. 서비스별 비용 분석 (최근 30일)"; banner])
    with (@nil line).
  cbn [app].
  destruct (services (collect_costs response)) as [|e l] eqn:E; [reflexivity|].
  rewrite cost_table_rows, E. reflexivity.
Qed.

Lemma suggestion_is_guidance (entry : string * Q) :
  filter is_guidance_line (output (suggestion entry)) = output (suggestion entry) /\
  (List.length (output (suggestion entry)) <= 1)%nat.
Proof.
  destruct entry as [service_name cost]. unfold suggestion.
  repeat match goal with
         | |- context [if ?b then _ else _] => destruct b
         end; split; (reflexivity || (simpl; lia)).
Qed.

Lemma guidance_block (l : list (string * Q)) :
  filter is_guidance_line (flat_map (fun entry => output (suggestion entry)) l)
  = flat_map (fun entry => output (suggestion entry)) l /\
  (List.length (flat_map (fun entry => output (suggestion entry)) l)
   <= List.length l)%nat.
Proof.
  induction l as [|e l [IHf IHl]]; [split; [reflexivity|simpl; lia]|].
  destruct (suggestion_is_guidance e) as [Hf Hl].
  simpl. rewrite filter_app, length_app, Hf, IHf. split; [reflexivity|lia].
Qed.

Lemma rows_not_guidance (total : Q) (l : list (string * Q)) :
  filter is_guidance_line (map (cost_row total) l) = [].
Proof.
  induction l as [|[service_name cost] l IH]; [reflexivity|exact IH].
Qed.

Lemma section_guidance (s : session) (response : cost_response) :
  get_cost_and_usage s = inr response ->
  filter is_guidance_line (output (check_cost_by_service s))
  = match services (collect_costs response) with
    | [] => []
    | _ :: _ =>
        flat_map (fun entry => output (suggestion entry))
                 (firstn 5 (sort_by_cost_desc (services (collect_costs response))))
    end.
Proof.
  intros Hq. rewrite (returns_output (check_cost_by_service_returns s)).
  unfold cost_section. rewrite Hq, filter_app.
  change (filter is_guidance_line
                 [banner; Text "2. 서비스별 비용 분석 (최근 30일)"; banner])
    with (@nil line).
  cbn [app].
  destruct (services (collect_costs response)) as [|e l] eqn:E; [reflexivity|].
  unfold cost_table. cbv zeta. rewrite E.
  rewrite !filter_app, rows_not_guidance.
  rewrite (proj1 (guidance_block _)).
  change (filter is_guidance_line [Blank; TotalCost (total_cost (collect_costs response)); Blank])
    with (@nil line).
  change (filter is_guidance_line [Blank; suggestions_header]) with (@nil line).
  change (filter is_guidance_line [Blank]) with (@nil line).
  cbn [app]. now rewrite app_nil_r.
Qed.

(** X10.  The cost table has as many rows as services were recorded, and
    never more than ten; the guidance has at most one line for each of the
    first five, hence never more than five. *)
Theorem X10_row_and_guidance_counts (s : session) (response : cost_response) :
  get_cost_and_usage s = inr response ->
  let recorded := List.length (filter is_material (all_groups response)) in
  List.length (filter is_cost_row (output (check_cost_by_service s)))
  = Nat.min 10 recorded /\
  (List.length (filter is_guidance_line (output (check_cost_by_service s)))
   <= Nat.min 5 recorded)%nat.
Proof.
  intros Hq. cbv zeta.
  destruct (collect_costs_spec response) as [Hs _].
  pose proof (sort_by_cost_desc_perm (services (collect_costs response))) as Hperm.
  assert (Hlen : List.length (sort_by_cost_desc (services (collect_costs response)))
                 = List.length (filter is_material (all_groups response))).
  { rewrite (Permutation_length Hperm), Hs. apply length_map. }
  split.
  - rewrite (section_rows s Hq), length_map, length_firstn, Hlen. reflexivity.
  - rewrite (section_guidance s Hq).
    destruct (services (collect_costs response)) as [|e l] eqn:E; [simpl; lia|].
    rewrite <- Hlen, <- length_firstn. apply guidance_block.
Qed.

Lemma sorted_unchanged (l : list (string * Q)) :
  StronglySorted cost_ge l -> sort_by_cost_desc l = l.
Proof.
  induction 1 as [|x l Hs IH Hx]; [reflexivity|].
  cbn [sort_by_cost_desc fold_right]. fold (sort_by_cost_desc l). rewrite IH.
  destruct l as [|y l']; [reflexivity|].
  cbn [insert_desc]. apply Forall_inv in Hx. unfold cost_ge in Hx.
  apply Qltb_ge in Hx. now rewrite Hx.
Qed.

(** X11.  Ranking is idempotent: a list of entries that is already ranked
    is left as it is, so ranking twice gives what ranking once gives. *)
Theorem X11_ranking_idempotent (l : list (string * Q)) :
  sort_by_cost_desc (sort_by_cost_desc l) = sort_by_cost_desc l.
Proof.
  apply sorted_unchanged, sort_by_cost_desc_sorted.
Qed.

(** ** The recommendation phase, further *)

(** X12.  When the optimizer query succeeds with no summary, the key being
    absent or the list empty, the section is the no-data notice followed by
    the opt-in instructions, the same instructions as for an account that
    has not opted in. *)
Theorem X12_no_recommendations (s : session) (response : optimizer_response) :
  get_recommendation_summaries s = inr response ->
  recommendationSummaries response = None \/ recommendationSummaries response = Some [] ->
  output (check_compute_optimizer s)
  = [banner; Text "3. Compute Optimizer 추천 요약"; banner;
     Text "Compute Optimizer가 활성화되지 않았거나 데이터가 충분하지 않습니다.";
     Text "활성화 방법: AWS 콘솔 > Compute Optimizer > Opt in";
     Blank].
Proof.
  intros Hq Hnone. rewrite (returns_output (check_compute_optimizer_returns s)).
  unfold optimizer_section. rewrite Hq.
  destruct Hnone as [-> | ->]; reflexivity.
Qed.

(** X13.  A finding prints a line if and only if it has a value and the
    value is positive: a finding without a value, or with a zero or negative
    one, prints nothing; a finding without a name is labelled Unknown. *)
Theorem X13_finding_printed_iff_positive (f : finding) :
  returns (finding_body f) (output (finding_body f)) tt /\
  (output (finding_body f) <> [] <-> exists v, value f = Some v /\ (0 < v)%Q) /\
  (forall v,
      value f = Some v -> (0 < v)%Q ->
      output (finding_body f)
      = [FindingLine (match name f with
                      | Some category => label_of category
                      | None => "Unknown"
                      end) v]).
Proof.
  pose proof (finding_body_returns f) as Hrun.
  rewrite (returns_output Hrun). split; [exact Hrun|].
  unfold finding_lines, Qgtb. split.
  - destruct (value f) as [v|]; simpl.
    + destruct (Qltb 0 v) eqn:E.
      * split; [intros _; exists v; split; [reflexivity|now apply Qltb_lt]|discriminate].
      * split; [contradiction|]. intros (v' & [= <-] & Hv).
        apply Qltb_lt in Hv. congruence.
    + split; [contradiction|]. intros (v & H & _). discriminate.
  - intros v -> Hv. simpl. apply Qltb_lt in Hv. rewrite Hv.
    destruct (name f); reflexivity.
Qed.

(** ** Classification, character by character *)

Lemma str_in_g (s : string) : PyStr.str_in "g" s = PyStr.has_char "g" s.
Proof.
  induction s as [|a s IH]; [reflexivity|].
  cbn [PyStr.str_in PyStr.has_char PyStr.startswith]. rewrite IH.
  rewrite (Ascii.eqb_sym "g" a).
  destruct s; now rewrite andb_true_r.
Qed.

Lemma has_char_app (c : ascii) (p q : string) :
  PyStr.has_char c (p ++ q) = PyStr.has_char c p || PyStr.has_char c q.
Proof.
  induction p as [|a p IH]; simpl; [reflexivity|].
  now rewrite IH, orb_assoc.
Qed.

Lemma endswith_g_has_char (s : string) :
  PyStr.endswith s "g" = true -> PyStr.has_char "g" s = true.
Proof.
  intros H. apply endswith_spec in H. destruct H as [p ->].
  rewrite has_char_app. simpl. apply orb_true_r.
Qed.

(** X14.  The first character of a family decides nothing unless it is the
    whole family: a family of two or more characters is Graviton exactly
    when a [g] stands after its first character (so families such as g4dn,
    with [g] in front only, are x86), and a one-character family exactly
    when it is [g]. *)
Theorem X14_first_character (c : ascii) (rest : string) :
  is_graviton (String c rest)
  = PyStr.has_char "g" rest || (String.eqb rest "" && Ascii.eqb c "g").
Proof.
  unfold is_graviton. cbn [PyStr.slice_from_1 PyStr.endswith].
  rewrite str_in_g.
  destruct (PyStr.has_char "g" rest) eqn:Hrest; [apply orb_true_r|].
  rewrite orb_false_r. cbn [orb].
  assert (Hend : PyStr.endswith rest "g" = false).
  { destruct (PyStr.endswith rest "g") eqn:E; [|reflexivity].
    apply endswith_g_has_char in E. congruence. }
  rewrite Hend. simpl String.eqb.
  destruct (Ascii.eqb c "g"); destruct rest; reflexivity.
Qed.

(** ** The materiality floor and the aggregate, further *)

Lemma filter_nil_iff {A} (f : A -> bool) (l : list A) :
  filter f l = [] <-> Forall (fun x => f x = false) l.
Proof.
  induction l as [|x l IH]; simpl.
  - split; [constructor|reflexivity].
  - destruct (f x) eqn:E.
    + split; [discriminate|]. intros H. apply Forall_inv in H. congruence.
    + rewrite IH. split; [now constructor|apply Forall_inv_tail].
Qed.

(** X15.  When the cost query succeeds, the section is the no-cost message
    if and only if every group returned costs 0.01 or less; groups at the
    floor, at zero or negative are left out without any notice. *)
Theorem X15_no_cost_iff_nothing_material (s : session) (response : cost_response) :
  get_cost_and_usage s = inr response ->
  (output (check_cost_by_service s)
   = [banner; Text "2. 서비스별 비용 분석 (최근 30일)"; banner;
      Text "최근 30일간 비용이 발생하지 않았습니다."; Blank]
   <-> Forall (fun g => Amount g <= 1 # 100)%Q (all_groups response)).
Proof.
  intros Hq. rewrite (returns_output (check_cost_by_service_returns s)).
  unfold cost_section. rewrite Hq.
  destruct (collect_costs_spec response) as [Hs _].
  assert (Hiff : services (collect_costs response) = []
                 <-> Forall (fun g => Amount g <= 1 # 100)%Q (all_groups response)).
  { rewrite Hs. split.
    - intros H. apply map_eq_nil in H. apply filter_nil_iff in H.
      eapply Forall_impl; [|exact H]. intros g Hg. now apply Qltb_ge in Hg.
    - intros H.
      assert (Hnil : filter is_material (all_groups response) = []).
      { apply filter_nil_iff. eapply Forall_impl; [|exact H].
        intros g Hg. now apply Qltb_ge. }
      now rewrite Hnil. }
  rewrite <- Hiff.
  destruct (services (collect_costs response)) as [|e l].
  - split; reflexivity.
  - split; [|discriminate]. unfold cost_table. cbv zeta. simpl. discriminate.
Qed.

Lemma sum_list_lt (k : Q) (l : list Q) :
  l <> [] -> Forall (fun x => x < k)%Q l ->
  (sum_list l < k * Q_of_nat (List.length l))%Q.
Proof.
  intros Hne Hl. induction Hl as [|x l Hx Hl IH]; [contradiction|].
  cbv beta in Hx.
  change (sum_list (x :: l)) with (x + sum_list l)%Q.
  change (List.length (x :: l)) with (1 + List.length l)%nat.
  rewrite Q_of_nat_add. change (Q_of_nat 1) with 1%Q.
  destruct l as [|y l'].
  - change (sum_list []) with 0%Q. change (Q_of_nat (List.length (@nil Q))) with 0%Q. lra.
  - assert (H : (sum_list (y :: l') < k * Q_of_nat (List.length (y :: l')))%Q)
      by (apply IH; discriminate).
    lra.
Qed.

Lemma sum_list_ge (k : Q) (l : list Q) :
  Forall (fun x => k <= x)%Q l ->
  (k * Q_of_nat (List.length l) <= sum_list l)%Q.
Proof.
  induction 1 as [|x l Hx Hl IH].
  - change (sum_list []) with 0%Q. change (Q_of_nat (List.length (@nil Q))) with 0%Q. lra.
  - cbv beta in Hx.
    change (sum_list (x :: l)) with (x + sum_list l)%Q.
    change (List.length (x :: l)) with (1 + List.length l)%nat.
    rewrite Q_of_nat_add. change (Q_of_nat 1) with 1%Q. lra.
Qed.

(** X16.  The aggregate follows the samples: an instance whose daily
    averages are all below 5 has an aggregate below 5 and is flagged, and
    one whose daily averages are all 5 or more is not. *)
Theorem X16_aggregate_follows_samples (datapoints : list datapoint) :
  datapoints <> [] ->
  exists m,
    average_cpu datapoints = Some m /\
    (Forall (fun d => Average d < 5)%Q datapoints -> is_low (Some m) = true) /\
    (Forall (fun d => 5 <= Average d)%Q datapoints -> is_low (Some m) = false).
Proof.
  intros Hne. destruct datapoints as [|d l] eqn:E; [contradiction|].
  rewrite <- E in *. clear Hne.
  assert (Hne : datapoints <> []) by (rewrite E; discriminate).
  exists (py_sum (map Average datapoints) / Q_of_nat (List.length datapoints))%Q.
  split; [rewrite E; reflexivity|].
  assert (Hn : (0 < Q_of_nat (List.length datapoints))%Q).
  { apply (Q_of_nat_lt 0). rewrite E. simpl. lia. }
  rewrite <- (length_map Average) in *.
  assert (Hne' : map Average datapoints <> []).
  { rewrite E. discriminate. }
  unfold is_low. split.
  - intros Hall. apply Qltb_lt. rewrite py_sum_sum_list.
    apply Qlt_shift_div_r; [exact Hn|].
    apply sum_list_lt; [exact Hne'|].
    apply Forall_forall. intros x Hx. apply in_map_iff in Hx.
    destruct Hx as (d' & <- & Hd). rewrite Forall_forall in Hall. now apply Hall.
  - intros Hall. apply Qltb_ge. rewrite py_sum_sum_list.
    apply Qle_shift_div_l; [exact Hn|].
    apply sum_list_ge.
    apply Forall_forall. intros x Hx. apply in_map_iff in Hx.
    destruct Hx as (d' & <- & Hd). rewrite Forall_forall in Hall. now apply Hall.
Qed.

(** ** Witnesses of the further properties *)

Lemma X2_witness :
  describe_instances account_A = inr inventory_A /\
  filter is_instance_header (output (check_ec2_utilization account_A))
  = [header_of instance_1; header_of instance_2; header_of instance_3].
Proof.
  split; [reflexivity|].
  exact (X2_one_row_per_instance account_A (response := inventory_A) eq_refl).
Defined.

Lemma X6_witness :
  acquire not_configured None None = inl NoCredentialsError /\
  output (main not_configured no_options) = header ++ credentials_help /\
  exit_status (result (main not_configured no_options)) = 1%Z.
Proof.
  split; [reflexivity|].
  destruct (X6_failed_acquisition not_configured no_options
                                  (e := NoCredentialsError) eq_refl)
    as (Hout & _ & Hexit).
  split; [exact Hout|]. apply Hexit. discriminate.
Defined.

Lemma X7_witness :
  skip_cost skip_cost_options = true /\
  acquire (installed account_A) None None = inr (account_A, operator) /\
  acquire (installed (with_costs account_A (inl cost_explorer_off))) None None
  = inr (with_costs account_A (inl cost_explorer_off), operator) /\
  main (installed (with_costs account_A (inl cost_explorer_off))) skip_cost_options
  = main (installed account_A) skip_cost_options.
Proof.
  split; [reflexivity|]. split; [reflexivity|]. split; [reflexivity|].
  exact (proj2 (X7_skip_cost (installed account_A)
                             (installed (with_costs account_A (inl cost_explorer_off)))
                             skip_cost_options (s := account_A) (i := operator)
                             (costs := inl cost_explorer_off)
                             eq_refl eq_refl eq_refl)).
Defined.

Lemma X10_witness :
  get_cost_and_usage account_A = inr costs_B /\
  List.length (filter is_cost_row (output (check_cost_by_service account_A)))
  = Nat.min 10 (List.length (filter is_material (all_groups costs_B))).
Proof.
  split; [reflexivity|].
  exact (proj1 (X10_row_and_guidance_counts account_A (response := costs_B) eq_refl)).
Defined.

Lemma X12_witness :
  get_recommendation_summaries account_silent = inr (mkOptimizerResponse None) /\
  output (check_compute_optimizer account_silent)
  = [banner; Text "3. Compute Optimizer 추천 요약"; banner;
     Text "Compute Optimizer가 활성화되지 않았거나 데이터가 충분하지 않습니다.";
     Text "활성화 방법: AWS 콘솔 > Compute Optimizer > Opt in";
     Blank].
Proof.
  split; [reflexivity|].
  exact (X12_no_recommendations account_silent
                                (response := mkOptimizerResponse None)
                                eq_refl (or_introl eq_refl)).
Defined.

Lemma X15_witness :
  get_cost_and_usage account_empty = inr nothing_material /\
  (output (check_cost_by_service account_empty)
   = [banner; Text "2. 서비스별 비용 분석 (최근 30일)"; banner;
      Text "최근 30일간 비용이 발생하지 않았습니다."; Blank]
   <-> Forall (fun g => Amount g <= 1 # 100)%Q (all_groups nothing_material)).
Proof.
  split; [reflexivity|].
  exact (X15_no_cost_iff_nothing_material account_empty
                                          (response := nothing_material) eq_refl).
Defined.

Lemma X16_witness :
  [mkDatapoint 1; mkDatapoint 3] <> [] /\
  exists m,
    average_cpu [mkDatapoint 1; mkDatapoint 3] = Some m /\
    (Forall (fun d => Average d < 5)%Q [mkDatapoint 1; mkDatapoint 3] ->
     is_low (Some m) = true).
Proof.
  assert (Hne : [mkDatapoint 1; mkDatapoint 3] <> []) by discriminate.
  split; [exact Hne|].
  destruct (X16_aggregate_follows_samples Hne) as (m & Hm & Hlow & _).
  exists m. split; [exact Hm|exact Hlow].
Defined.

(** * Properties on the machine

    The properties that depend on the rounding of binary64 arithmetic or on
    which exceptions leave a phase, proved of [Machine]. *)

Section OnTheMachine.

Import Stdlib.Floats.Floats.
Import Machine.

#[local] Set Warnings "-inexact-float".

(** ** Running the monad *)

Lemma machine_returns_bind {A B} (m : io A) (f : A -> io B) out a out' b :
  returns m out a -> returns (f a) out' b -> returns (bind m f) (out ++ out') b.
Proof.
  unfold returns, bind. intros -> ->. reflexivity.
Qed.

Lemma machine_bind_returns {A B} (m : io A) (f : A -> io B) out a :
  returns m out a -> bind m f = (let (out', r) := f a in (out ++ out', r)).
Proof.
  unfold returns, bind. intros ->. reflexivity.
Qed.

Lemma machine_ret_bind {A B} (a : A) (f : A -> io B) : bind (ret a) f = f a.
Proof.
  unfold bind, ret. destruct (f a). reflexivity.
Qed.

Lemma machine_returns_output {A} (m : io A) out a : returns m out a -> output m = out.
Proof. unfold returns. intros ->. reflexivity. Qed.

Lemma machine_returns_result {A} (m : io A) out a : returns m out a -> result m = inr a.
Proof. unfold returns. intros ->. reflexivity. Qed.

Lemma machine_returns_for_each {A S} (body : A -> S -> io S)
      (lines : A -> list line) (next : A -> S -> S) (l : list A) :
  (forall x s, In x l -> returns (body x s) (lines x) (next x s)) ->
  forall s,
    returns (for_each l body s) (flat_map lines l)
            (fold_left (fun s x => next x s) l s).
Proof.
  induction l as [|x l IH]; intros Hbody s; simpl.
  - reflexivity.
  - eapply machine_returns_bind; [apply Hbody; now left|].
    apply IH. intros y s' Hy. apply Hbody. now right.
Qed.

Lemma machine_returns_for_each_print {A} (body : A -> io unit) (lines : A -> list line)
      (l : list A) :
  (forall x, In x l -> returns (body x) (lines x) tt) ->
  returns (for_each l (fun x _ => body x) tt) (flat_map lines l) tt.
Proof.
  induction l as [|x l IH]; intros Hbody; simpl.
  - reflexivity.
  - eapply machine_returns_bind; [apply Hbody; now left|].
    apply IH. intros y Hy. apply Hbody. now right.
Qed.

(** ** The instance loop *)

Lemma machine_family_of_returns (instance_type : string) :
  returns (family_of instance_type) [] (family_str instance_type).
Proof.
  unfold family_of, family_str.
  destruct (split_head "." instance_type) as (f & r & -> & _). reflexivity.
Qed.

Lemma machine_query_avg_cpu_returns (s : session) (instance_id : string) :
  quiet (get_metric_statistics s instance_id) ->
  returns (query_avg_cpu s instance_id)
          (metric_notice s instance_id) (metric_average s instance_id).
Proof.
  unfold returns, query_avg_cpu, metric_notice, metric_average, quiet.
  destruct (get_metric_statistics s instance_id) as [e|response]; simpl.
  - destruct e; try contradiction. intros _. simpl.
    destruct (is_access_denied code); reflexivity.
  - reflexivity.
Qed.

Lemma machine_instance_body_returns (s : session) (inst : instance) (st : ec2_state) :
  quiet (get_metric_statistics s (InstanceId inst)) ->
  returns (instance_body s inst st) (instance_lines s inst) (instance_next s inst st).
Proof.
  intros Hq. unfold instance_body.
  rewrite (machine_bind_returns _ (machine_family_of_returns _)).
  rewrite (machine_bind_returns _ (machine_query_avg_cpu_returns _ _ Hq)).
  unfold returns, instance_lines, instance_report, instance_next, low_entries,
    arch_label_of, instance_is_graviton, is_low.
  destruct st as [low g x].
  destruct (metric_average s (InstanceId inst)) as [cpu|];
    destruct (is_graviton (family_str (InstanceType inst)));
    simpl; try destruct (cpu <? 5)%float; simpl;
    rewrite ?app_nil_r, ?Nat.add_0_r; reflexivity.
Qed.

(** ** Order of the recorded costs *)

Lemma material_above_floor (x : float) :
  (0.01 <? x)%float = true -> above_floor (Prim2SF x).
Proof.
  rewrite ltb_spec. unfold above_floor.
  set (floor := Prim2SF 0.01). vm_compute in floor. subst floor.
  destruct (Prim2SF x) as [[]|[]| |[] m e]; simpl; try discriminate; eauto.
Qed.

Lemma SFltb_SFleb (x y : spec_float) : SFltb x y = true -> SFleb x y = true.
Proof.
  unfold SFltb, SFleb. destruct (SFcompare x y) as [[| |]|]; congruence.
Qed.

Lemma SFcompare_finite (m1 m2 : positive) (e1 e2 : Z) :
  SFcompare (S754_finite false m1 e1) (S754_finite false m2 e2)
  = Some match (e1 ?= e2)%Z with
         | Eq => (m1 ?= m2)%positive
         | Lt => Lt
         | Gt => Gt
         end.
Proof. reflexivity. Qed.

Lemma SFltb_false_SFleb (x y : spec_float) :
  above_floor x -> above_floor y -> SFltb x y = false -> SFleb y x = true.
Proof.
  intros [->|(m1 & e1 & ->)] [->|(m2 & e2 & ->)]; try reflexivity; try discriminate.
  unfold SFltb, SFleb. rewrite !SFcompare_finite.
  rewrite (Z.compare_antisym e1 e2), (Pos.compare_antisym m1 m2).
  destruct (e1 ?= e2)%Z; destruct (m1 ?= m2)%positive; simpl; congruence.
Qed.

Lemma SFleb_trans (x y z : spec_float) :
  above_floor x -> above_floor y -> above_floor z ->
  SFleb x y = true -> SFleb y z = true -> SFleb x z = true.
Proof.
  intros [->|(m1 & e1 & ->)] [->|(m2 & e2 & ->)] [->|(m3 & e3 & ->)];
    try reflexivity; try discriminate.
  unfold SFleb. rewrite !SFcompare_finite.
  destruct (Z.compare_spec e1 e2); destruct (Z.compare_spec e2 e3);
    destruct (Z.compare_spec e1 e3);
    destruct (Pos.compare_spec m1 m2); destruct (Pos.compare_spec m2 m3);
    destruct (Pos.compare_spec m1 m3);
    try reflexivity; try discriminate; intros _ _; exfalso; lia.
Qed.

Lemma SFeqb_same (x c : spec_float) :
  above_floor x -> SFeqb x c = true -> c = x.
Proof.
  intros [->|(m & e & ->)].
  - destruct c as [s|s| |s m e]; try destruct s; simpl; try discriminate; reflexivity.
  - destruct c as [s|s| |s m' e']; try destruct s; simpl; try discriminate.
    unfold SFeqb. rewrite SFcompare_finite.
    destruct (Z.compare_spec e e'); try discriminate.
    destruct (Pos.compare_spec m m'); try discriminate.
    intros _. now subst.
Qed.

Lemma SFltb_SFeqb (x y : spec_float) :
  above_floor x -> above_floor y -> SFltb x y = true -> SFeqb y x = false.
Proof.
  intros [->|(m1 & e1 & ->)] [->|(m2 & e2 & ->)]; try reflexivity; try discriminate.
  unfold SFltb, SFeqb. rewrite !SFcompare_finite.
  rewrite (Z.compare_antisym e1 e2), (Pos.compare_antisym m1 m2).
  destruct (e1 ?= e2)%Z; destruct (m1 ?= m2)%positive; simpl; congruence.
Qed.

Lemma ltb_cost_ge (x y : string * float) :
  (snd x <? snd y)%float = true -> cost_ge y x.
Proof.
  unfold cost_ge. rewrite ltb_spec, leb_spec. apply SFltb_SFleb.
Qed.

Lemma not_ltb_cost_ge (x y : string * float) :
  material_entry x -> material_entry y ->
  (snd x <? snd y)%float = false -> cost_ge x y.
Proof.
  unfold cost_ge, material_entry. intros Hx Hy.
  rewrite ltb_spec, leb_spec.
  apply SFltb_false_SFleb; now apply material_above_floor.
Qed.

Lemma cost_ge_trans (x y z : string * float) :
  material_entry x -> material_entry y -> material_entry z ->
  cost_ge x y -> cost_ge y z -> cost_ge x z.
Proof.
  unfold cost_ge, material_entry. intros Hx Hy Hz.
  rewrite !leb_spec. intros Hxy Hyz.
  apply (SFleb_trans (y := Prim2SF (snd y)));
    try (now apply material_above_floor); assumption.
Qed.

Lemma ltb_not_same_cost (c : float) (x y : string * float) :
  material_entry x -> material_entry y ->
  (snd x <? snd y)%float = true -> costs c x = true -> costs c y = false.
Proof.
  unfold costs, material_entry. intros Hx Hy.
  rewrite ltb_spec, !eqb_spec. intros Hlt Heq.
  apply SFeqb_same in Heq; [|now apply material_above_floor].
  rewrite Heq. apply SFltb_SFeqb; try (now apply material_above_floor); assumption.
Qed.

(** ** The cost phase: what is recorded *)

Lemma machine_record_groups (gs : list group) (st : cost_state) :
  services (fold_left record_group gs st)
  = services st ++ map entry_of (filter is_material gs) /\
  total_cost (fold_left record_group gs st)
  = fold_left PrimFloat.add (map snd (map entry_of (filter is_material gs))) (total_cost st).
Proof.
  revert st. induction gs as [|g gs IH]; intros st; simpl.
  - now rewrite app_nil_r.
  - destruct (IH (record_group st g)) as [Hs Ht]. rewrite Hs, Ht.
    unfold record_group, is_material.
    destruct (0.01 <? Amount g)%float; simpl; [|split; reflexivity].
    now rewrite <- app_assoc.
Qed.

Lemma machine_record_results (rs : list result_by_time) (st : cost_state) :
  let recorded :=
    map entry_of (filter is_material (flat_map (fun r => get (Groups r) []) rs)) in
  services (fold_left (fun st r => fold_left record_group (get (Groups r) []) st) rs st)
  = services st ++ recorded /\
  total_cost (fold_left (fun st r => fold_left record_group (get (Groups r) []) st) rs st)
  = fold_left PrimFloat.add (map snd recorded) (total_cost st).
Proof.
  cbv zeta. revert st. induction rs as [|r rs IH]; intros st; simpl.
  - now rewrite app_nil_r.
  - destruct (IH (fold_left record_group (get (Groups r) []) st)) as [Hs Ht].
    destruct (machine_record_groups (get (Groups r) []) st) as [Hs' Ht'].
    rewrite Hs, Ht, Hs', Ht'.
    rewrite filter_app, !map_app, fold_left_app, <- app_assoc. split; reflexivity.
Qed.

Lemma machine_collect_costs_spec (response : cost_response) :
  let recorded := map entry_of (filter is_material (all_groups response)) in
  services (collect_costs response) = recorded /\
  total_cost (collect_costs response) = py_sum (map snd recorded).
Proof.
  exact (machine_record_results (get (ResultsByTime response) []) (mkCostState 0 [])).
Qed.

Lemma machine_recorded_material (gs : list group) :
  Forall material_entry (map entry_of (filter is_material gs)).
Proof.
  apply Forall_forall. intros e He.
  apply in_map_iff in He. destruct He as (g & <- & Hg).
  apply filter_In in Hg. apply Hg.
Qed.

(** ** The cost phase: ranking *)

Lemma machine_insert_desc_perm (x : string * float) (l : list (string * float)) :
  Permutation (insert_desc x l) (x :: l).
Proof.
  induction l as [|y l IH]; simpl; [reflexivity|].
  destruct (snd x <? snd y)%float; [|reflexivity].
  rewrite IH. apply perm_swap.
Qed.

Lemma machine_sort_perm (l : list (string * float)) :
  Permutation (sort_by_cost_desc l) l.
Proof.
  induction l as [|x l IH]; simpl; [reflexivity|].
  rewrite machine_insert_desc_perm. now constructor.
Qed.

Lemma machine_insert_desc_sorted (x : string * float) (l : list (string * float)) :
  material_entry x -> Forall material_entry l ->
  StronglySorted cost_ge l -> StronglySorted cost_ge (insert_desc x l).
Proof.
  intros Hx Hl Hs. induction Hs as [|y l Hs IH Hy]; simpl.
  - repeat constructor.
  - inversion Hl as [|? ? Hmy Hml]; subst.
    destruct (snd x <? snd y)%float eqn:E.
    + constructor; [now apply IH|].
      apply (Permutation_Forall (Permutation_sym (machine_insert_desc_perm x l))).
      constructor; [now apply ltb_cost_ge|exact Hy].
    + assert (Hxy : cost_ge x y) by now apply not_ltb_cost_ge.
      constructor; [now constructor|].
      constructor; [exact Hxy|].
      rewrite Forall_forall in *. intros z Hz.
      apply (cost_ge_trans (y := y)); auto.
Qed.

Lemma machine_sort_sorted (l : list (string * float)) :
  Forall material_entry l -> StronglySorted cost_ge (sort_by_cost_desc l).
Proof.
  induction 1 as [|x l Hx Hl IH]; simpl; [constructor|].
  apply machine_insert_desc_sorted; [exact Hx| |exact IH].
  apply (Permutation_Forall (Permutation_sym (machine_sort_perm l))). exact Hl.
Qed.

Lemma machine_insert_desc_stable (c : float) (x : string * float) (l : list (string * float)) :
  material_entry x -> Forall material_entry l ->
  filter (costs c) (insert_desc x l) = filter (costs c) (x :: l).
Proof.
  intros Hx Hl. induction Hl as [|y l Hy Hl IH]; [reflexivity|].
  cbn [insert_desc]. destruct (snd x <? snd y)%float eqn:E; [|reflexivity].
  cbn [filter] in *. rewrite IH.
  destruct (costs c x) eqn:Ex; [|reflexivity].
  now rewrite (@ltb_not_same_cost c x y Hx Hy E Ex).
Qed.

Lemma machine_sort_stable (c : float) (l : list (string * float)) :
  Forall material_entry l ->
  filter (costs c) (sort_by_cost_desc l) = filter (costs c) l.
Proof.
  induction 1 as [|x l Hx Hl IH]; [reflexivity|].
  cbn [sort_by_cost_desc fold_right].
  change (fold_right insert_desc [] l) with (sort_by_cost_desc l).
  rewrite machine_insert_desc_stable; [|exact Hx|].
  - cbn [filter]. now rewrite IH.
  - apply (Permutation_Forall (Permutation_sym (machine_sort_perm l))). exact Hl.
Qed.

(** ** The cost phase: its lines *)

Lemma machine_result_returns {A} (m : io A) (a : A) :
  result m = inr a -> returns m (output m) a.
Proof.
  destruct m as [out r]. unfold result, output, returns. simpl. now intros ->.
Qed.

Lemma machine_suggestion_returns (entry : string * float) :
  returns (suggestion entry) (output (suggestion entry)) tt.
Proof.
  destruct entry as [service_name cost]. unfold returns, suggestion.
  repeat match goal with
         | |- context [if ?b then _ else _] => destruct b
         end; reflexivity.
Qed.

Lemma machine_row_body_returns (total : float) (entry : string * float) :
  (exists bar_length, bar_length_of total (snd entry) = ret bar_length) ->
  returns (row_body total entry) [row_of total entry] tt.
Proof.
  destruct entry as [service_name cost]. simpl. intros [bar_length Hbar].
  unfold returns, row_body, row_of, bar_of. cbn [fst snd]. rewrite Hbar. reflexivity.
Qed.

Lemma machine_rows_return (total : float) (entries : list (string * float)) :
  Forall (fun entry => exists bar_length,
              bar_length_of total (snd entry) = ret bar_length) entries ->
  returns (for_each entries (fun entry _ => row_body total entry) tt)
          (map (row_of total) entries) tt.
Proof.
  intros Hbars. rewrite <- flat_map_singleton.
  apply (machine_returns_for_each_print (row_body total) (fun entry => [row_of total entry])).
  intros entry Hin. apply machine_row_body_returns.
  rewrite Forall_forall in Hbars. now apply Hbars.
Qed.

Lemma machine_cost_table_returns (st : cost_state) :
  let ranked := sort_by_cost_desc (services st) in
  Forall (fun entry => exists bar_length,
              bar_length_of (total_cost st) (snd entry) = ret bar_length)
         (firstn 10 ranked) ->
  returns
    (prints [Blank; TotalCost (total_cost st); Blank] ;;;
     for_each (firstn 10 ranked) (fun entry _ => row_body (total_cost st) entry) tt ;;;
     prints [Blank; suggestions_header] ;;;
     for_each (firstn 5 ranked) (fun entry _ => suggestion entry) tt ;;;
     print Blank)
    (cost_table st) tt.
Proof.
  intros ranked Hbars. unfold cost_table. fold ranked.
  eapply machine_returns_bind; [reflexivity|].
  eapply machine_returns_bind; [now apply machine_rows_return|].
  eapply machine_returns_bind; [reflexivity|].
  eapply machine_returns_bind;
    [apply (machine_returns_for_each_print suggestion (fun entry => output (suggestion entry)));
     intros; apply machine_suggestion_returns|].
  reflexivity.
Qed.

Lemma machine_check_cost_returns (s : session) :
  client s "ce" = inr tt ->
  quiet (get_cost_and_usage s) ->
  (forall response, get_cost_and_usage s = inr response -> bars_defined response) ->
  returns (check_cost_by_service s) (cost_section s) tt.
Proof.
  intros Hce Hq Hbars. unfold check_cost_by_service, cost_section.
  eapply machine_returns_bind; [reflexivity|].
  rewrite Hce. change (lift (inr tt)) with (ret tt).
  rewrite (machine_bind_returns _ (eq_refl : returns (ret tt) [] tt)).
  destruct (get_cost_and_usage s) as [e|response] eqn:E.
  - destruct e; try contradiction. reflexivity.
  - specialize (Hbars response eq_refl). unfold bars_defined in Hbars. cbv zeta in Hbars.
    change (lift (inr response)) with (ret response).
    rewrite (machine_bind_returns _ (eq_refl : returns (ret response) [] response)).
    pose proof (machine_cost_table_returns (collect_costs response) Hbars) as H.
    cbv zeta in H.
    destruct (services (collect_costs response)) as [|e l] eqn:Es; [reflexivity|].
    rewrite H. reflexivity.
Qed.

Lemma machine_suggestion_no_rows (entry : string * float) :
  filter is_cost_row (output (suggestion entry)) = [].
Proof.
  destruct entry as [service_name cost]. unfold suggestion.
  repeat match goal with
         | |- context [if ?b then _ else _] => destruct b
         end; reflexivity.
Qed.

Lemma machine_cost_table_rows (st : cost_state) :
  filter is_cost_row (cost_table st)
  = map (row_of (total_cost st)) (firstn 10 (sort_by_cost_desc (services st))).
Proof.
  unfold cost_table. cbv zeta.
  generalize (firstn 10 (sort_by_cost_desc (services st))) as shown.
  generalize (firstn 5 (sort_by_cost_desc (services st))) as scanned.
  intros scanned shown.
  rewrite !filter_app.
  assert (Hs : filter is_cost_row
                      (flat_map (fun entry => output (suggestion entry)) scanned) = []).
  { induction scanned as [|e l IH]; [reflexivity|].
    simpl. now rewrite filter_app, machine_suggestion_no_rows, IH. }
  rewrite Hs. simpl. rewrite app_nil_r.
  induction shown as [|[service_name cost] l IH]; [reflexivity|].
  simpl. now rewrite IH.
Qed.

(** ** [int()] of a float *)

Lemma pos_pow_1_l (p : positive) : (1 ^ p)%positive = 1%positive.
Proof.
  apply Pos2Z.inj. rewrite Pos2Z.inj_pow. apply Z.pow_1_l. lia.
Qed.

Lemma py_int_truncates (x : float) :
  is_number x = true -> py_int x = ret (truncation (exact x)).
Proof.
  unfold is_number, py_int, exact.
  destruct (Prim2SF x) as [s|s| |s m e]; try discriminate; intros _.
  - reflexivity.
  - f_equal. destruct e as [|p|p].
    + unfold truncation. destruct s; simpl; rewrite Pos.mul_1_r, Z.quot_1_r; reflexivity.
    + cbn [Qpower]. rewrite Stdlib.QArith.Qpower.Qpower_decomp_positive.
      rewrite Z.shiftl_mul_pow2 by lia.
      unfold truncation. cbn [Qmult inject_Z Qnum Qden].
      rewrite pos_pow_1_l, Pos.mul_1_r, Z.quot_1_r.
      destruct s; lia.
    + cbn [Qpower]. rewrite Stdlib.QArith.Qpower.Qpower_decomp_positive.
      rewrite Z.shiftr_div_pow2 by lia.
      assert (Hpow : (2 ^ Zpos p)%Z = Zpos (2 ^ p)) by (now rewrite Pos2Z.inj_pow).
      rewrite Hpow. unfold truncation. cbn [Qinv Qmult inject_Z Qnum Qden].
      rewrite pos_pow_1_l, Pos.mul_1_l, Z.mul_1_r.
      destruct s.
      * change (Zneg m) with (- Zpos m)%Z. rewrite Z.quot_opp_l by lia.
        f_equal. symmetry. apply Z.quot_div_nonneg; lia.
      * symmetry. apply Z.quot_div_nonneg; lia.
Qed.

(** ** The phases of a well-behaved account *)

Lemma machine_ec2_summary_returns (st : ec2_state) :
  returns (ec2_summary st) (output (ec2_summary st)) tt.
Proof.
  apply machine_result_returns. unfold ec2_summary.
  destruct st as [low g x]. cbn [low_utilization graviton_count x86_count].
  destruct (Nat.ltb 0 (g + x));
    [destruct (graviton_ratio g x <? 50)%float|]; destruct low; reflexivity.
Qed.

Lemma machine_check_ec2_returns (s : session) :
  client s "ec2" = inr tt ->
  client s "cloudwatch" = inr tt ->
  quiet (describe_instances s) ->
  (forall response inst,
      describe_instances s = inr response ->
      In inst (collect_instances response) ->
      quiet (get_metric_statistics s (InstanceId inst))) ->
  returns (check_ec2_utilization s) (ec2_section s) tt.
Proof.
  intros Hec2 Hcw Hq Hm. unfold check_ec2_utilization, ec2_section.
  eapply machine_returns_bind; [reflexivity|].
  rewrite Hec2, Hcw. change (lift (inr tt)) with (ret tt).
  rewrite !(machine_bind_returns _ (eq_refl : returns (ret tt) [] tt)).
  destruct (describe_instances s) as [e|response].
  - destruct e; try contradiction. reflexivity.
  - specialize (Hm response). change (lift (inr response)) with (ret response).
    rewrite (machine_bind_returns _ (eq_refl : returns (ret response) [] response)).
    destruct (collect_instances response) as [|inst l] eqn:E; [reflexivity|].
    assert (H : returns
                  (prints [RunningCount (List.length (inst :: l)); Blank] ;;;
                   st <- for_each (inst :: l) (instance_body s) (mkEc2State [] 0 0) ;;
                   ec2_summary st)
                  ([RunningCount (List.length (inst :: l)); Blank]
                   ++ flat_map (instance_lines s) (inst :: l)
                   ++ output (ec2_summary (run_instances s (inst :: l)))) tt).
    { eapply machine_returns_bind; [reflexivity|].
      eapply machine_returns_bind; [|apply machine_ec2_summary_returns].
      apply (machine_returns_for_each (instance_body s) (instance_lines s) (instance_next s)).
      intros x st Hx. apply machine_instance_body_returns, Hm; [reflexivity|exact Hx]. }
    rewrite H. reflexivity.
Qed.

Lemma machine_finding_body_returns (f : finding) :
  returns (finding_body f) (finding_lines f) tt.
Proof.
  unfold returns, finding_body, finding_lines.
  destruct (0 <? get (value f) 0)%float; reflexivity.
Qed.

Lemma machine_summary_body_returns (su : summary) :
  returns (summary_body su) (summary_lines su) tt.
Proof.
  unfold summary_body, summary_lines.
  eapply machine_returns_bind; [reflexivity|].
  apply (machine_returns_for_each_print finding_body finding_lines).
  intros; apply machine_finding_body_returns.
Qed.

Lemma machine_check_optimizer_returns (s : session) :
  quiet (optimizer_query s) ->
  returns (check_compute_optimizer s) (optimizer_section s) tt.
Proof.
  unfold check_compute_optimizer, optimizer_section, optimizer_query.
  intros Hq. eapply machine_returns_bind; [reflexivity|].
  destruct (client s "compute-optimizer") as [e|[]].
  { destruct e; try contradiction. unfold returns. simpl.
    destruct (String.eqb code "OptInRequiredException"); reflexivity. }
  change (lift (inr tt)) with (ret tt).
  rewrite (machine_bind_returns _ (eq_refl : returns (ret tt) [] tt)).
  destruct (get_recommendation_summaries s) as [e|response].
  { destruct e; try contradiction. unfold returns. simpl.
    destruct (String.eqb code "OptInRequiredException"); reflexivity. }
  change (lift (inr response)) with (ret response).
  rewrite (machine_bind_returns _ (eq_refl : returns (ret response) [] response)).
  destruct (get (recommendationSummaries response) []) as [|su l]; [reflexivity|].
  assert (H : returns
                (for_each (su :: l) (fun summary _ => summary_body summary) tt ;;;
                 print Blank)
                (flat_map summary_lines (su :: l) ++ [Blank]) tt).
  { eapply machine_returns_bind; [|reflexivity].
    apply (machine_returns_for_each_print summary_body summary_lines).
    intros; apply machine_summary_body_returns. }
  rewrite H. reflexivity.
Qed.

Lemma machine_tips_returns (s : session) :
  returns (check_sustainability_tips s) tips_section tt.
Proof. reflexivity. Qed.

Lemma machine_create_session_acquired (b : boto3) (profile region : option string)
      (s : session) (i : identity) :
  acquire b profile region = inr (s, i) ->
  returns (create_session b profile region) (auth_lines s i) s.
Proof.
  unfold acquire, returns, create_session.
  destruct (Session b (truthy profile) (truthy region)) as [e|s']; [discriminate|].
  destruct (client s' "sts") as [e|[]] eqn:Ec; [discriminate|].
  destruct (get_caller_identity s') as [e|i'] eqn:E; [discriminate|].
  intros [= -> ->]. simpl. rewrite Ec. simpl. rewrite E. reflexivity.
Qed.

Lemma machine_create_session_failed (b : boto3) (profile region : option string) (e : exn) :
  acquire b profile region = inl e ->
  exists out e',
    create_session b profile region = (out, inl e') /\
    (e = NoCredentialsError \/ (exists msg, e = ProfileNotFound msg) ->
     e' = SystemExit 1) /\
    (e <> NoCredentialsError -> (forall msg, e <> ProfileNotFound msg) ->
     out = [] /\ e' = e).
Proof.
  unfold acquire, create_session.
  destruct (Session b (truthy profile) (truthy region)) as [e0|s'].
  { intros [= ->]. destruct e; simpl; eexists _, _;
      (split; [reflexivity|]); (split; [intros [H|[msg' H]]|intros H1 H2]);
      try discriminate; try reflexivity; try (split; reflexivity);
      try congruence; exfalso; eapply H2; reflexivity. }
  destruct (client s' "sts") as [e0|[]] eqn:Ec.
  { intros [= ->]. simpl. rewrite Ec. destruct e; simpl; eexists _, _;
      (split; [reflexivity|]); (split; [intros [H|[msg' H]]|intros H1 H2]);
      try discriminate; try reflexivity; try (split; reflexivity);
      try congruence; exfalso; eapply H2; reflexivity. }
  destruct (get_caller_identity s') as [e0|i'] eqn:E; [|discriminate].
  intros [= ->]. simpl. rewrite Ec. simpl. rewrite E.
  destruct e; simpl; eexists _, _;
    (split; [reflexivity|]); (split; [intros [H|[msg' H]]|intros H1 H2]);
    try discriminate; try reflexivity; try (split; reflexivity);
    try congruence; exfalso; eapply H2; reflexivity.
Qed.

Lemma machine_main_acquired (b : boto3) (a : args) (s : session) (i : identity) :
  acquire b (profile a) (region a) = inr (s, i) ->
  well_behaved a s ->
  returns (main b (inr a))
          (header
           ++ auth_lines s i
           ++ ec2_section s
           ++ cost_or_skipped a s
           ++ optimizer_section s
           ++ tips_section
           ++ footer)
          tt.
Proof.
  intros Hacq (Hec2 & Hcw & Hd & Hm & Hcost & Hopt). unfold main.
  change (lift (inr a)) with (ret a). rewrite machine_ret_bind.
  eapply machine_returns_bind; [reflexivity|].
  eapply machine_returns_bind; [apply (machine_create_session_acquired _ _ _ Hacq)|].
  eapply machine_returns_bind; [now apply machine_check_ec2_returns|].
  eapply machine_returns_bind.
  { unfold cost_or_skipped. destruct (skip_cost a); simpl.
    - reflexivity.
    - destruct (Hcost eq_refl) as (Hce & Hq & Hbars).
      now apply machine_check_cost_returns. }
  eapply machine_returns_bind; [now apply machine_check_optimizer_returns|].
  eapply machine_returns_bind; [apply machine_tips_returns|].
  reflexivity.
Qed.

Lemma machine_main_not_acquired (b : boto3) (a : args) (e : exn) :
  acquire b (profile a) (region a) = inl e ->
  exists out e',
    main b (inr a) = (header ++ out, inl e') /\
    (e = NoCredentialsError \/ (exists msg, e = ProfileNotFound msg) ->
     e' = SystemExit 1) /\
    (e <> NoCredentialsError -> (forall msg, e <> ProfileNotFound msg) ->
     out = [] /\ e' = e).
Proof.
  intros Hacq.
  destruct (machine_create_session_failed _ _ _ Hacq) as (out & e' & Hc & Hexit).
  exists out, e'. split; [|exact Hexit].
  unfold main. change (lift (inr a)) with (ret a). rewrite machine_ret_bind.
  rewrite (machine_bind_returns _ (eq_refl : returns (prints header) header tt)).
  unfold bind. rewrite Hc. reflexivity.
Qed.

Lemma py_int_returns (x : float) (z : Z) :
  py_int x = ret z -> z = truncation (exact x).
Proof.
  intros H. assert (Hn : is_number x = true).
  { unfold py_int in H. unfold is_number.
    destruct (Prim2SF x); try reflexivity; discriminate. }
  rewrite (py_int_truncates x Hn) in H. now injection H as <-.
Qed.


(** ** Utilization aggregate and the low-utilization flag *)




(** ** The cost table *)

(** C3, as stated, fails.  For the costs 1.50 and 0.30 the bar of the first
    row has 24 units where the floor of cost / total * 30 is 25.  For seven
    services at 1.00 each row shows 14.3 percent, 100.1 in all; for the
    costs 7, 1 and 1 the shares passed to the format already add up to more
    than 100.  For two costs of 1e308 the total is the infinity, not their
    sum, and every row shows 0 percent.  For an amount read as the infinity
    [int()] raises [ValueError] and no row is printed. *)
Lemma C3_rows_are_rounded :
  (filter is_cost_row (output (check_cost_by_service (with_costs costs_150_030)))
   = [CostRow 1.5 83.33333333333333 24 "Amazon Elastic Compute Cloud (EC2)";
      CostRow 0.3 16.666666666666664 5 "Amazon Simple Storage Service (S3)"] /\
   Qfloor (exact 1.5 / (exact 1.5 + exact 0.3) * 30) = 25%Z) /\
  (map shown_percentage
       (filter is_cost_row (output (check_cost_by_service (with_costs costs_seven_equal))))
   = List.repeat (Decimal false 143) 7 /\
   fold_right Z.add 0%Z
     (map (fun l => tenths (shown_percentage l))
          (filter is_cost_row (output (check_cost_by_service (with_costs costs_seven_equal)))))
   = 1001%Z) /\
  (filter is_cost_row (output (check_cost_by_service (with_costs costs_7_1_1)))
   = [CostRow 7 77.77777777777779 23 "Amazon Elastic Compute Cloud (EC2)";
      CostRow 1 11.11111111111111 3 "Amazon Simple Storage Service (S3)";
      CostRow 1 11.11111111111111 3 "AWS Lambda"] /\
   (100 < exact 77.77777777777779 + exact 11.11111111111111 + exact 11.11111111111111)%Q) /\
  (total_cost (collect_costs costs_huge) = infinity /\
   is_number 1e308 = true /\
   filter is_cost_row (output (check_cost_by_service (with_costs costs_huge)))
   = [CostRow 1e308 0 0 "Amazon Elastic Compute Cloud (EC2)";
      CostRow 1e308 0 0 "Amazon Simple Storage Service (S3)"]) /\
  (result (check_cost_by_service (with_costs costs_infinite)) = inl ValueError /\
   filter is_cost_row (output (check_cost_by_service (with_costs costs_infinite))) = []).
Proof.
  repeat split; vm_compute; reflexivity.
Qed.

(** C3, amended.  In the cost section, the services recorded are exactly the
    groups whose cost is above 0.01, in query order, and the total is the
    binary64 sum of their costs, added from 0 in that order; they are ranked
    by descending cost, entries of equal cost keeping their query order; when
    [int()] is defined for every bar, the rows printed are those of the first
    ten ranked entries, each with the binary64 value of cost / total * 100 as
    its share and the integer part of the binary64 value of
    cost / total * 30 as the length of its bar. *)
Theorem C3_cost_table_binary64 (s : session) (response : cost_response) :
  cost_query s = inr response ->
  bars_defined response ->
  let st := collect_costs response in
  let recorded := map entry_of (filter is_material (all_groups response)) in
  let ranked := sort_by_cost_desc recorded in
  let rows := filter is_cost_row (output (check_cost_by_service s)) in
  services st = recorded /\
  (forall g, is_material g = true <-> (0.01 <? Amount g)%float = true) /\
  total_cost st = fold_left PrimFloat.add (map snd recorded) 0%float /\
  Permutation ranked recorded /\
  StronglySorted cost_ge ranked /\
  (forall c, filter (costs c) ranked = filter (costs c) recorded) /\
  rows = map (row_of (total_cost st)) (firstn 10 ranked) /\
  (forall service_name cost,
      In (service_name, cost) (firstn 10 ranked) ->
      exists percentage bar_length,
        row_of (total_cost st) (service_name, cost)
        = CostRow cost percentage bar_length service_name /\
        ((0 <? total_cost st)%float = true ->
         percentage = (cost / total_cost st * 100)%float /\
         py_int (cost / total_cost st * 30)%float = ret bar_length /\
         bar_length = truncation (exact (cost / total_cost st * 30)%float)) /\
        ((0 <? total_cost st)%float = false ->
         percentage = 0%float /\ bar_length = 0%Z)).
Proof.
  intros Hquery Hbars. cbv zeta.
  assert (Hce : client s "ce" = inr tt /\ get_cost_and_usage s = inr response).
  { unfold cost_query in Hquery.
    destruct (client s "ce") as [e|[]]; [discriminate|now split]. }
  destruct Hce as [Hce Hq].
  destruct (machine_collect_costs_spec response) as [Hs Ht]. cbv zeta in Hs, Ht.
  unfold bars_defined in Hbars. cbv zeta in Hbars. rewrite Hs in Hbars.
  set (st := collect_costs response) in *.
  set (recorded := map entry_of (filter is_material (all_groups response))) in *.
  set (ranked := sort_by_cost_desc recorded) in *.
  assert (Hmat : Forall material_entry recorded) by apply machine_recorded_material.
  split; [exact Hs|].
  split; [intros g; reflexivity|].
  split; [exact Ht|].
  split; [apply machine_sort_perm|].
  split; [now apply machine_sort_sorted|].
  split; [intros c; now apply machine_sort_stable|].
  split.
  - assert (Hret : returns (check_cost_by_service s) (cost_section s) tt).
    { apply machine_check_cost_returns; [exact Hce|now rewrite Hq|].
      intros response' Hq'. rewrite Hq in Hq'. injection Hq' as <-.
      unfold bars_defined. cbv zeta. fold st. now rewrite Hs. }
    rewrite (machine_returns_output Hret).
    unfold cost_section. rewrite Hq. fold st. rewrite filter_app.
    change (filter is_cost_row [banner; Text "2. 서비스별 비용 분석 (최근 30일)"; banner])
      with (@nil line).
    cbn [app]. unfold ranked. rewrite <- Hs.
    destruct (services st) as [|e l] eqn:E; [reflexivity|].
    rewrite machine_cost_table_rows, E. reflexivity.
  - intros service_name cost Hin.
    rewrite Forall_forall in Hbars.
    destruct (Hbars _ Hin) as [bar_length Hbar]. cbn [snd] in Hbar.
    exists (percentage_of (total_cost st) cost), bar_length.
    split.
    { unfold row_of, bar_of. cbn [fst snd]. rewrite Hbar. reflexivity. }
    unfold percentage_of, bar_length_of in *.
    destruct (0 <? total_cost st)%float; split; try discriminate; intros _.
    + split; [reflexivity|]. split; [exact Hbar|]. now apply py_int_returns.
    + split; [reflexivity|]. now injection Hbar as <-.
Qed.

Lemma C3_binary64_witness :
  (cost_query account_A = inr costs_B /\ bars_defined costs_B) /\
  filter is_cost_row (output (check_cost_by_service account_A))
  = map (row_of (total_cost (collect_costs costs_B)))
        (firstn 10
           (sort_by_cost_desc
              (map entry_of (filter is_material (all_groups costs_B))))).
Proof.
  assert (Hbars : bars_defined costs_B).
  { unfold bars_defined. cbv zeta.
    repeat (constructor; [eexists; vm_compute; reflexivity|]). constructor. }
  split; [split; [reflexivity|exact Hbars]|].
  pose proof (C3_cost_table_binary64 account_A (response := costs_B)
                                     eq_refl Hbars) as H.
  cbv zeta in H.
  destruct H as (_ & _ & _ & _ & _ & _ & Hrows & _).
  exact Hrows.
Defined.

(** ** Exit status *)

(** C5, as stated, fails: the run ends with a status other than 0 although
    session acquisition did not fail when boto3 cannot be imported (status
    1, before any session), when the argument parser rejects the command
    line (status 2, before any session), when a client made outside a [try]
    cannot be created (here the ec2 client, no region being configured),
    when a query raises something other than a [ClientError] (here the
    endpoint of the inventory query cannot be reached), and when [int()]
    meets a NaN in the cost table; and an acquisition that fails otherwise
    than by missing credentials or an unknown profile (here an expired
    token) ends the run with status 1 as well. *)
Lemma C5_other_nonzero_exits :
  (program None no_options
   = ([Text "오류: boto3가 설치되지 않았습니다."; Text "설치 방법: pip install boto3"],
      inl (SystemExit 1)) /\
   exit_status (result (program None no_options)) = 1%Z) /\
  (program (Some (installed account_A)) (inl (SystemExit 2)) = ([], inl (SystemExit 2)) /\
   exit_status (result (program (Some (installed account_A)) (inl (SystemExit 2)))) = 2%Z) /\
  (acquire (installed no_region) None None = inr (no_region, operator) /\
   result (program (Some (installed no_region)) no_options)
   = inl (OtherException "NoRegionError" "You must specify a region.") /\
   exit_status (result (program (Some (installed no_region)) no_options)) = 1%Z) /\
  (acquire (installed unreachable) None None = inr (unreachable, operator) /\
   result (program (Some (installed unreachable)) no_options)
   = inl (OtherException "EndpointConnectionError"
                         "Could not connect to the endpoint URL") /\
   exit_status (result (program (Some (installed unreachable)) no_options)) = 1%Z) /\
  (acquire (installed (with_costs costs_infinite)) None None
   = inr (with_costs costs_infinite, operator) /\
   get_cost_and_usage (with_costs costs_infinite) = inr costs_infinite /\
   result (program (Some (installed (with_costs costs_infinite))) no_options)
   = inl ValueError /\
   exit_status (result (program (Some (installed (with_costs costs_infinite))) no_options))
   = 1%Z) /\
  (acquire (installed expired) None None
   = inl (ClientError "ExpiredToken"
                      "The security token included in the request is expired") /\
   program (Some (installed expired)) no_options
   = (header,
      inl (ClientError "ExpiredToken"
                       "The security token included in the request is expired")) /\
   exit_status (result (program (Some (installed expired)) no_options)) = 1%Z) /\
  ~ nonzero_only_when_acquisition_fails.
Proof.
  repeat match goal with
         | |- _ /\ _ => split
         end;
    try match goal with
        | |- _ = _ => vm_compute; reflexivity
        end.
  intros H.
  destruct (H None no_options) as (b & a & e & Hb & _); [|discriminate].
  vm_compute. discriminate.
Qed.

(** C5, amended.  The run ends with a status other than 0 only when boto3
    cannot be imported, when the argument parser does not return, when
    session acquisition failed, or when the account is not well behaved (a
    client made outside a [try] is not created, a query raises something
    other than a [ClientError], or [int()] is undefined for a bar).  With
    boto3 missing the status is 1; the status the parser exits with is that
    of the run; a failed acquisition gives status 1 with the help text for
    missing credentials or an unknown profile, and lets any other exception
    through.  With the session acquired and the account well behaved, every
    phase returns, a [ClientError] leaving its notice in the section of its
    phase (the not-enabled notice for OptInRequiredException), and the run
    returns with status 0 after the checklist and the footer. *)
Theorem C5_exit_status_of_the_run (boto3_module : option boto3) (parse_args : exn + args) :
  (exit_status (result (program boto3_module parse_args)) <> 0%Z ->
   boto3_module = None \/
   (exists e, parse_args = inl e) \/
   (exists b a e,
       boto3_module = Some b /\ parse_args = inr a /\
       acquire b (profile a) (region a) = inl e) \/
   (exists b a s i,
       boto3_module = Some b /\ parse_args = inr a /\
       acquire b (profile a) (region a) = inr (s, i) /\
       ~ well_behaved a s)) /\
  (boto3_module = None ->
   exit_status (result (program boto3_module parse_args)) = 1%Z) /\
  (forall b status,
      boto3_module = Some b ->
      parse_args = inl (SystemExit status) ->
      program boto3_module parse_args = ([], inl (SystemExit status)) /\
      exit_status (result (program boto3_module parse_args)) = status) /\
  (forall b a e,
      boto3_module = Some b ->
      parse_args = inr a ->
      acquire b (profile a) (region a) = inl e ->
      (e = NoCredentialsError \/ (exists msg, e = ProfileNotFound msg) ->
       exit_status (result (program boto3_module parse_args)) = 1%Z) /\
      (e <> NoCredentialsError -> (forall msg, e <> ProfileNotFound msg) ->
       program boto3_module parse_args = (header, inl e))) /\
  (forall b a s i,
      boto3_module = Some b ->
      parse_args = inr a ->
      acquire b (profile a) (region a) = inr (s, i) ->
      well_behaved a s ->
      returns (check_ec2_utilization s) (ec2_section s) tt /\
      (skip_cost a = false -> returns (check_cost_by_service s) (cost_section s) tt) /\
      returns (check_compute_optimizer s) (optimizer_section s) tt /\
      (forall inst code message,
          get_metric_statistics s (InstanceId inst) = inl (ClientError code message) ->
          instance_lines s inst
          = (if is_access_denied code
             then cloudwatch_permission_notice
             else CwFailed code)
            :: instance_report inst None) /\
      (forall code message,
          describe_instances s = inl (ClientError code message) ->
          ec2_section s
          = [banner; Text "1. EC2 인스턴스 사용률 분석"; banner;
             Ec2Failed message; Blank]) /\
      (forall code message,
          get_cost_and_usage s = inl (ClientError code message) ->
          cost_section s
          = [banner; Text "2. 서비스별 비용 분석 (최근 30일)"; banner;
             CostFailed message;
             Text "참고: Cost Explorer는 활성화되어 있어야 합니다.";
             Blank]) /\
      (forall code message,
          optimizer_query s = inl (ClientError code message) ->
          (code = "OptInRequiredException" ->
           optimizer_section s
           = [banner; Text "3. Compute Optimizer 추천 요약"; banner;
              Text "Compute Optimizer가 활성화되지 않았습니다.";
              Text "활성화 방법: AWS 콘솔 > Compute Optimizer > Opt in";
              Blank]) /\
          (code <> "OptInRequiredException" ->
           optimizer_section s
           = [banner; Text "3. Compute Optimizer 추천 요약"; banner;
              CoFailed message; Blank])) /\
      returns (program boto3_module parse_args)
              (header ++ auth_lines s i ++ ec2_section s ++ cost_or_skipped a s
               ++ optimizer_section s ++ tips_section ++ footer)
              tt /\
      exit_status (result (program boto3_module parse_args)) = 0%Z).
Proof.
  split; [|split; [|split; [|split]]].
  - intros Hexit. destruct boto3_module as [b|]; [right|now left].
    destruct parse_args as [e|a]; [left; now exists e|right].
    destruct (acquire b (profile a) (region a)) as [e|[s i]] eqn:Hacq;
      [left; now exists b, a, e|right].
    exists b, a, s, i.
    split; [reflexivity|]. split; [reflexivity|]. split; [exact Hacq|].
    intros Hwb. apply Hexit. cbn [program].
    now rewrite (machine_returns_result (@machine_main_acquired b a s i Hacq Hwb)).
  - intros ->. reflexivity.
  - intros b status -> ->. split; reflexivity.
  - intros b a e -> -> Hacq. cbn [program].
    destruct (@machine_main_not_acquired b a e Hacq) as (out & e' & Hmain & Hexit & Hother).
    split.
    + intros He. rewrite Hmain, (Hexit He). reflexivity.
    + intros H1 H2. destruct (Hother H1 H2) as [-> ->].
      now rewrite Hmain, app_nil_r.
  - intros b a s i -> -> Hacq Hwb. cbn [program].
    pose proof (@machine_main_acquired b a s i Hacq Hwb) as Hmain.
    destruct Hwb as (Hec2 & Hcw & Hd & Hm & Hcost & Hopt).
    split; [now apply machine_check_ec2_returns|].
    split.
    { intros Hskip. destruct (Hcost Hskip) as (Hce & Hq & Hbars).
      now apply machine_check_cost_returns. }
    split; [now apply machine_check_optimizer_returns|].
    split.
    { intros inst code message He.
      unfold instance_lines, metric_notice, metric_average. now rewrite He. }
    split.
    { intros code message He. unfold ec2_section. now rewrite He. }
    split.
    { intros code message He. unfold cost_section. now rewrite He. }
    split.
    { intros code message He. unfold optimizer_section. rewrite He. split.
      - intros ->. reflexivity.
      - intros Hne. apply String.eqb_neq in Hne. now rewrite Hne. }
    split; [exact Hmain|].
    now rewrite (machine_returns_result Hmain).
Qed.

Lemma account_A_well_behaved (a : args) : well_behaved a account_A.
Proof.
  unfold well_behaved.
  split; [reflexivity|]. split; [reflexivity|]. split; [exact I|].
  split.
  { intros response inst _ _. unfold account_A, metrics_A. cbn [get_metric_statistics].
    destruct (String.eqb (InstanceId inst) "i-01"); [exact I|].
    destruct (String.eqb (InstanceId inst) "i-02"); exact I. }
  split; [|exact I].
  intros _. split; [reflexivity|]. split; [exact I|].
  intros response [= <-].
  unfold bars_defined. cbv zeta.
  repeat (constructor; [eexists; vm_compute; reflexivity|]). constructor.
Defined.

Lemma C5_run_witness :
  acquire (installed account_A) None None = inr (account_A, operator) /\
  optimizer_section account_A
  = [banner; Text "3. Compute Optimizer 추천 요약"; banner;
     Text "Compute Optimizer가 활성화되지 않았습니다.";
     Text "활성화 방법: AWS 콘솔 > Compute Optimizer > Opt in";
     Blank] /\
  returns (program (Some (installed account_A)) no_options)
          (header ++ auth_lines account_A operator ++ ec2_section account_A
           ++ cost_section account_A ++ optimizer_section account_A
           ++ tips_section ++ footer)
          tt /\
  exit_status (result (program (Some (installed account_A)) no_options)) = 0%Z.
Proof.
  split; [reflexivity|].
  destruct (C5_exit_status_of_the_run (Some (installed account_A)) no_options)
    as (_ & _ & _ & _ & Hrun).
  destruct (Hrun (installed account_A) (mkArgs None None false) account_A operator
                 eq_refl eq_refl eq_refl
                 (account_A_well_behaved (mkArgs None None false)))
    as (_ & _ & _ & _ & _ & _ & Hopt & Hmain & Hexit).
  split; [|split; [exact Hmain|exact Hexit]].
  exact (proj1 (Hopt "OptInRequiredException" "The account is not opted in." eq_refl)
               eq_refl).
Defined.

(** Scenario B on the machine: the total is 150, EC2 has 80 percent and a
    bar of 24, S3 has 20 percent and a bar of 6. *)
Example scenario_B_binary64 :
  total_cost (collect_costs costs_B) = 150%float /\
  filter is_cost_row (output (check_cost_by_service account_A))
  = [CostRow 120 80 24 "Amazon Elastic Compute Cloud (EC2)";
     CostRow 30 20 6 "Amazon Simple Storage Service (S3)"] /\
  map shown_percentage (filter is_cost_row (output (check_cost_by_service account_A)))
  = [Decimal false 800; Decimal false 200].
Proof.
  repeat split; vm_compute; reflexivity.
Qed.

(** Scenario C on the machine: the optimizer answers
    OptInRequiredException, the section is the not-enabled notice and the
    run ends with status 0 after the checklist and the footer. *)
Example scenario_C :
  output (check_compute_optimizer account_A)
  = [banner; Text "3. Compute Optimizer 추천 요약"; banner;
     Text "Compute Optimizer가 활성화되지 않았습니다.";
     Text "활성화 방법: AWS 콘솔 > Compute Optimizer > Opt in";
     Blank] /\
  exit_status (result (program (Some (installed account_A)) no_options)) = 0%Z /\
  exists before,
    output (program (Some (installed account_A)) no_options)
    = before ++ tips_section ++ footer.
Proof.
  split; [reflexivity|].
  pose proof (@machine_main_acquired (installed account_A) (mkArgs None None false)
                account_A operator eq_refl
                (account_A_well_behaved (mkArgs None None false))) as H.
  unfold no_options. cbn [program].
  split; [now rewrite (machine_returns_result H)|].
  rewrite (machine_returns_output H).
  exists (header ++ auth_lines account_A operator ++ ec2_section account_A
          ++ cost_or_skipped (mkArgs None None false) account_A
          ++ optimizer_section account_A).
  repeat rewrite <- app_assoc. reflexivity.
Qed.

End OnTheMachine.
